(** * ComfyUI-Copilot backend: conversation memory, summary agent,
      model gateway and download progress.

    A shallow embedding of
      - backend/dao/session_message_table.py
      - backend/service/summary_agent.py
      - backend/service/message_memory.py
      - backend/utils/model_source_base.py, backend/utils/model_gateway.py
      - backend/controller/model_api.py (DownloadProgressCallback)
    followed by the properties proved about them.

    Conventions.  Python [int] is [Z]; Python [str] is [string], read as a
    sequence of ASCII characters ([is_ascii]: the tests that depend on the
    character class of a character are those of Python for ASCII only);
    the value of a Python [float] is a rational [Q]; the arithmetic of the
    download progress rounds, and its operations are the fields of a
    [FloatOps] that the definitions take as a parameter (the age of the
    local scanner's cache, a difference of two readings of the clock, is
    taken as it is); dicts used as maps are [gmap], dicts
    whose insertion order is observable are association lists; code that
    can raise returns a [Result]; code that mutates a store threads it
    through the monad [M]. *)

From Stdlib Require Import ZArith QArith Qround Lqa String Ascii List Sorted Permutation.
From stdpp Require Import base gmap strings list pretty.

Close Scope Q_scope.
Open Scope string_scope.
Open Scope list_scope.
Open Scope Z_scope.

(* ================================================================== *)
(** * Python primitives *)
(* ================================================================== *)

Module Py.

(** Exceptions deriving from [Exception]: a class and the text [str(e)]. *)
Inductive exn_class : Type :=
| TypeError | KeyError | AttributeError | AssertionError | ValueError
| OtherException (name : string).

Inductive exn : Type := Exn (cls : exn_class) (msg : string).

Definition exn_cls (e : exn) : exn_class := match e with Exn c _ => c end.
Definition str_exn (e : exn) : string := match e with Exn _ m => m end.

Definition is_TypeError (e : exn) : bool :=
  match exn_cls e with TypeError => true | _ => false end.

(** The outcome of evaluating an expression: a value or a raised exception. *)
Inductive Result (A : Type) : Type :=
| Ok (a : A)
| Raise (e : exn).
Arguments Ok {A} a.
Arguments Raise {A} e.

Definition rbind {A B} (r : Result A) (k : A -> Result B) : Result B :=
  match r with Ok a => k a | Raise e => Raise e end.

(** [try: body except Exception as e: handler(e)] on pure outcomes. *)
Definition rtry {A} (body : Result A) (handler : exn -> Result A) : Result A :=
  match body with Ok a => Ok a | Raise e => handler e end.

(** [[f(x) for x in xs]]: the first exception aborts the comprehension. *)
Fixpoint rmap {A B} (f : A -> Result B) (xs : list A) : Result (list B) :=
  match xs with
  | [] => Ok []
  | x :: xs' => rbind (f x) (fun y => rbind (rmap f xs') (fun ys => Ok (y :: ys)))
  end.

(** Computations over a mutable store [S] that may raise.  A raise keeps the
    store as it was when the exception left the failing statement. *)
Definition M (S A : Type) : Type := S -> Result A * S.

Definition ret {S A} (a : A) : M S A := fun s => (Ok a, s).
Definition raise {S A} (e : exn) : M S A := fun s => (Raise e, s).
Definition bind {S A B} (m : M S A) (k : A -> M S B) : M S B :=
  fun s => match m s with
           | (Ok a, s') => k a s'
           | (Raise e, s') => (Raise e, s')
           end.
Definition lift {S A} (r : Result A) : M S A := fun s => (r, s).
Definition try_except {S A} (body : M S A) (handler : exn -> M S A) : M S A :=
  fun s => match body s with
           | (Ok a, s') => (Ok a, s')
           | (Raise e, s') => handler e s'
           end.

(** ** Truthiness and [or] *)

Definition truthy_str (o : option string) : bool :=
  match o with Some s => negb (String.eqb s "") | None => false end.

(** [a or b] where [a] is an optional string and [b] a string. *)
Definition or_str (a : option string) (b : string) : string :=
  match a with Some s => if String.eqb s "" then b else s | None => b end.

(** [a or 0] where [a] is an optional int. *)
Definition or_int (a : option Z) : Z :=
  match a with Some z => z | None => 0 end.

(** ** Lists *)

Definition len {A} (l : list A) : Z := Z.of_nat (length l).

(** Normalisation of a slice bound against a sequence of length [n]
    (negative bounds count from the end, everything is clamped). *)
Definition slice_bound (n i : Z) : Z :=
  if i <? 0 then Z.max (i + n) 0 else Z.min i n.

(** [l[start:stop]] *)
Definition slice {A} (l : list A) (start stop : Z) : list A :=
  let a := slice_bound (len l) start in
  let b := slice_bound (len l) stop in
  take (Z.to_nat (b - a)) (drop (Z.to_nat a) l).

(** [l[start:]] *)
Definition slice_from {A} (l : list A) (start : Z) : list A :=
  drop (Z.to_nat (slice_bound (len l) start)) l.

(** ** Strings (ASCII) *)

(** [s.startswith(p)] *)
Definition startswith (s p : string) : bool := String.prefix p s.

(** [sub in s] *)
Fixpoint str_in (sub s : string) : bool :=
  if String.prefix sub s then true
  else match s with
       | EmptyString => false
       | String _ s' => str_in sub s'
       end.

Definition is_ascii_digit (c : ascii) : bool :=
  let n := nat_of_ascii c in (48 <=? n)%nat && (n <=? 57)%nat.

Fixpoint all_chars (p : ascii -> bool) (s : string) : bool :=
  match s with
  | EmptyString => true
  | String c s' => p c && all_chars p s'
  end.

(** [s.isdigit()] for an ASCII [s]: at least one character and all of
    them digits. *)
Definition isdigit (s : string) : bool :=
  match s with
  | EmptyString => false
  | _ => all_chars is_ascii_digit s
  end.

(** [s.isascii()]: every character is below 128. *)
Definition is_ascii (s : string) : bool :=
  all_chars (fun c => (nat_of_ascii c <? 128)%nat) s.

Fixpoint map_chars (f : ascii -> ascii) (s : string) : string :=
  match s with
  | EmptyString => EmptyString
  | String c s' => String (f c) (map_chars f s')
  end.

Definition upper_char (c : ascii) : ascii :=
  let n := nat_of_ascii c in
  if (97 <=? n)%nat && (n <=? 122)%nat then ascii_of_nat (n - 32) else c.
Definition lower_char (c : ascii) : ascii :=
  let n := nat_of_ascii c in
  if (65 <=? n)%nat && (n <=? 90)%nat then ascii_of_nat (n + 32) else c.

Definition upper : string -> string := map_chars upper_char.
Definition lower : string -> string := map_chars lower_char.

(** [c.isspace()] on ASCII: TAB, LF, VT, FF, CR, FS, GS, RS, US, SPACE. *)
Definition is_space (c : ascii) : bool :=
  let n := nat_of_ascii c in
  ((9 <=? n)%nat && (n <=? 13)%nat) || ((28 <=? n)%nat && (n <=? 32)%nat).

Fixpoint lstrip (s : string) : string :=
  match s with
  | EmptyString => EmptyString
  | String c s' => if is_space c then lstrip s' else s
  end.

Definition str_rev (s : string) : string :=
  string_of_list_ascii (rev (list_ascii_of_string s)).

(** [s.strip()] *)
Definition strip (s : string) : string := str_rev (lstrip (str_rev (lstrip s))).

(** [sep.join(parts)] *)
Fixpoint join (sep : string) (parts : list string) : string :=
  match parts with
  | [] => ""
  | [p] => p
  | p :: ps => (p ++ sep ++ join sep ps)%string
  end.

(** The comparison [a < b] on [str]. *)
Definition str_ltb (a b : string) : bool := String.ltb a b.

(** ** Sorting

    [list.sort(key=..., reverse=...)] is a stable sort that compares keys
    with [<] only; [reverse=True] keeps the original order of equal keys.
    It is modelled by a stable insertion sort over the same comparison. *)
Section Sort.
Context {A K : Type} (ltb : K -> K -> bool) (key : A -> K).

Fixpoint insert_asc (x : A) (l : list A) : list A :=
  match l with
  | [] => [x]
  | y :: l' => if ltb (key y) (key x) then y :: insert_asc x l' else x :: l
  end.

Fixpoint insert_desc (x : A) (l : list A) : list A :=
  match l with
  | [] => [x]
  | y :: l' => if ltb (key x) (key y) then y :: insert_desc x l' else x :: l
  end.

Definition sort (reverse : bool) (l : list A) : list A :=
  foldr (if reverse then insert_desc else insert_asc) [] l.
End Sort.

(** [a] may stand before [b] in a list sorted by descending integer key. *)
Definition descending {A} (key : A -> Z) (a b : A) : Prop := key b <= key a.

(** ** Dicts whose iteration order matters (insertion-ordered) *)
Section Dict.
Context {K V : Type} `{EqDecision K}.

Definition Dict : Type := list (K * V).

Fixpoint dict_get (d : Dict) (k : K) : option V :=
  match d with
  | [] => None
  | (k', v) :: d' => if decide (k' = k) then Some v else dict_get d' k
  end.

Definition dict_contains (d : Dict) (k : K) : bool :=
  match dict_get d k with Some _ => true | None => false end.

(** [d[k] = v]: overwrite in place, or append a new key. *)
Fixpoint dict_set (d : Dict) (k : K) (v : V) : Dict :=
  match d with
  | [] => [(k, v)]
  | (k', v') :: d' =>
      if decide (k' = k) then (k, v) :: d' else (k', v') :: dict_set d' k v
  end.

(** [dict(pairs)] *)
Definition dict_of (pairs : list (K * V)) : Dict :=
  foldl (fun d kv => dict_set d (fst kv) (snd kv)) [] pairs.

Definition keys (d : Dict) : list K := map fst d.
Definition values (d : Dict) : list V := map snd d.
End Dict.
Arguments Dict K V : clear implicits.

(** ** Floats

    The value of a float is a rational.  The operations of Python on
    floats round their result to a double, so they are not the operations
    of [Q]; the code that computes with floats takes them as a parameter. *)
Record FloatOps : Type := mkFloatOps {
  (** [float(n)], the conversion applied to an int operand of a float
      operation *)
  float_of_int : Z -> Q;
  (** [a / b] on two ints *)
  int_truediv : Z -> Z -> Q;
  (** [x - y], [x * y] and [x / y] on two floats *)
  float_sub : Q -> Q -> Q;
  float_mul : Q -> Q -> Q;
  float_div : Q -> Q -> Q;
  (** [round(x, 2)] *)
  float_round2 : Q -> Q;
  (** the literal [1e-6] *)
  float_1e_6 : Q
}.


(** Round half to even, to an integer. *)
Definition round_half_even (x : Q) : Z :=
  let f := Qfloor x in
  match Qcompare (x - inject_Z f)%Q (1 # 2)%Q with
  | Lt => f
  | Gt => f + 1
  | Eq => if Z.even f then f else f + 1
  end.

(** Rounding to two decimals, half to even, of an exact rational. *)
Definition round2 (x : Q) : Q := Qmake (round_half_even (x * 100)%Q) 100.

(** Floats without rounding errors: the operations of [Q].  The examples
    are computed with these. *)
Definition exact_float : FloatOps :=
  {| float_of_int := inject_Z;
     int_truediv := fun a b => (inject_Z a / inject_Z b)%Q;
     float_sub := Qminus;
     float_mul := Qmult;
     float_div := Qdiv;
     float_round2 := round2;
     float_1e_6 := (1 # 1000000)%Q |}.

(** Values of dynamic type, as far as the program inspects them: [None], a
    [str], an [int], or any other (structured) value, kept as its JSON text. *)
Inductive pyval : Type :=
| VNone
| VStr (s : string)
| VInt (z : Z)
| VOther (json : string).

End Py.

Import Py.

Declare Scope py_scope.
Delimit Scope py_scope with py.
Notation "x <- m ;; k" := (bind m (fun x => k))
  (at level 100, m at next level, right associativity) : py_scope.
Notation "m ;;; k" := (bind m (fun _ => k))
  (at level 100, right associativity) : py_scope.

(** A chat message: a dict with string keys. *)
Abbreviation Message := (gmap string pyval).

(* ================================================================== *)
(** * backend/dao/session_message_table.py *)
(* ================================================================== *)

Module SessionMessageTable.

(** One row of table [session_message].  The [messages] and [attributes]
    columns hold JSON text in the database; the model keeps the decoded
    value, as [to_dict] returns it. *)
Record SessionMessage : Type := mkSessionMessage {
  id_ : Z;
  session_id : string;
  messages : list Message;
  index : Z;
  summary : option string;
  attributes : option (gmap string pyval);
  created_at : Z
}.

(** The database: the rows by their unique [session_id].  The [index]
    column holds 64-bit integers and the database raises on another value;
    the model does not know this range, and the properties about an index
    given by the caller state it as a hypothesis. *)
Record DB : Type := mkDB {
  table : gmap string SessionMessage
}.

Definition empty_db : DB := {| table := ∅ |}.

(** The primary key that SQLite gives to a new row of a table whose key
    is not declared [AUTOINCREMENT]: one more than the largest key in use,
    and 1 in an empty table. *)
Definition new_key (t : gmap string SessionMessage) : Z :=
  match map_fold (fun _ r largest =>
                    Some (match largest with
                          | Some m => Z.max (id_ r) m
                          | None => id_ r
                          end)) None t with
  | Some m => m + 1
  | None => 1
  end.

(** What the database session does during one DAO call: [None] when the
    transaction goes through, [Some e] when it raises [e] (a failed
    transaction is rolled back, nothing is written); and the clock read by
    the [created_at] default. *)
Record Conn : Type := mkConn {
  get_fault : option exn;
  save_fault : option exn;
  update_fault : option exn;
  delete_fault : option exn;
  utcnow : Z
}.

Definition healthy (now : Z) : Conn :=
  {| get_fault := None; save_fault := None; update_fault := None;
     delete_fault := None; utcnow := now |}.

Definition truthy_attributes (a : option (gmap string pyval)) : bool :=
  match a with Some d => negb (bool_decide (d = ∅)) | None => false end.

Definition get_session_message (c : Conn) (session_id : string)
  : M DB (option SessionMessage) :=
  fun db => match get_fault c with
            | Some e => (Raise e, db)
            | None => (Ok (table db !! session_id), db)
            end.

Definition save_session_message (c : Conn) (session_id : string)
    (messages : list Message) (index : Z) (summary : option string)
    (attributes : option (gmap string pyval)) : M DB Z :=
  fun db =>
    match save_fault c with
    | Some e => (Raise e, db)
    | None =>
        match table db !! session_id with
        | Some record =>
            let record' :=
              {| id_ := id_ record;
                 session_id := SessionMessageTable.session_id record;
                 messages := messages;
                 index := index;
                 summary := summary;
                 attributes := if truthy_attributes attributes then attributes
                               else SessionMessageTable.attributes record;
                 created_at := created_at record |} in
            (Ok (id_ record),
             {| table := <[session_id := record']> (table db) |})
        | None =>
            let new_record :=
              {| id_ := new_key (table db);
                 session_id := session_id;
                 messages := messages;
                 index := index;
                 summary := summary;
                 attributes := if truthy_attributes attributes then attributes
                               else None;
                 created_at := utcnow c |} in
            (Ok (new_key (table db)),
             {| table := <[session_id := new_record]> (table db) |})
        end
    end.

Definition update_summary (c : Conn) (session_id : string)
    (summary : string) (index : Z) : M DB bool :=
  fun db =>
    match update_fault c with
    | Some e => (Raise e, db)
    | None =>
        match table db !! session_id with
        | Some record =>
            let record' :=
              {| id_ := id_ record;
                 session_id := SessionMessageTable.session_id record;
                 messages := messages record;
                 index := index;
                 summary := Some summary;
                 attributes := attributes record;
                 created_at := created_at record |} in
            (Ok true,
             {| table := <[session_id := record']> (table db) |})
        | None => (Ok false, db)
        end
    end.

Definition delete_session_message (c : Conn) (session_id : string) : M DB bool :=
  fun db =>
    match delete_fault c with
    | Some e => (Raise e, db)
    | None =>
        match table db !! session_id with
        | Some _ =>
            (Ok true, {| table := delete session_id (table db) |})
        | None => (Ok false, db)
        end
    end.

End SessionMessageTable.

(* ================================================================== *)
(** * backend/service/summary_agent.py *)
(* ================================================================== *)

Module SummaryAgent.

(** The chat-completions client built by [OpenAI(...)].  [parse] stands for
    [client.chat.completions.parse(...).choices[0].message.parsed], giving
    [None] or the [summary] field of the parsed [SummaryResponse]; [create]
    stands for [client.chat.completions.create(...).choices[0].message.content].
    Both take the model name, the system prompt and the user prompt. *)
Record Client : Type := mkClient {
  parse : string -> string -> string -> Result (option string);
  create : string -> string -> string -> Result (option string)
}.

(** What [generate_summary] imports from modules outside this development
    ([utils.request_context], [utils.globals], [openai]). *)
Record Imports : Type := mkImports {
  get_config : Result (option (gmap string string));
  LLM_DEFAULT_BASE_URL : string;
  WORKFLOW_MODEL_NAME : string;
  get_comfyui_copilot_api_key : Result (option string);
  OpenAI : string -> string -> Result Client
}.

Definition nl : string := String (ascii_of_nat 10) EmptyString.

(** One element of the comprehension that builds [messages_text]: skipped
    unless [content] is a [str]; [msg['role'].upper()] raises when the key
    is missing or the role is not a [str]. *)
Definition message_line (msg : Message) : Result (option string) :=
  match msg !! "content" with
  | Some (VStr content) =>
      match msg !! "role" with
      | Some (VStr role) =>
          Ok (Some ("**" ++ upper role ++ "**: " ++ content)%string)
      | Some _ => Raise (Exn AttributeError "object has no attribute 'upper'")
      | None => Raise (Exn KeyError "'role'")
      end
  | _ => Ok None
  end.

Definition messages_text (messages : list Message) : Result string :=
  rbind (rmap message_line messages)
        (fun lines => Ok (join (nl ++ nl)%string (omap (fun x => x) lines))).

Definition user_prompt_with_previous (previous_summary text : string) : string :=
  join nl
    [ "Please generate a concise summary of the following conversation history, integrating it with the previous summary.";
      "";
      "## Previous Summary";
      previous_summary;
      "";
      "## New Conversation Messages";
      text;
      "";
      "## Requirements";
      "- Maximum 200 words";
      "- Focus on key topics, decisions, and important context";
      "- Use clear, objective language";
      "- Integrate previous summary seamlessly with new information";
      "- Avoid redundancy";
      "" ].

Definition user_prompt_plain (text : string) : string :=
  join nl
    [ "Please generate a concise summary of the following conversation history.";
      "";
      "## Conversation Messages";
      text;
      "";
      "## Requirements";
      "- Maximum 200 words";
      "- Focus on key topics, decisions, and important context";
      "- Use clear, objective language";
      "" ].

Definition system_prompt : string :=
  join nl
    [ "You are an expert conversation summarizer. Your task is to create concise, informative summaries of conversation histories that preserve the most important information while reducing token usage.";
      "";
      "Focus on:";
      "- Main topics discussed";
      "- Key decisions or conclusions";
      "- Important technical details or requirements";
      "- User's goals and preferences";
      "- Context that would be needed for future interactions";
      "";
      "Keep summaries factual, objective, and efficient." ].

Definition NoneType_not_iterable : string := "'NoneType' object is not iterable".

(** The inner [try ... except TypeError] around the structured-output call. *)
Definition call_llm (client : Client) (model_name user_prompt : string)
  : Result (option string) :=
  match parse client model_name system_prompt user_prompt with
  | Ok result => Ok (Some (match result with Some s => s | None => "" end))
  | Raise e =>
      if is_TypeError e then
        if str_in NoneType_not_iterable (str_exn e)
        then create client model_name system_prompt user_prompt
        else Raise e
      else Raise e
  end.

(** The body of the outer [try]. *)
Definition generate_summary_body (env : Imports) (messages : list Message)
    (previous_summary : option string) : Result string :=
  rbind (messages_text messages) (fun text =>
  let user_prompt :=
    if truthy_str previous_summary
    then user_prompt_with_previous (or_str previous_summary "") text
    else user_prompt_plain text in
  rbind (get_config env) (fun cfg =>
  let config := match cfg with Some c => c | None => ∅ end in
  let base_url := or_str (config !! "openai_base_url") (LLM_DEFAULT_BASE_URL env) in
  rbind (if truthy_str (config !! "openai_api_key")
         then Ok (or_str (config !! "openai_api_key") "")
         else rbind (get_comfyui_copilot_api_key env)
                    (fun k => Ok (or_str k ""))) (fun api_key =>
  rbind (OpenAI env base_url api_key) (fun client =>
  let model_name := or_str (config !! "model_select") (WORKFLOW_MODEL_NAME env) in
  rbind (call_llm client model_name user_prompt) (fun summary_text =>
  if truthy_str summary_text
  then Ok (or_str summary_text "")
  else Ok ""))))).

(** What the body computes before it calls the LLM: the client, the name
    of the model and the user prompt. *)
Definition prepare_call (env : Imports) (messages : list Message)
    (previous_summary : option string) : Result (Client * string * string) :=
  rbind (messages_text messages) (fun text =>
  let user_prompt :=
    if truthy_str previous_summary
    then user_prompt_with_previous (or_str previous_summary "") text
    else user_prompt_plain text in
  rbind (get_config env) (fun cfg =>
  let config := match cfg with Some c => c | None => ∅ end in
  let base_url := or_str (config !! "openai_base_url") (LLM_DEFAULT_BASE_URL env) in
  rbind (if truthy_str (config !! "openai_api_key")
         then Ok (or_str (config !! "openai_api_key") "")
         else rbind (get_comfyui_copilot_api_key env)
                    (fun k => Ok (or_str k ""))) (fun api_key =>
  rbind (OpenAI env base_url api_key) (fun client =>
  let model_name := or_str (config !! "model_select") (WORKFLOW_MODEL_NAME env) in
  Ok (client, model_name, user_prompt))))).

(** The text built by the [except Exception] handler. *)
Definition fallback_summary (messages : list Message)
    (previous_summary : option string) : string :=
  let fallback := ("Conversation with " ++ pretty (len messages) ++ " messages")%string in
  if truthy_str previous_summary
  then (or_str previous_summary "" ++ " | " ++ fallback)%string
  else fallback.

Definition generate_summary (env : Imports) (messages : list Message)
    (previous_summary : option string) : Result string :=
  rtry (generate_summary_body env messages previous_summary)
       (fun _ => Ok (fallback_summary messages previous_summary)).

End SummaryAgent.

(* ================================================================== *)
(** * backend/service/message_memory.py *)
(* ================================================================== *)

Module MessageMemory.
Import SessionMessageTable.
Local Open Scope py_scope.

Definition COMPRESSION_THRESHOLD : Z := 8.
Definition KEEP_RECENT_MESSAGES : Z := 4.

(** The synthetic message that carries the summary. *)
Definition summary_context (summary : string) : Message :=
  <["role" := VStr "user"]>
    (<["content" := VStr ("[Context from previous conversation]: " ++ summary)%string]> ∅).

Definition _build_optimized_messages (summary : option string)
    (full_messages : list Message) (index : Z) : list Message :=
  let recent_messages := slice_from full_messages index in
  match summary with
  | Some s =>
      if truthy_str summary
         && (0 <? Z.of_nat (String.length (strip s)))
         && (0 <? len recent_messages)
      then summary_context s :: recent_messages
      else recent_messages
  | None => recent_messages
  end.

(** [message_memory_optimize], with the summarizer it calls as a parameter
    ([generate_summary] of the summary agent in the program). *)
Definition message_memory_optimize
    (generate_summary : list Message -> option string -> Result string)
    (c : Conn) (session_id : string) (messages : list Message)
  : M DB (list Message) :=
  try_except
    (record <- get_session_message c session_id ;;
     match record with
     | None =>
         save_session_message c session_id messages 0 None None ;;;
         ret messages
     | Some record =>
         let current_index := index record in
         let current_summary := summary record in
         save_session_message c session_id messages current_index current_summary None ;;;
         let uncompressed_count := len messages - current_index in
         if uncompressed_count <=? COMPRESSION_THRESHOLD then
           ret (_build_optimized_messages current_summary messages current_index)
         else
           let compress_end_index := len messages - KEEP_RECENT_MESSAGES in
           let messages_to_compress := slice messages current_index compress_end_index in
           new_summary <- lift (generate_summary messages_to_compress current_summary) ;;
           update_summary c session_id new_summary compress_end_index ;;;
           let optimized_messages :=
             _build_optimized_messages (Some new_summary) messages compress_end_index in
           ret optimized_messages
     end)
    (fun _ => ret messages).

Definition get_optimized_messages (c : Conn) (session_id : string)
  : M DB (list Message) :=
  try_except
    (record <- get_session_message c session_id ;;
     match record with
     | None => ret []
     | Some record =>
         ret (_build_optimized_messages (summary record) (messages record) (index record))
     end)
    (fun _ => ret []).

(** The program's call: the summarizer is the summary agent's
    [generate_summary], over whatever the agent's imports do. *)
Definition optimize (env : SummaryAgent.Imports)
  : Conn -> string -> list Message -> M DB (list Message) :=
  message_memory_optimize (SummaryAgent.generate_summary env).

(** One call of [message_memory_optimize] together with what its
    collaborators do during the call. *)
Record Call : Type := mkCall {
  call_summarizer : list Message -> option string -> Result string;
  call_conn : Conn;
  call_session : string;
  call_messages : list Message
}.

Definition step (k : Call) (db : DB) : DB :=
  snd (message_memory_optimize (call_summarizer k) (call_conn k)
         (call_session k) (call_messages k) db).

Fixpoint run (calls : list Call) (db : DB) : DB :=
  match calls with
  | [] => db
  | k :: rest => run rest (step k db)
  end.

(** The stored index lies within the stored message list. *)
Definition index_in_range (db : DB) : Prop :=
  forall sid r, table db !! sid = Some r -> 0 <= index r <= len (messages r).

(** The message list of a call is not shorter than the part of the stored
    conversation that is already summarised. *)
Definition call_covers_index (db : DB) (k : Call) : Prop :=
  forall r, table db !! call_session k = Some r -> index r <= len (call_messages k).

Fixpoint calls_cover_index (calls : list Call) (db : DB) : Prop :=
  match calls with
  | [] => True
  | k :: rest => call_covers_index db k /\ calls_cover_index rest (step k db)
  end.

(** A stored row after its message list was replaced. *)
Definition with_messages (r : SessionMessage) (messages : list Message)
  : SessionMessage :=
  {| id_ := id_ r; session_id := session_id r; messages := messages;
     index := index r; summary := summary r; attributes := attributes r;
     created_at := created_at r |}.

(** A stored row after a compaction. *)
Definition compacted (r : SessionMessage) (messages : list Message)
    (new_summary : string) (compress_end_index : Z) : SessionMessage :=
  {| id_ := id_ r; session_id := session_id r; messages := messages;
     index := compress_end_index; summary := Some new_summary;
     attributes := attributes r; created_at := created_at r |}.

Definition set_table (db : DB) (t : gmap string SessionMessage) : DB :=
  {| table := t |}.

End MessageMemory.

(* ================================================================== *)
(** * backend/utils/model_source_base.py *)
(* ================================================================== *)

Module ModelSourceBase.

Inductive ModelSourceType : Type :=
| HUGGINGFACE | CIVITAI | LOCAL | MODELSCOPE.

#[global] Instance ModelSourceType_eq_dec : EqDecision ModelSourceType.
Proof. solve_decision. Defined.

(** [str(source_type)] *)
Definition str_source_type (s : ModelSourceType) : string :=
  match s with
  | HUGGINGFACE => "ModelSourceType.HUGGINGFACE"
  | CIVITAI => "ModelSourceType.CIVITAI"
  | LOCAL => "ModelSourceType.LOCAL"
  | MODELSCOPE => "ModelSourceType.MODELSCOPE"
  end.

Record ModelInfo : Type := mkModelInfo {
  id_ : string;
  name : string;
  source : ModelSourceType;
  path : option string;
  description : option string;
  downloads : option Z;
  likes : option Z;
  tags : option (list string);
  last_updated : option string;
  size : option Z;
  model_type : option string;
  thumbnail_url : option string;
  author : option string;
  license : option string;
  metadata : option (gmap string pyval)
}.

Record SearchResult : Type := mkSearchResult {
  models : list ModelInfo;
  total : Z;
  result_source : ModelSourceType;
  page : Z;
  page_size : Z
}.

Definition Kwargs : Type := list (string * pyval).

(** A progress callback [callback(downloaded_bytes, total_bytes)]; the
    gateway only hands it on. *)
Definition ProgressCallback : Type := Z -> Z -> unit.

(** The interface [ModelSourceBase]: what a registered source answers.
    Every method may raise; the coroutines are taken at their outcome. *)
Record ModelSource : Type := mkModelSource {
  source_type : ModelSourceType;
  is_available : Result bool;
  (* search(query, page, page_size, model_type, sort_by, **kwargs) *)
  search : string -> Z -> Z -> option string -> option string -> Kwargs
           -> Result SearchResult;
  get_model_info : string -> Result (option ModelInfo);
  (* download_model(model_id, dest_dir, progress_callback, **kwargs) *)
  download_model : string -> string -> option ProgressCallback -> Kwargs
                   -> Result string;
  get_model_url : string -> Result string
}.

End ModelSourceBase.

(* ================================================================== *)
(** * backend/utils/model_gateway.py *)
(* ================================================================== *)

Module ModelGateway.
Import ModelSourceBase.

(** The gateway object: [self.sources], a dict in registration order. *)
Record Gateway : Type := mkGateway {
  sources : Dict ModelSourceType ModelSource
}.

(** [__init__]: each enabled source is registered unless its constructor
    raises; the order is HuggingFace, Civitai, Local. *)
Definition init (enable_huggingface enable_civitai enable_local : bool)
    (HuggingFaceSource CivitaiSource LocalModelScanner : Result ModelSource)
  : Gateway :=
  let register (enabled : bool) (k : ModelSourceType) (ctor : Result ModelSource)
               (d : Dict ModelSourceType ModelSource) :=
    if enabled then match ctor with Ok src => dict_set d k src | Raise _ => d end
    else d in
  {| sources :=
       register enable_local LOCAL LocalModelScanner
         (register enable_civitai CIVITAI CivitaiSource
            (register enable_huggingface HUGGINGFACE HuggingFaceSource [])) |}.

Definition get_source (self : Gateway) (source_type : ModelSourceType)
  : option ModelSource :=
  dict_get (sources self) source_type.

Definition empty_result (source_type : ModelSourceType) (page page_size : Z)
  : SearchResult :=
  {| models := []; total := 0; result_source := source_type;
     page := page; page_size := page_size |}.

(** The nested coroutine [search_source] of [search_all]. *)
Definition search_source (self : Gateway) (query : string) (page page_size : Z)
    (model_type sort_by : option string) (kwargs : Kwargs)
    (source_type : ModelSourceType) : Result (ModelSourceType * SearchResult) :=
  rtry
    (match dict_get (sources self) source_type with
     | None => Raise (Exn KeyError (str_source_type source_type))
     | Some source =>
         rbind (is_available source) (fun available =>
         if negb available
         then Ok (source_type, empty_result source_type page page_size)
         else rbind (search source query page page_size model_type sort_by kwargs)
                    (fun result => Ok (source_type, result)))
     end)
    (fun _ => Ok (source_type, empty_result source_type page page_size)).

(** The [SearchResult] that the task of one source contributes. *)
Definition answer (self : Gateway) (query : string) (page page_size : Z)
    (model_type sort_by : option string) (kwargs : Kwargs)
    (st : ModelSourceType) : SearchResult :=
  match search_source self query page page_size model_type sort_by kwargs st with
  | Ok (_, r) => r
  | Raise _ => empty_result st page page_size
  end.

(** The sources [search_all] dispatches to, before the registered ones are
    picked out: the caller's list, or every registered source. *)
Definition selected_sources (self : Gateway)
    (sources : option (list ModelSourceType)) : list ModelSourceType :=
  match sources with
  | Some (s :: l) => s :: l
  | _ => keys (ModelGateway.sources self)
  end.

(** [search_all].  [asyncio.gather] returns the tasks' results in the order
    of the tasks and re-raises the first exception of a task; the sources
    answer independently of each other, so the tasks are taken in order. *)
Definition search_all (self : Gateway) (query : string) (page page_size : Z)
    (model_type sort_by : option string)
    (sources : option (list ModelSourceType)) (kwargs : Kwargs)
  : Result (Dict ModelSourceType SearchResult) :=
  let search_sources := selected_sources self sources in
  let available_sources :=
    List.filter (fun s => dict_contains (ModelGateway.sources self) s) search_sources in
  match available_sources with
  | [] => Ok []
  | _ =>
      rbind (rmap (search_source self query page page_size model_type sort_by kwargs)
                  available_sources)
            (fun results => Ok (dict_of results))
  end.

Definition sort_by_is (sort_by : option string) (s : string) : bool :=
  match sort_by with Some x => String.eqb x s | None => false end.

(** The sort keys: [lambda m: m.downloads or 0] and its siblings. *)
Definition downloads_key (m : ModelInfo) : Z := or_int (downloads m).
Definition likes_key (m : ModelInfo) : Z := or_int (likes m).
Definition updated_key (m : ModelInfo) : string := or_str (last_updated m) "".
Definition name_key (m : ModelInfo) : string := lower (name m).

(** The unified re-sort of [search_unified]. *)
Definition sort_models (sort_by : option string) (combined_models : list ModelInfo)
  : list ModelInfo :=
  if sort_by_is sort_by "downloads" then
    sort Z.ltb downloads_key true combined_models
  else if sort_by_is sort_by "likes" then
    sort Z.ltb likes_key true combined_models
  else if sort_by_is sort_by "updated" then
    sort str_ltb updated_key true combined_models
  else if sort_by_is sort_by "name" then
    sort str_ltb name_key false combined_models
  else combined_models.

(** The loop over [all_results.items()]: the models of every source, in
    the order of the dict, and the sum of the totals. *)
Definition combine_models (all_results : Dict ModelSourceType SearchResult)
  : list ModelInfo :=
  foldl (fun acc kv => acc ++ models (snd kv)) [] all_results.
Definition total_of (all_results : Dict ModelSourceType SearchResult) : Z :=
  foldl (fun acc kv => acc + total (snd kv)) 0 all_results.

Definition search_unified (self : Gateway) (query : string) (page page_size : Z)
    (model_type sort_by : option string)
    (sources : option (list ModelSourceType)) (kwargs : Kwargs)
  : Result SearchResult :=
  rbind (search_all self query 1 (page_size * len (ModelGateway.sources self))
                    model_type sort_by sources kwargs) (fun all_results =>
  let combined_models := combine_models all_results in
  let total_count := total_of all_results in
  let combined_models := sort_models sort_by combined_models in
  let start := (page - 1) * page_size in
  let end_ := start + page_size in
  let page_models := slice combined_models start end_ in
  Ok {| models := page_models; total := total_count; result_source := LOCAL;
        page := page; page_size := page_size |}).

(** The last resort of [get_model_info]: every source in registration
    order; a source that raises or answers [None] is skipped. *)
Fixpoint try_all_sources (srcs : list ModelSource) (model_id : string)
  : option ModelInfo :=
  match srcs with
  | [] => None
  | source :: rest =>
      match ModelSourceBase.get_model_info source model_id with
      | Ok (Some info) => Some info
      | _ => try_all_sources rest model_id
      end
  end.

Definition get_model_info (self : Gateway) (model_id : string)
    (source_type : option ModelSourceType) : Result (option ModelInfo) :=
  match source_type with
  | Some st =>
      match dict_get (sources self) st with
      | Some source => ModelSourceBase.get_model_info source model_id
      | None => Ok None
      end
  | None =>
      let try_all := Ok (try_all_sources (values (sources self)) model_id) in
      if startswith model_id "local:" then
        match dict_get (sources self) LOCAL with
        | Some source => ModelSourceBase.get_model_info source model_id
        | None => try_all
        end
      else if str_in "/" model_id then
        match dict_get (sources self) HUGGINGFACE with
        | Some source => ModelSourceBase.get_model_info source model_id
        | None => try_all
        end
      else if isdigit model_id then
        match dict_get (sources self) CIVITAI with
        | Some source => ModelSourceBase.get_model_info source model_id
        | None => try_all
        end
      else try_all
  end.

Definition download_model (self : Gateway) (model_id dest_dir : string)
    (source_type : option ModelSourceType)
    (progress_callback : option ProgressCallback) (kwargs : Kwargs)
  : Result string :=
  rbind
    (match source_type with
     | Some st =>
         match dict_get (sources self) st with
         | Some source => Ok source
         | None =>
             Raise (Exn ValueError ("Source " ++ str_source_type st ++ " not available"))
         end
     | None =>
         rbind
           (if startswith model_id "local:" then Ok (dict_get (sources self) LOCAL)
            else if str_in "/" model_id then Ok (dict_get (sources self) HUGGINGFACE)
            else if isdigit model_id then Ok (dict_get (sources self) CIVITAI)
            else Raise (Exn ValueError
                          ("Could not infer source from model_id: " ++ model_id)))
           (fun source =>
              match source with
              | Some source => Ok source
              | None =>
                  Raise (Exn ValueError
                           ("No source available for model_id: " ++ model_id))
              end)
     end)
    (fun source =>
       ModelSourceBase.download_model source model_id dest_dir progress_callback kwargs).

Definition get_model_url (self : Gateway) (model_id : string)
    (source_type : option ModelSourceType) : Result (option string) :=
  let source :=
    match source_type with
    | Some st => Some (dict_get (sources self) st)
    | None =>
        if startswith model_id "local:" then Some (dict_get (sources self) LOCAL)
        else if str_in "/" model_id then Some (dict_get (sources self) HUGGINGFACE)
        else if isdigit model_id then Some (dict_get (sources self) CIVITAI)
        else None
    end in
  match source with
  | Some (Some source) =>
      rbind (ModelSourceBase.get_model_url source model_id) (fun u => Ok (Some u))
  | _ => Ok None
  end.

(** [info] is the answer of the first source of [srcs] that returns a
    model: every source before it raised or returned [None]. *)
Definition first_non_null (srcs : list ModelSource) (model_id : string)
    (info : ModelInfo) : Prop :=
  exists before source after,
    srcs = before ++ source :: after
    /\ ModelSourceBase.get_model_info source model_id = Ok (Some info)
    /\ forall s, s ∈ before ->
         forall i, ModelSourceBase.get_model_info s model_id <> Ok (Some i).

End ModelGateway.

(* ================================================================== *)
(** * backend/controller/model_api.py: DownloadProgressCallback *)
(* ================================================================== *)

Module ModelApi.

Inductive Status : Type := downloading | completed | failed.

(** A value of the global dict [download_progress].  Key [total_time] is
    absent until [end] writes it. *)
Record ProgressRecord : Type := mkProgressRecord {
  id_ : string;
  filename : string;
  file_size : Z;
  progress : Z;
  percentage : Q;
  status : Status;
  start_time : Q;
  estimated_time : option Q;
  speed : Q;
  error_message : option string;
  total_time : option Q
}.

(** The attributes of a [DownloadProgressCallback] object. *)
Record DownloadProgressCallback : Type := mkCallback {
  self_id : string;
  self_filename : string;
  self_file_size : Z;
  download_id : string;
  self_progress : Z;
  self_status : Status;
  self_error_message : option string;
  self_start_time : Q
}.

(** The store the methods act on: the callback object and the registry it
    shares with the readers of the progress. *)
Record Store : Type := mkStore {
  self : DownloadProgressCallback;
  download_progress : gmap string ProgressRecord
}.

(** [x > 0] on floats *)
Definition Qpos_b (x : Q) : bool := negb (Qle_bool x 0).

(** [__init__]; [now] is the reading of [time.time()]. *)
Definition init (id filename : string) (file_size : Z) (download_id : string)
    (now : Q) (registry : gmap string ProgressRecord) : Store :=
  {| self := {| self_id := id; self_filename := filename;
                self_file_size := file_size; download_id := download_id;
                self_progress := 0; self_status := downloading;
                self_error_message := None; self_start_time := now |};
     download_progress :=
       <[download_id :=
           {| id_ := id; filename := filename; file_size := file_size;
              progress := 0; percentage := 0; status := downloading;
              start_time := now; estimated_time := None; speed := 0;
              error_message := None; total_time := None |}]> registry |}.

Definition set_progress (self : DownloadProgressCallback) (p : Z)
  : DownloadProgressCallback :=
  {| self_id := self_id self; self_filename := self_filename self;
     self_file_size := self_file_size self; download_id := download_id self;
     self_progress := p; self_status := self_status self;
     self_error_message := self_error_message self;
     self_start_time := self_start_time self |}.

Definition set_status (self : DownloadProgressCallback) (s : Status)
    (err : option string) : DownloadProgressCallback :=
  {| self_id := self_id self; self_filename := self_filename self;
     self_file_size := self_file_size self; download_id := download_id self;
     self_progress := self_progress self; self_status := s;
     self_error_message := err;
     self_start_time := self_start_time self |}.

Section Float.
Context (fl : FloatOps).

(** The percentage computed by [update] before rounding:
    [(self.progress / self.file_size) * 100 if self.file_size > 0 else 0]. *)
Definition raw_percentage (progress file_size : Z) : Q :=
  if 0 <? file_size
  then float_mul fl (int_truediv fl progress file_size) 100
  else 0%Q.

(** [update(size)]; [current_time] is the reading of [time.time()]. *)
Definition update (size : Z) (current_time : Q) : M Store unit :=
  fun st =>
    let this := set_progress (self st) (self_progress (self st) + size) in
    let elapsed_time := float_sub fl current_time (self_start_time this) in
    let '(speed, estimated_time) :=
      if Qpos_b elapsed_time then
        let speed :=
          float_div fl (float_of_int fl (self_progress this)) elapsed_time in
        if Qpos_b speed && (self_progress this <? self_file_size this) then
          let remaining_bytes := self_file_size this - self_progress this in
          (speed, Some (float_div fl (float_of_int fl remaining_bytes) speed))
        else (speed, None)
      else (0%Q, None) in
    let percentage := raw_percentage (self_progress this) (self_file_size this) in
    let registry :=
      match download_progress st !! download_id this with
      | Some progress_dict =>
          <[download_id this :=
              {| id_ := id_ progress_dict;
                 filename := filename progress_dict;
                 file_size := file_size progress_dict;
                 progress := self_progress this;
                 percentage := float_round2 fl percentage;
                 status := status progress_dict;
                 start_time := start_time progress_dict;
                 estimated_time :=
                   match estimated_time with
                   | Some t =>
                       if Qeq_bool t 0 then None else Some (float_round2 fl t)
                   | None => None
                   end;
                 speed := float_round2 fl speed;
                 error_message := error_message progress_dict;
                 total_time := total_time progress_dict |}]>
            (download_progress st)
      | None => download_progress st
      end in
    (Ok tt, {| self := this; download_progress := registry |}).

(** [end(success, error_message)]; the [assert] leaves the method before
    the registry is touched. *)
Definition end_ (success : bool) (error_message : option string)
    (current_time : Q) : M Store unit :=
  fun st =>
    let total_time := float_sub fl current_time (self_start_time (self st)) in
    let checked : Result DownloadProgressCallback :=
      if success then
        let this := set_status (self st) completed (self_error_message (self st)) in
        if self_progress this =? self_file_size this then Ok this
        else Raise (Exn AssertionError
                      ("Download incomplete: " ++ pretty (self_progress this)
                         ++ "/" ++ pretty (self_file_size this)))
      else Ok (set_status (self st) failed error_message) in
    match checked with
    | Raise e =>
        (Raise e,
         {| self := set_status (self st) completed (self_error_message (self st));
            download_progress := download_progress st |})
    | Ok this =>
        let registry :=
          match download_progress st !! download_id this with
          | Some progress_dict =>
              <[download_id this :=
                  {| id_ := id_ progress_dict;
                     filename := filename progress_dict;
                     file_size := file_size progress_dict;
                     progress := if success then self_file_size this
                                 else self_progress this;
                     percentage :=
                       if 0 <? self_file_size this then
                         if success then 100%Q
                         else float_mul fl
                                (int_truediv fl (self_progress this)
                                   (self_file_size this)) 100
                       else 0%Q;
                     status := self_status this;
                     start_time := start_time progress_dict;
                     estimated_time := estimated_time progress_dict;
                     speed := speed progress_dict;
                     error_message := self_error_message this;
                     total_time := Some (float_round2 fl total_time) |}]>
                (download_progress st)
          | None => download_progress st
          end in
        (Ok tt, {| self := this; download_progress := registry |})
    end.

(** [fail(error_message)] *)
Definition fail (error_message : string) (current_time : Q) : M Store unit :=
  end_ false (Some error_message) current_time.

(** A run of [update] calls, each with its byte count and clock reading. *)
Fixpoint updates (calls : list (Z * Q)) (st : Store) : Store :=
  match calls with
  | [] => st
  | (size, t) :: rest => updates rest (snd (update size t st))
  end.

End Float.


(** The record of this callback's download in the registry. *)
Definition recorded (st : Store) : option ProgressRecord :=
  download_progress st !! download_id (self st).

End ModelApi.

(* ================================================================== *)
(** * backend/dao/session_message_table.py: sequences of DAO calls *)
(* ================================================================== *)

Module SessionOps.
Import SessionMessageTable.

(** One call of a DAO function, with what the database session does
    during the call. *)
Inductive DaoCall : Type :=
| CallGet (c : Conn) (session_id : string)
| CallSave (c : Conn) (session_id : string) (messages : list Message)
           (index : Z) (summary : option string)
           (attributes : option (gmap string pyval))
| CallUpdate (c : Conn) (session_id : string) (summary : string) (index : Z)
| CallDelete (c : Conn) (session_id : string).

Definition dao_step (k : DaoCall) (db : DB) : DB :=
  match k with
  | CallGet c sid => snd (get_session_message c sid db)
  | CallSave c sid msgs i s a => snd (save_session_message c sid msgs i s a db)
  | CallUpdate c sid s i => snd (update_summary c sid s i db)
  | CallDelete c sid => snd (delete_session_message c sid db)
  end.

Fixpoint dao_run (calls : list DaoCall) (db : DB) : DB :=
  match calls with
  | [] => db
  | k :: rest => dao_run rest (dao_step k db)
  end.

(** No two rows share a primary key. *)
Definition keys_unique (db : DB) : Prop :=
  forall sid1 sid2 r1 r2,
    table db !! sid1 = Some r1 -> table db !! sid2 = Some r2 ->
    id_ r1 = id_ r2 -> sid1 = sid2.

(** Whether the call is a delete of the session [sid]. *)
Definition deletes (sid : string) (k : DaoCall) : bool :=
  match k with
  | CallDelete _ sid' => String.eqb sid' sid
  | _ => false
  end.

End SessionOps.

(* ================================================================== *)
(** * backend/service/message_memory.py: statistics *)
(* ================================================================== *)

Module MessageMemoryStats.
Import SessionMessageTable MessageMemory.
Local Open Scope py_scope.

(** The dict returned by [get_compression_stats]; key [compression_ratio]
    is present only for a stored session. *)
Record Stats : Type := mkStats {
  exists_ : bool;
  total_messages : Z;
  compressed_messages : Z;
  uncompressed_messages : Z;
  has_summary : bool;
  summary_length : Z;
  compression_ratio : option string
}.

(** The result of [get_compression_stats]: the statistics, or the dict
    [{"error": str(e)}]. *)
Inductive StatsResult : Type :=
| StatsOk (s : Stats)
| StatsError (message : string).

Definition get_compression_stats (c : Conn) (session_id : string)
  : M DB StatsResult :=
  try_except
    (record <- get_session_message c session_id ;;
     match record with
     | None =>
         ret (StatsOk {| exists_ := false; total_messages := 0;
                         compressed_messages := 0; uncompressed_messages := 0;
                         has_summary := false; summary_length := 0;
                         compression_ratio := None |})
     | Some record =>
         let total := len (messages record) in
         let compressed := index record in
         let uncompressed := total - compressed in
         ret (StatsOk
                {| exists_ := true;
                   total_messages := total;
                   compressed_messages := compressed;
                   uncompressed_messages := uncompressed;
                   has_summary := truthy_str (summary record);
                   summary_length :=
                     (if truthy_str (summary record)
                      then Z.of_nat (String.length (or_str (summary record) ""))
                      else 0);
                   compression_ratio :=
                     Some (if 0 <? total
                           then (pretty compressed ++ "/" ++ pretty total)%string
                           else "0/0"%string) |})
     end)
    (fun e => ret (StatsError (str_exn e))).

End MessageMemoryStats.

(* ================================================================== *)
(** * backend/service/summary_agent.py: the messages that reach the prompt *)
(* ================================================================== *)

Module SummaryAgentText.

(** The filter of the comprehension in [generate_summary]:
    [isinstance(msg.get('content'), str)]. *)
Definition has_text_content (msg : Message) : bool :=
  match msg !! "content" with
  | Some (VStr _) => true
  | _ => false
  end.

(** The lines of the prompt, one per message with text content. *)
Definition text_lines (messages : list Message) : Result (list string) :=
  rbind (rmap SummaryAgent.message_line messages)
        (fun lines => Ok (omap (fun x => x) lines)).

End SummaryAgentText.

(* ================================================================== *)
(** * backend/utils/model_gateway.py: totals *)
(* ================================================================== *)

Module ModelGatewayMore.
Import ModelSourceBase ModelGateway.

(** The sum of the totals of the per-source results. *)
Definition sum_of_totals (all_results : Dict ModelSourceType SearchResult) : Z :=
  foldr Z.add 0 (map (fun kv => total (snd kv)) all_results).

End ModelGatewayMore.

(* ================================================================== *)
(** * More Python primitives: splitting, paths *)
(* ================================================================== *)

Module PyPath.

(** [s.split(sep)] for a one-character separator: never empty. *)
Fixpoint split_char (sep : ascii) (s : string) : list string :=
  match s with
  | EmptyString => [EmptyString]
  | String c s' =>
      if Ascii.eqb c sep then EmptyString :: split_char sep s'
      else match split_char sep s' with
           | p :: ps => String c p :: ps
           | [] => [String c EmptyString]
           end
  end.

Definition slash : ascii := "/"%char.
Definition dot : ascii := "."%char.

(** [s.capitalize()] *)
Definition capitalize (s : string) : string :=
  match s with
  | EmptyString => EmptyString
  | String c s' => String (upper_char c) (lower s')
  end.

(** [s.rstrip('/')] *)
Definition rstrip_slash (s : string) : string :=
  let fix lstrip_slash (s : string) : string :=
    match s with
    | String c s' => if Ascii.eqb c slash then lstrip_slash s' else s
    | EmptyString => EmptyString
    end in
  str_rev (lstrip_slash (str_rev s)).

(** [os.path.basename(p)] on POSIX: what follows the last slash. *)
Definition basename (p : string) : string :=
  List.last (split_char slash p) EmptyString.

(** [os.path.dirname(p)] on POSIX: what precedes the last slash, without
    trailing slashes unless it consists of slashes only. *)
Definition dirname (p : string) : string :=
  match split_char slash p with
  | [] | [_] => EmptyString
  | parts =>
      let head := (join "/" (removelast parts) ++ "/")%string in
      if all_chars (fun c => Ascii.eqb c slash) head then head
      else rstrip_slash head
  end.

(** [os.path.splitext(p)[1]]: the last dot of the base name and what
    follows it, unless only dots precede it. *)
Definition splitext_ext (p : string) : string :=
  match split_char dot (basename p) with
  | [] | [_] => EmptyString
  | parts =>
      let stem := join "." (removelast parts) in
      if all_chars (fun c => Ascii.eqb c dot) stem then EmptyString
      else String dot (List.last parts EmptyString)
  end.

(** [os.path.join(a, b)] on POSIX. *)
Definition path_join (a b : string) : string :=
  if startswith b "/" then b
  else if String.eqb a "" then b
  else if Ascii.eqb (List.last (list_ascii_of_string a) slash) slash
       then (a ++ b)%string
       else (a ++ "/" ++ b)%string.

(** [d.get(key, default)] on a dict literal with string values. *)
Fixpoint get_default (d : list (string * string)) (key default : string) : string :=
  match d with
  | [] => default
  | (k, v) :: d' => if String.eqb k key then v else get_default d' key default
  end.

(** [key in d] on a dict literal. *)
Definition has_key (d : list (string * string)) (key : string) : bool :=
  existsb (fun kv => String.eqb (fst kv) key) d.

End PyPath.

(* ================================================================== *)
(** * backend/utils/model_source_base.py: default methods *)
(* ================================================================== *)

Module ModelSourceDefaults.

(** [validate_model_id] of the base class. *)
Definition validate_model_id (model_id : string) : bool :=
  negb (String.eqb model_id "")
  && (0 <? Z.of_nat (String.length (strip model_id))).

Definition supports_download : bool := true.

End ModelSourceDefaults.

(* ================================================================== *)
(** * backend/utils/civitai_source.py: ids, URLs and type names *)
(* ================================================================== *)

Module CivitaiSource.
Import PyPath.

Definition API_BASE : string := "https://civitai.com/api/v1".
Definition CIVITAI_BASE : string := "https://civitai.com".

Definition get_model_url (model_id : string) : string :=
  (CIVITAI_BASE ++ "/models/" ++ model_id)%string.

Definition validate_model_id (model_id : string) : bool :=
  if String.eqb model_id "" then false else isdigit model_id.

(** The table of [_parse_model] from Civitai's type names, lower-cased, to
    the standard ones. *)
Definition type_map : list (string * string) :=
  [ ("checkpoint", "checkpoint"); ("lora", "lora");
    ("textualinversion", "embedding"); ("hypernetwork", "hypernetwork");
    ("aestheticgradient", "aesthetic"); ("controlnet", "controlnet");
    ("poses", "poses"); ("vae", "vae"); ("upscaler", "upscaler");
    ("motionmodule", "motion") ].

(** [_parse_model]: the standard type of a model whose ["type"] is [type_]. *)
Definition parsed_model_type (type_ : string) : string :=
  let model_type_raw := lower type_ in
  get_default type_map model_type_raw model_type_raw.

(** The table of [search] from the standard type names to Civitai's. *)
Definition reverse_type_map : list (string * string) :=
  [ ("checkpoint", "Checkpoint"); ("lora", "LORA");
    ("embedding", "TextualInversion"); ("hypernetwork", "Hypernetwork");
    ("controlnet", "Controlnet"); ("vae", "VAE"); ("upscaler", "Upscaler") ].

(** [search]: the value of the ["types"] parameter for a type filter. *)
Definition civitai_type (model_type : string) : string :=
  get_default reverse_type_map (lower model_type) (capitalize model_type).

Definition sort_map : list (string * string) :=
  [ ("downloads", "Most Downloaded"); ("likes", "Most Liked");
    ("newest", "Newest"); ("rating", "Highest Rated");
    ("updated", "Most Downloaded") ].

(** [search]: the value of the ["sort"] parameter. *)
Definition sort_param (sort_by : string) : string :=
  get_default sort_map sort_by "Most Downloaded".

(** [search]: the value of the ["limit"] parameter. *)
Definition limit_param (page_size : Z) : Z := Z.min page_size 100.

End CivitaiSource.

(* ================================================================== *)
(** * backend/utils/huggingface_source.py: ids and URLs *)
(* ================================================================== *)

Module HuggingFaceSource.
Import PyPath.

Definition API_BASE : string := "https://huggingface.co/api".
Definition HF_BASE : string := "https://huggingface.co".

Definition get_model_url (model_id : string) : string :=
  (HF_BASE ++ "/" ++ model_id)%string.

Definition validate_model_id (model_id : string) : bool :=
  if String.eqb model_id "" then false
  else
    let parts := split_char slash model_id in
    (Z.of_nat (length parts) =? 2)
    && forallb (fun p => 0 <? Z.of_nat (String.length (strip p))) parts.

End HuggingFaceSource.

(* ================================================================== *)
(** * backend/utils/local_model_scanner.py *)
(* ================================================================== *)

Module LocalModelScanner.
Import ModelSourceBase PyPath.
Local Open Scope py_scope.

Definition MODEL_EXTENSIONS : list string :=
  [ ".safetensors"; ".ckpt"; ".pt"; ".pth"; ".bin";
    ".onnx"; ".pb"; ".tflite"; ".h5" ].

(** What the scanner sees of the file system and of ComfyUI's
    [folder_paths]: the configured folders ([folder key -> paths]), whether
    a path exists, the directories below a path with their files
    ([os.walk]), the size and ISO modification time of a file ([os.stat],
    which may raise), and [os.path.relpath]. *)
Record FileSystem : Type := mkFileSystem {
  folder_names_and_paths : list (string * list string);
  path_exists : string -> bool;
  walk : string -> list (string * list string);
  stat : string -> Result (Z * string);
  relpath : string -> string -> string
}.

(** The attributes of a scanner that change: the cache and its time stamp. *)
Record Scanner : Type := mkScanner {
  _model_cache : option (list ModelInfo);
  _cache_timestamp : option Q
}.

Definition _cache_ttl : Q := 300.

(** [__init__] *)
Definition new : Scanner := {| _model_cache := None; _cache_timestamp := None |}.

Definition source_type : ModelSourceType := LOCAL.
Definition is_available : bool := true.
Definition supports_download : bool := false.

(** [_should_refresh_cache]; [now] is [datetime.now().timestamp()]. *)
Definition _should_refresh_cache (now : Q) (self : Scanner) : bool :=
  match _model_cache self, _cache_timestamp self with
  | Some _, Some stamp => negb (Qle_bool (now - stamp) _cache_ttl)
  | _, _ => true
  end.

Definition folder_type_map : list (string * string) :=
  [ ("checkpoints", "checkpoint"); ("loras", "lora"); ("vae", "vae");
    ("vae_approx", "vae"); ("controlnet", "controlnet"); ("clip", "clip");
    ("clip_vision", "clip_vision"); ("style_models", "style");
    ("embeddings", "embedding"); ("hypernetworks", "hypernetwork");
    ("upscale_models", "upscaler"); ("unet", "unet");
    ("diffusion_models", "checkpoint") ].

Definition _infer_model_type (file_path model_type_key : string) : string :=
  let path_lower := lower file_path in
  let filename := basename path_lower in
  let base_type := get_default folder_type_map model_type_key model_type_key in
  if str_in "lora" filename || str_in "lycoris" filename then "lora"
  else if str_in "controlnet" filename || str_in "control_" filename then "controlnet"
  else if str_in "vae" filename then "vae"
  else if str_in "clip" filename then "clip"
  else if str_in "upscale" filename || str_in "esrgan" filename then "upscaler"
  else if str_in "embedding" filename || str_in "textual" filename then "embedding"
  else base_type.

Definition tag_patterns : list (string * string) :=
  [ ("sd15", "sd1.5"); ("sd1.5", "sd1.5"); ("sd2", "sd2"); ("sd2.1", "sd2.1");
    ("sdxl", "sdxl"); ("sd3", "sd3"); ("flux", "flux");
    ("realistic", "realistic"); ("anime", "anime"); ("cartoon", "cartoon");
    ("3d", "3d"); ("photorealistic", "photorealistic");
    ("portrait", "portrait"); ("landscape", "landscape"); ("fp16", "fp16");
    ("fp32", "fp32"); ("ema", "ema"); ("pruned", "pruned") ].

Definition _extract_tags_from_filename (filename : string) : list string :=
  let filename_lower := lower filename in
  map snd (List.filter (fun pt => str_in (fst pt) filename_lower) tag_patterns).

(** The body of the innermost loop of [_scan_models] for one file of a
    walked directory: nothing for an extension that is not supported. *)
Definition scan_file (fs : FileSystem) (model_type_key base_path root file : string)
  : option ModelInfo :=
  let ext := lower (splitext_ext file) in
  if negb (existsb (String.eqb ext) MODEL_EXTENSIONS) then None
  else
    let full_path := path_join root file in
    let rel_path := relpath fs full_path base_path in
    let '(size, modified) :=
      match stat fs full_path with
      | Ok (st_size, mtime) => (st_size, Some mtime)
      | Raise _ => (0, None)
      end in
    let model_type := _infer_model_type full_path model_type_key in
    let tags := _extract_tags_from_filename file in
    let model_id := ("local:" ++ model_type_key ++ "/" ++ rel_path)%string in
    Some {| id_ := model_id;
            name := file;
            source := LOCAL;
            path := if String.eqb (dirname rel_path) "" then None
                    else Some (dirname rel_path);
            description := Some ("Local model in " ++ model_type_key)%string;
            downloads := None;
            likes := None;
            tags := Some tags;
            last_updated := modified;
            size := Some size;
            model_type := Some model_type;
            thumbnail_url := None;
            author := None;
            license := None;
            metadata :=
              Some (<["full_path" := VStr full_path]>
                   (<["relative_path" := VStr rel_path]>
                   (<["folder_type" := VStr model_type_key]>
                   (<["base_path" := VStr base_path]> ∅)))) |}.

(** [_scan_models]: every folder key, every existing base path of it, every
    directory below it, every file. *)
Definition _scan_models (fs : FileSystem) : list ModelInfo :=
  concat (map (fun entry : string * list string =>
    let (model_type_key, paths_list) := entry in
    concat (map (fun base_path =>
      if negb (path_exists fs base_path) then []
      else
        concat (map (fun dir : string * list string =>
          let (root, files) := dir in
          omap (scan_file fs model_type_key base_path root) files)
          (walk fs base_path)))
      paths_list))
    (folder_names_and_paths fs)).

(** [_get_models(force_refresh)]; [now] is the clock when the cache is
    checked and [now'] the clock after the scan. *)
Definition _get_models (fs : FileSystem) (force_refresh : bool) (now now' : Q)
  : M Scanner (list ModelInfo) :=
  fun self =>
    let self' :=
      if force_refresh || _should_refresh_cache now self
      then {| _model_cache := Some (_scan_models fs);
              _cache_timestamp := Some now' |}
      else self in
    (Ok (match _model_cache self' with Some l => l | None => [] end), self').

(** The condition of the query filter of [search]. *)
Definition matches_query (query_lower : string) (m : ModelInfo) : bool :=
  str_in query_lower (lower (name m))
  || match path m with
     | Some p => negb (String.eqb p "") && str_in query_lower (lower p)
     | None => false
     end.

(** The condition of the type filter of [search]; a missing or empty
    [model_type] filters nothing. *)
Definition matches_type (model_type : option string) (m : ModelInfo) : bool :=
  if truthy_str model_type
  then match ModelSourceBase.model_type m with
       | Some t => String.eqb t (or_str model_type "")
       | None => false
       end
  else true.

Definition sort_local (sort_by : option string) (filtered : list ModelInfo)
  : list ModelInfo :=
  match sort_by with
  | Some by_ =>
      if String.eqb by_ "name" then
        sort str_ltb (fun m => lower (name m)) false filtered
      else if String.eqb by_ "size" then
        sort Z.ltb (fun m => or_int (size m)) true filtered
      else if String.eqb by_ "updated" then
        sort str_ltb (fun m => or_str (last_updated m) "") true filtered
      else filtered
  | None => filtered
  end.

(** [search]; [force_refresh] is the truth value of
    [kwargs.get("force_refresh", False)]. *)
Definition search (fs : FileSystem) (now now' : Q) (query : string)
    (page page_size : Z) (model_type sort_by : option string)
    (force_refresh : bool) : M Scanner SearchResult :=
  try_except
    (all_models <- _get_models fs force_refresh now now' ;;
     let query_lower := lower query in
     let filtered := List.filter (matches_query query_lower) all_models in
     let filtered := List.filter (matches_type model_type) filtered in
     let filtered := sort_local sort_by filtered in
     let total := len filtered in
     let start := (page - 1) * page_size in
     let end_ := start + page_size in
     let page_models := slice filtered start end_ in
     ret {| models := page_models; total := total; result_source := source_type;
            ModelSourceBase.page := page;
            ModelSourceBase.page_size := page_size |})
    (fun _ =>
       ret {| models := []; total := 0; result_source := source_type;
              ModelSourceBase.page := page;
              ModelSourceBase.page_size := page_size |}).

(** [get_model_info] *)
Definition get_model_info (fs : FileSystem) (now now' : Q) (model_id : string)
  : M Scanner (option ModelInfo) :=
  try_except
    (all_models <- _get_models fs false now now' ;;
     ret (List.find (fun m => String.eqb (id_ m) model_id) all_models))
    (fun _ => ret None).

(** [download_model]: the value returned, together with the calls made to
    the progress callback, as pairs (downloaded, total). *)
Definition download_model (fs : FileSystem) (now now' : Q)
    (model_id dest_dir : string) (progress_callback : option ProgressCallback)
  : M Scanner (string * list (Z * Z)) :=
  model_info <- get_model_info fs now now' model_id ;;
  match model_info with
  | None => raise (Exn ValueError ("Local model " ++ model_id ++ " not found"))
  | Some info =>
      match metadata info with
      | None => raise (Exn ValueError ("Local model " ++ model_id ++ " not found"))
      | Some md =>
          if bool_decide (md = ∅)
          then raise (Exn ValueError ("Local model " ++ model_id ++ " not found"))
          else
            match md !! "full_path" with
            | Some (VStr full_path) =>
                if negb (String.eqb full_path "") && path_exists fs full_path then
                  let calls :=
                    match progress_callback, size info with
                    | Some _, Some sz => if sz =? 0 then [] else [(sz, sz)]
                    | _, _ => []
                    end in
                  ret (full_path, calls)
                else raise (Exn ValueError
                              ("Local model file not found: " ++ full_path))
            | _ => raise (Exn ValueError "Local model file not found")
            end
      end
  end.

Definition get_model_url (model_id : string) : string :=
  ("file://local/" ++ model_id)%string.

Definition validate_model_id (model_id : string) : bool :=
  if String.eqb model_id "" then false else startswith model_id "local:".


End LocalModelScanner.

(* ================================================================== *)
(** * backend/controller/model_api.py: the download task and the progress routes *)
(* ================================================================== *)

Module DownloadTaskDefs.
Import ModelApi.

(** The attributes of a [_PerFileProgress] object, the per-file tracker
    that ModelScope drives; it writes into the record of the download
    whose id the enclosing [ProgressWrapper] holds. *)
Record PerFileProgress : Type := mkPerFileProgress {
  file_name : string;
  pf_file_size : Z;
  pf_progress : Z;
  last_update_time : Q;
  last_downloaded : Z
}.

Abbreviation Registry := (gmap string ProgressRecord).

(** [max(a, b)] on floats *)
Definition float_max (a b : Q) : Q := if Qle_bool a b then b else a.

Definition set_file_size (dp : ProgressRecord) (n : Z) : ProgressRecord :=
  {| id_ := id_ dp; filename := filename dp; file_size := n;
     progress := progress dp; percentage := percentage dp; status := status dp;
     start_time := start_time dp; estimated_time := estimated_time dp;
     speed := speed dp; error_message := error_message dp;
     total_time := total_time dp |}.

(** The writes of [_PerFileProgress.update] and [end] into a record. *)
Definition set_progress_fields (dp : ProgressRecord) (p : Z) (pct : option Q)
    (sp : option Q) : ProgressRecord :=
  {| id_ := id_ dp; filename := filename dp; file_size := file_size dp;
     progress := p;
     percentage := match pct with Some q => q | None => percentage dp end;
     status := status dp;
     start_time := start_time dp; estimated_time := estimated_time dp;
     speed := match sp with Some q => q | None => speed dp end;
     error_message := error_message dp;
     total_time := total_time dp |}.

(** [_PerFileProgress.__init__(fname, fsize)]: the size is
    [max(int(fsize or 0), 0)] and is written into the record. *)
Definition per_file_init (download_id fname : string) (fsize : option Z) (now : Q)
    (registry : Registry) : PerFileProgress * Registry :=
  let size := Z.max (or_int fsize) 0 in
  ({| file_name := fname; pf_file_size := size; pf_progress := 0;
      last_update_time := now; last_downloaded := 0 |},
   match registry !! download_id with
   | Some dp => <[download_id := set_file_size dp size]> registry
   | None => registry
   end).

Section Float.
Context (fl : FloatOps).

(** [_PerFileProgress.update(size)]; the whole body sits in a [try] whose
    handler only logs. *)
Definition per_file_update (download_id : string) (size : option Z) (now : Q)
    (self : PerFileProgress) (registry : Registry) : PerFileProgress * Registry :=
  let p := pf_progress self + or_int size in
  let registry' :=
    match registry !! download_id with
    | Some dp =>
        let pct :=
          if 0 <? pf_file_size self
          then Some (float_round2 fl
                       (float_div fl (float_mul fl (float_of_int fl p) 100)
                          (float_of_int fl (pf_file_size self))))
          else None in
        let elapsed :=
          float_max (float_sub fl now (last_update_time self)) (float_1e_6 fl) in
        let speed :=
          float_div fl (float_of_int fl (p - last_downloaded self)) elapsed in
        <[download_id :=
            set_progress_fields dp p pct (Some (float_round2 fl speed))]> registry
    | None => registry
    end in
  ({| file_name := file_name self; pf_file_size := pf_file_size self;
      pf_progress := p; last_update_time := now; last_downloaded := p |},
   registry').

(** [_PerFileProgress.end()] *)
Definition per_file_end (download_id : string) (self : PerFileProgress)
    (registry : Registry) : Registry :=
  match registry !! download_id with
  | Some dp =>
      if 0 <? pf_file_size self
      then <[download_id :=
               set_progress_fields dp (pf_file_size self) (Some 100%Q) None]> registry
      else registry
  | None => registry
  end.

(** What ModelScope does with the wrapper while [snapshot_download] runs:
    it asks for a tracker for a file, feeds a tracker, or ends one.
    Trackers are numbered in the order of their creation. *)
Inductive TrackerEvent : Type :=
| FileStart (fname : string) (fsize : option Z) (now : Q)
| FileUpdate (tracker : nat) (size : option Z) (now : Q)
| FileEnd (tracker : nat).

Definition tracker_event (download_id : string) (ev : TrackerEvent)
    (state : list PerFileProgress * Registry) : list PerFileProgress * Registry :=
  let (trackers, registry) := state in
  match ev with
  | FileStart fname fsize now =>
      let (t, registry') := per_file_init download_id fname fsize now registry in
      (trackers ++ [t], registry')
  | FileUpdate i size now =>
      match trackers !! i with
      | Some t =>
          let (t', registry') := per_file_update download_id size now t registry in
          (<[i := t']> trackers, registry')
      | None => state
      end
  | FileEnd i =>
      match trackers !! i with
      | Some t => (trackers, per_file_end download_id t registry)
      | None => state
      end
  end.

Definition tracker_events (download_id : string) (evs : list TrackerEvent)
    (registry : Registry) : Registry :=
  snd (foldl (fun state ev => tracker_event download_id ev state) ([], registry) evs).

(** The coroutine [download_task] of the route [download_model]:
    [snapshot_download] drives the trackers through [events] and then
    returns the local directory or raises; on return the callback is ended
    as successful (the files are then moved, which cannot fail the task);
    any exception, the callback's own assertion included, ends it as
    failed with the text of the exception.  [t] and [t'] are the clock
    readings of the two calls of [end]. *)
Definition download_task (events : list TrackerEvent) (outcome : Result string)
    (t t' : Q) : M Store unit :=
  try_except
    (fun st =>
       let st1 := {| self := self st;
                     download_progress :=
                       tracker_events (download_id (self st)) events
                         (download_progress st) |} in
       match outcome with
       | Raise e => (Raise e, st1)
       | Ok _ => end_ fl true None t st1
       end)
    (fun e => fail fl (str_exn e) t').

(** The callback that the route creates for a request: the file size is
    not known yet and is given as 0. *)
Definition route_callback (id model_id model_type download_id : string) (now : Q)
    (registry : Registry) : Store :=
  init id (model_id ++ "." ++ model_type) 0 download_id now registry.

(** The JSON answer of the progress routes. *)
Record Response : Type := mkResponse {
  success : bool;
  message : string;
  data : option ProgressRecord
}.

(** The route [GET /api/download-progress/{download_id}]. *)
Definition get_download_progress (download_id : option string) (registry : Registry)
  : Response :=
  if negb (truthy_str download_id)
  then {| success := false; message := "Missing download_id parameter";
          data := None |}
  else
    let id := or_str download_id "" in
    match registry !! id with
    | None => {| success := false;
                 message := "Download ID " ++ id ++ " not found"; data := None |}
    | Some progress_info =>
        {| success := true;
           message := "Download progress retrieved successfully";
           data := Some progress_info |}
    end.

(** The route [DELETE /api/download-progress/{download_id}]. *)
Definition clear_download_progress (download_id : option string)
    (registry : Registry) : Response * Registry :=
  if negb (truthy_str download_id)
  then ({| success := false; message := "Missing download_id parameter";
           data := None |}, registry)
  else
    let id := or_str download_id "" in
    match registry !! id with
    | Some _ =>
        ({| success := true;
            message := "Download progress " ++ id ++ " cleared successfully";
            data := None |}, delete id registry)
    | None =>
        ({| success := false;
            message := "Download ID " ++ id ++ " not found"; data := None |},
         registry)
    end.

(** A call of a method of the callback. *)
Inductive CallbackCall : Type :=
| CallUpdate (size : Z) (now : Q)
| CallEnd (success : bool) (error_message : option string) (now : Q).

Definition callback_call (k : CallbackCall) (st : Store) : Store :=
  match k with
  | CallUpdate size now => snd (update fl size now st)
  | CallEnd success err now => snd (end_ fl success err now st)
  end.

End Float.

(** Two records that differ only in what the trackers write. *)
Definition same_outcome (r r' : ProgressRecord) : Prop :=
  status r' = status r /\ error_message r' = error_message r
  /\ total_time r' = total_time r /\ id_ r' = id_ r
  /\ filename r' = filename r /\ start_time r' = start_time r
  /\ estimated_time r' = estimated_time r.

(** What a registry keeps of the download [did] when trackers write. *)
Definition framed (did : string) (registry registry' : Registry) : Prop :=
  (forall k, k <> did -> registry' !! k = registry !! k)
  /\ (registry !! did = None -> registry' !! did = None)
  /\ (forall r, registry !! did = Some r ->
        exists r', registry' !! did = Some r' /\ same_outcome r r').

End DownloadTaskDefs.

(* ================================================================== *)
(** * Concrete inputs used in the examples below *)
(* ================================================================== *)

Module Samples.

(** The [n]-th message of a conversation, users and assistant alternating. *)
Definition message (n : nat) : Message :=
  <["role" := VStr (if Nat.even n then "user" else "assistant")]>
    (<["content" := VStr ("message " ++ pretty n)%string]> ∅).

(** A conversation with [n] messages. *)
Definition conversation (n : nat) : list Message := map message (seq 0 n).

(** An LLM client whose structured-output call answers [answer]. *)
Definition client_answering (answer : option string) : SummaryAgent.Client :=
  {| SummaryAgent.parse := fun _ _ _ => Ok answer;
     SummaryAgent.create := fun _ _ _ => Ok answer |}.

(** An LLM client whose calls raise [e]. *)
Definition client_raising (e : exn) : SummaryAgent.Client :=
  {| SummaryAgent.parse := fun _ _ _ => Raise e;
     SummaryAgent.create := fun _ _ _ => Raise e |}.

Definition imports_with (client : SummaryAgent.Client) : SummaryAgent.Imports :=
  {| SummaryAgent.get_config := Ok None;
     SummaryAgent.LLM_DEFAULT_BASE_URL := "https://llm.example/v1";
     SummaryAgent.WORKFLOW_MODEL_NAME := "default-model";
     SummaryAgent.get_comfyui_copilot_api_key := Ok (Some "key");
     SummaryAgent.OpenAI := fun _ _ => Ok client |}.

(** A summarizer that always answers the same text. *)
Definition constant_summarizer (s : string)
  : list Message -> option string -> Result string :=
  fun _ _ => Ok s.

(** A summarizer that always raises. *)
Definition failing_summarizer
  : list Message -> option string -> Result string :=
  fun _ _ => Raise (Exn (OtherException "SummarizationError") "no summary").

(** The imports of a summary agent whose LLM answers "recap". *)
Definition recap_imports : SummaryAgent.Imports :=
  imports_with (client_answering (Some "recap")).

(** A call of the program for session "chat" with the first [n] messages of
    the conversation, the database being healthy. *)
Definition chat_call (n : nat) : MessageMemory.Call :=
  {| MessageMemory.call_summarizer := SummaryAgent.generate_summary recap_imports;
     MessageMemory.call_conn := SessionMessageTable.healthy 0;
     MessageMemory.call_session := "chat";
     MessageMemory.call_messages := conversation n |}.

End Samples.

Module GatewaySamples.
Import ModelSourceBase.

Definition model (id : string) (source : ModelSourceType) (downloads : option Z)
  : ModelInfo :=
  {| id_ := id; name := id; source := source; path := None; description := None;
     downloads := downloads; likes := None; tags := None; last_updated := None;
     size := None; model_type := None; thumbnail_url := None; author := None;
     license := None; metadata := None |}.

Definition a1 : ModelInfo := model "org/a1" HUGGINGFACE (Some 50).
Definition a2 : ModelInfo := model "org/a2" HUGGINGFACE None.
Definition a3 : ModelInfo := model "org/a3" HUGGINGFACE (Some 70).
Definition b1 : ModelInfo := model "101" CIVITAI (Some 50).
Definition b2 : ModelInfo := model "102" CIVITAI (Some 0).

(** A source that is available, answers every search with [found], and
    knows the models of [found] by their id. *)
Definition source_returning (st : ModelSourceType) (found : list ModelInfo)
  : ModelSource :=
  {| source_type := st;
     is_available := Ok true;
     search := fun _ page page_size _ _ _ =>
       Ok {| models := found; total := len found; result_source := st;
             page := page; page_size := page_size |};
     get_model_info := fun model_id =>
       Ok (List.find (fun m => String.eqb (id_ m) model_id) found);
     download_model := fun model_id dest_dir _ _ =>
       Ok (dest_dir ++ "/" ++ model_id)%string;
     get_model_url := fun model_id =>
       Ok ("https://models.example/" ++ model_id)%string |}.


(** HuggingFace answers three models, Civitai two, Local none. *)
Definition gateway : ModelGateway.Gateway :=
  ModelGateway.init true true true
    (Ok (source_returning HUGGINGFACE [a1; a2; a3]))
    (Ok (source_returning CIVITAI [b1; b2]))
    (Ok (source_returning LOCAL [])).


(** One source whose first model has a negative count, as nothing in
    [ModelInfo] forbids, and whose second model has none. *)
Definition refunded : ModelInfo := model "org/refunded" HUGGINGFACE (Some (-5)).
Definition gateway_with_negative_count : ModelGateway.Gateway :=
  ModelGateway.init true false false
    (Ok (source_returning HUGGINGFACE [refunded; a2]))
    (Ok (source_returning CIVITAI []))
    (Ok (source_returning LOCAL [])).

End GatewaySamples.

Module DownloadSamples.
Import ModelApi.

(** A download of 100 bytes, started at time 0 in an empty registry. *)
Definition started : Store :=
  init "7" "sdxl.safetensors" 100 "download-1" 0%Q ∅.

(** 40 bytes after one second, 20 more after two. *)
Definition two_updates : list (Z * Q) := [(40, 1%Q); (20, 2%Q)].

(** The download after the two updates, and after it was then ended as
    failed at time 3. *)
Definition after_updates : Store := updates exact_float two_updates started.
Definition after_failure : Store :=
  snd (end_ exact_float false (Some "connection reset") 3%Q after_updates).

End DownloadSamples.

Module LocalSamples.
Import LocalModelScanner.

(** A models directory with two checkpoints, one of them in a
    subdirectory, a LoRA and a text file. *)
Definition disk : FileSystem :=
  {| folder_names_and_paths :=
       [("checkpoints", ["/models/checkpoints"]); ("loras", ["/models/loras"])];
     path_exists := fun p =>
       existsb (String.eqb p)
         ["/models/checkpoints"; "/models/loras";
          "/models/checkpoints/sdxl/base.safetensors";
          "/models/checkpoints/dream.CKPT";
          "/models/loras/style_lora.safetensors"];
     walk := fun base =>
       if String.eqb base "/models/checkpoints" then
         [("/models/checkpoints", ["dream.CKPT"; "notes.txt"]);
          ("/models/checkpoints/sdxl", ["base.safetensors"])]
       else if String.eqb base "/models/loras" then
         [("/models/loras", ["style_lora.safetensors"])]
       else [];
     stat := fun p =>
       if String.eqb p "/models/checkpoints/dream.CKPT"
       then Raise (Exn (OtherException "OSError") "permission denied")
       else Ok (2048, "2025-01-15T10:30:00");
     relpath := fun p base =>
       if String.eqb p "/models/checkpoints/sdxl/base.safetensors"
       then "sdxl/base.safetensors"
       else PyPath.basename p |}.

(** The same machine with nothing configured. *)
Definition empty_disk : FileSystem :=
  {| folder_names_and_paths := [];
     path_exists := fun _ => false;
     walk := fun _ => [];
     stat := fun _ => Raise (Exn (OtherException "OSError") "no such file");
     relpath := fun p _ => p |}.

End LocalSamples.

(* ================================================================== *)
(** * Properties *)
(* ================================================================== *)

(** ** Python primitives *)

Module PyFacts.

Lemma len_nonneg {A} (l : list A) : 0 <= len l.
Proof. unfold len. lia. Qed.

Lemma slice_bound_inside (n i : Z) : 0 <= i <= n -> slice_bound n i = i.
Proof.
  intros H. unfold slice_bound.
  destruct (Z.ltb_spec i 0); lia.
Qed.

Lemma slice_bound_range (n i : Z) : 0 <= n -> 0 <= slice_bound n i <= n.
Proof.
  intros H. unfold slice_bound.
  destruct (Z.ltb_spec i 0); lia.
Qed.

Lemma slice_from_inside {A} (l : list A) (i : Z) :
  0 <= i <= len l -> slice_from l i = drop (Z.to_nat i) l.
Proof.
  intros H. unfold slice_from. now rewrite slice_bound_inside.
Qed.

Lemma slice_inside {A} (l : list A) (i j : Z) :
  0 <= i <= j -> j <= len l ->
  slice l i j = take (Z.to_nat (j - i)) (drop (Z.to_nat i) l).
Proof.
  intros Hi Hj. unfold slice.
  rewrite !slice_bound_inside by lia. reflexivity.
Qed.

Lemma slice_from_length {A} (l : list A) (i : Z) :
  0 <= i <= len l -> len (slice_from l i) = len l - i.
Proof.
  intros H. rewrite slice_from_inside by exact H.
  unfold len in *. rewrite length_drop. lia.
Qed.

Lemma slice_from_0 {A} (l : list A) : slice_from l 0 = l.
Proof.
  rewrite slice_from_inside.
  - reflexivity.
  - pose proof (len_nonneg l). lia.
Qed.

End PyFacts.

(** ** Message memory *)

Module MessageMemoryFacts.
Import SessionMessageTable MessageMemory.

Section Equations.
Context (gs : list Message -> option string -> Result string).
Context (c : Conn) (sid : string) (msgs : list Message) (db : DB).

Lemma optimize_get_raises e :
  get_fault c = Some e ->
  message_memory_optimize gs c sid msgs db = (Ok msgs, db).
Proof.
  intros Hg.
  unfold message_memory_optimize, try_except, bind, get_session_message.
  now rewrite Hg.
Qed.

Lemma optimize_save_raises e :
  get_fault c = None -> save_fault c = Some e ->
  message_memory_optimize gs c sid msgs db = (Ok msgs, db).
Proof.
  intros Hg Hs.
  unfold message_memory_optimize, try_except, bind, get_session_message.
  rewrite Hg.
  destruct (table db !! sid) as [r|];
    unfold bind, save_session_message; now rewrite Hs.
Qed.

Lemma optimize_new_session :
  get_fault c = None -> save_fault c = None -> table db !! sid = None ->
  message_memory_optimize gs c sid msgs db =
    (Ok msgs,
     {| table := <[sid := {| id_ := new_key (table db); session_id := sid;
                              messages := msgs; index := 0; summary := None;
                              attributes := None; created_at := utcnow c |}]>
                   (table db) |}).
Proof.
  intros Hg Hs Hn.
  unfold message_memory_optimize, try_except, bind, get_session_message.
  rewrite Hg, Hn.
  unfold bind, save_session_message. now rewrite Hs, Hn.
Qed.

Lemma optimize_below_threshold r :
  get_fault c = None -> save_fault c = None -> table db !! sid = Some r ->
  len msgs - index r <= COMPRESSION_THRESHOLD ->
  message_memory_optimize gs c sid msgs db =
    (Ok (_build_optimized_messages (summary r) msgs (index r)),
     set_table db (<[sid := with_messages r msgs]> (table db))).
Proof.
  intros Hg Hs Hr Hle.
  unfold message_memory_optimize, try_except, bind, get_session_message.
  rewrite Hg, Hr.
  unfold bind, save_session_message. rewrite Hs, Hr.
  destruct (Z.leb_spec (len msgs - index r) COMPRESSION_THRESHOLD); [|lia].
  reflexivity.
Qed.

Lemma optimize_compacts r s :
  get_fault c = None -> save_fault c = None -> update_fault c = None ->
  table db !! sid = Some r ->
  COMPRESSION_THRESHOLD < len msgs - index r ->
  gs (slice msgs (index r) (len msgs - KEEP_RECENT_MESSAGES)) (summary r) = Ok s ->
  message_memory_optimize gs c sid msgs db =
    (Ok (_build_optimized_messages (Some s) msgs (len msgs - KEEP_RECENT_MESSAGES)),
     set_table db
       (<[sid := compacted r msgs s (len msgs - KEEP_RECENT_MESSAGES)]> (table db))).
Proof.
  intros Hg Hs Hu Hr Hgt Hsum.
  unfold message_memory_optimize, try_except, bind, get_session_message.
  rewrite Hg, Hr.
  unfold bind, save_session_message. rewrite Hs, Hr.
  destruct (Z.leb_spec (len msgs - index r) COMPRESSION_THRESHOLD); [lia|].
  unfold lift. cbn [summary index]. rewrite Hsum.
  unfold update_summary. rewrite Hu. cbn [table].
  rewrite lookup_insert_eq. cbn.
  unfold set_table, compacted. now rewrite insert_insert_eq.
Qed.

Lemma optimize_summarizer_raises r e :
  get_fault c = None -> save_fault c = None ->
  table db !! sid = Some r ->
  COMPRESSION_THRESHOLD < len msgs - index r ->
  gs (slice msgs (index r) (len msgs - KEEP_RECENT_MESSAGES)) (summary r) = Raise e ->
  message_memory_optimize gs c sid msgs db =
    (Ok msgs, set_table db (<[sid := with_messages r msgs]> (table db))).
Proof.
  intros Hg Hs Hr Hgt Hsum.
  unfold message_memory_optimize, try_except, bind, get_session_message.
  rewrite Hg, Hr.
  unfold bind, save_session_message. rewrite Hs, Hr.
  destruct (Z.leb_spec (len msgs - index r) COMPRESSION_THRESHOLD); [lia|].
  unfold lift. cbn [summary index]. now rewrite Hsum.
Qed.

Lemma optimize_update_raises r s e :
  get_fault c = None -> save_fault c = None -> update_fault c = Some e ->
  table db !! sid = Some r ->
  COMPRESSION_THRESHOLD < len msgs - index r ->
  gs (slice msgs (index r) (len msgs - KEEP_RECENT_MESSAGES)) (summary r) = Ok s ->
  message_memory_optimize gs c sid msgs db =
    (Ok msgs, set_table db (<[sid := with_messages r msgs]> (table db))).
Proof.
  intros Hg Hs Hu Hr Hgt Hsum.
  unfold message_memory_optimize, try_except, bind, get_session_message.
  rewrite Hg, Hr.
  unfold bind, save_session_message. rewrite Hs, Hr.
  destruct (Z.leb_spec (len msgs - index r) COMPRESSION_THRESHOLD); [lia|].
  unfold lift. cbn [summary index]. rewrite Hsum.
  unfold update_summary. now rewrite Hu.
Qed.

End Equations.

End MessageMemoryFacts.

(** ** Summary agent *)

Module SummaryAgentFacts.
Import SummaryAgent.

Lemma prefix_app (p s : string) : String.prefix p (p ++ s) = true.
Proof.
  induction p as [|a p IH]; simpl.
  - now destruct s.
  - destruct (ascii_dec a a); [exact IH | congruence].
Qed.

Lemma str_in_unfold (sub s : string) :
  str_in sub s =
    if String.prefix sub s then true
    else match s with
         | EmptyString => false
         | String _ s' => str_in sub s'
         end.
Proof. destruct s; reflexivity. Qed.

Lemma str_in_here (sub s : string) : str_in sub (sub ++ s) = true.
Proof. rewrite str_in_unfold, prefix_app. reflexivity. Qed.

Lemma str_in_later (sub a s : string) :
  str_in sub s = true -> str_in sub (a ++ s) = true.
Proof.
  intros H. induction a as [|ch a IH].
  - exact H.
  - rewrite str_in_unfold. change (String ch a ++ s)%string with (String ch (a ++ s)).
    destruct (String.prefix sub (String ch (a ++ s))); [reflexivity | exact IH].
Qed.

Lemma fallback_summary_nonempty (messages : list Message) (previous_summary : option string) :
  fallback_summary messages previous_summary <> "".
Proof.
  unfold fallback_summary, truthy_str, or_str.
  destruct previous_summary as [p|]; [|discriminate].
  destruct (String.eqb_spec p ""); simpl; [discriminate|].
  destruct p; [congruence | discriminate].
Qed.

Lemma fallback_summary_mentions_count (messages : list Message)
    (previous_summary : option string) :
  str_in (pretty (len messages)) (fallback_summary messages previous_summary) = true.
Proof.
  assert (H : str_in (pretty (len messages))
                ("Conversation with " ++ pretty (len messages) ++ " messages") = true).
  { apply str_in_later, str_in_here. }
  unfold fallback_summary.
  destruct (truthy_str previous_summary); [|exact H].
  apply str_in_later, (str_in_later _ " | "), H.
Qed.

(** [generate_summary] returns on every input. *)
Lemma generate_summary_returns (env : Imports) (messages : list Message)
    (previous_summary : option string) :
  exists s, generate_summary env messages previous_summary = Ok s.
Proof.
  unfold generate_summary, rtry.
  destruct (generate_summary_body env messages previous_summary); eauto.
Qed.

(** C5, as stated, fails: when the LLM call succeeds with an empty summary,
    [generate_summary] returns the empty string. *)
Lemma generate_summary_may_be_empty :
  ~ (exists s,
        generate_summary (Samples.imports_with (Samples.client_answering (Some "")))
          (Samples.conversation 2) None = Ok s
        /\ s <> "").
Proof.
  intros [s [H Hne]]. vm_compute in H. congruence.
Qed.

(** The body is the preparation followed by the LLM call. *)
Lemma generate_summary_body_eq (env : Imports) (messages : list Message)
    (previous_summary : option string) :
  generate_summary_body env messages previous_summary
  = rbind (prepare_call env messages previous_summary)
      (fun '(client, model_name, user_prompt) =>
         rbind (call_llm client model_name user_prompt) (fun summary_text =>
         if truthy_str summary_text then Ok (or_str summary_text "") else Ok "")).
Proof.
  unfold generate_summary_body, prepare_call.
  destruct (messages_text messages) as [text|e]; [|reflexivity]. cbn [rbind].
  destruct (get_config env) as [cfg|e]; [|reflexivity]. cbn [rbind].
  match goal with
  | |- rbind ?k _ = rbind (rbind ?k _) _ => destruct k as [api_key|e]
  end; [|reflexivity].
  cbn [rbind].
  match goal with
  | |- rbind ?k _ = rbind (rbind ?k _) _ => destruct k as [client|e]
  end; reflexivity.
Qed.

(** The text of an answer of the LLM: empty when there is none. *)
Lemma answer_text (answer : option string) :
  (if truthy_str answer then Ok (or_str answer "") else Ok "")
  = (Ok (match answer with Some s => s | None => "" end) : Result string).
Proof.
  destruct answer as [s|]; [|reflexivity].
  unfold truthy_str, or_str. now destruct (String.eqb_spec s "") as [->|].
Qed.

(** C5 (amended): [generate_summary] never raises, and what it returns is
    decided as follows.  When the preparation of the call (building the
    prompt, reading the configuration, creating the client) raises, the
    result is the fallback text, which is not empty and contains the
    decimal number of messages.  When the structured-output call returns,
    the result is the summary text of its answer, and the empty string
    when the answer has none or an empty one.  When that call raises a
    [TypeError] whose text contains "'NoneType' object is not iterable",
    the call is repeated without structured output: the result is the text
    of the second answer, again the empty string when there is none, and
    the fallback text when the second call raises.  Any other exception of
    the first call gives the fallback text. *)
Theorem generate_summary_total_with_fallback
    (env : Imports) (messages : list Message) (previous_summary : option string) :
  let fallback := fallback_summary messages previous_summary in
  let text_of (answer : option string) :=
    match answer with Some s => s | None => "" end in
  (exists s, generate_summary env messages previous_summary = Ok s)
  /\ fallback <> ""
  /\ str_in (pretty (len messages)) fallback = true
  /\ generate_summary env messages previous_summary
     = Ok (match prepare_call env messages previous_summary with
           | Raise _ => fallback
           | Ok (client, model_name, user_prompt) =>
               match parse client model_name system_prompt user_prompt with
               | Ok answer => text_of answer
               | Raise e =>
                   if is_TypeError e
                      && str_in "'NoneType' object is not iterable" (str_exn e)
                   then
                     match create client model_name system_prompt user_prompt with
                     | Ok answer => text_of answer
                     | Raise _ => fallback
                     end
                   else fallback
               end
           end)
  /\ (forall client model_name user_prompt,
        prepare_call env messages previous_summary
          = Ok (client, model_name, user_prompt) ->
        parse client model_name system_prompt user_prompt = Ok None
        \/ parse client model_name system_prompt user_prompt = Ok (Some "") ->
        generate_summary env messages previous_summary = Ok "").
Proof.
  intros fallback text_of.
  assert (Heq : generate_summary env messages previous_summary
     = Ok (match prepare_call env messages previous_summary with
           | Raise _ => fallback
           | Ok (client, model_name, user_prompt) =>
               match parse client model_name system_prompt user_prompt with
               | Ok answer => text_of answer
               | Raise e =>
                   if is_TypeError e
                      && str_in "'NoneType' object is not iterable" (str_exn e)
                   then
                     match create client model_name system_prompt user_prompt with
                     | Ok answer => text_of answer
                     | Raise _ => fallback
                     end
                   else fallback
               end
           end)).
  { unfold generate_summary. rewrite generate_summary_body_eq.
    destruct (prepare_call env messages previous_summary)
      as [[[client model_name] user_prompt]|e]; [|reflexivity].
    cbn [rbind]. unfold call_llm.
    destruct (parse client model_name system_prompt user_prompt) as [answer|e].
    - cbn [rbind]. rewrite (answer_text (Some _)).
      now destruct answer.
    - unfold NoneType_not_iterable.
      destruct (is_TypeError e); cbn [andb]; [|reflexivity].
      destruct (str_in "'NoneType' object is not iterable" (str_exn e));
        [|reflexivity].
      destruct (create client model_name system_prompt user_prompt) as [answer|e'];
        [|reflexivity].
      cbn [rbind]. now rewrite answer_text. }
  split; [apply generate_summary_returns|].
  split; [apply fallback_summary_nonempty|].
  split; [apply fallback_summary_mentions_count|].
  split; [exact Heq|].
  intros client model_name user_prompt Hprep Hparse. rewrite Heq, Hprep.
  now destruct Hparse as [-> | ->].
Qed.

Lemma generate_summary_total_with_fallback_witness :
  generate_summary (Samples.imports_with
                      (Samples.client_raising (Exn (OtherException "APIError") "down")))
    (Samples.conversation 3) (Some "earlier")
  = Ok "earlier | Conversation with 3 messages"
  /\ generate_summary (Samples.imports_with (Samples.client_answering None))
       (Samples.conversation 3) None
     = Ok "".
Proof.
  split.
  - destruct (generate_summary_total_with_fallback
                (Samples.imports_with
                   (Samples.client_raising (Exn (OtherException "APIError") "down")))
                (Samples.conversation 3) (Some "earlier")) as [_ [_ [_ [H _]]]].
    rewrite H. vm_compute. reflexivity.
  - destruct (generate_summary_total_with_fallback
                (Samples.imports_with (Samples.client_answering None))
                (Samples.conversation 3) None) as [_ [_ [_ [_ H]]]].
    eapply H; [vm_compute; reflexivity | left; reflexivity].
Defined.

End SummaryAgentFacts.

(** ** Message memory: threshold, invariant, repeated calls, failures *)

Module MessageMemoryProps.
Import SessionMessageTable MessageMemory MessageMemoryFacts PyFacts.

Lemma strip_nonempty_truthy (s : string) :
  strip s <> "" ->
  truthy_str (Some s) = true /\ (0 <? Z.of_nat (String.length (strip s))) = true.
Proof.
  intros H. split.
  - destruct s; [now contradiction H | reflexivity].
  - destruct (strip s); [congruence | reflexivity].
Qed.

Lemma build_without_summary (msgs : list Message) (i : Z) :
  _build_optimized_messages None msgs i = slice_from msgs i.
Proof. reflexivity. Qed.

Lemma build_with_summary (s : string) (msgs : list Message) (i : Z) :
  strip s <> "" -> 0 <= i < len msgs ->
  _build_optimized_messages (Some s) msgs i = summary_context s :: slice_from msgs i.
Proof.
  intros Hs Hi. unfold _build_optimized_messages.
  destruct (strip_nonempty_truthy s Hs) as [-> ->].
  rewrite slice_from_length by lia.
  destruct (Z.ltb_spec 0 (len msgs - i)); [reflexivity | lia].
Qed.

(** Every call leaves the database in one of four shapes. *)
Lemma step_cases (k : Call) (db : DB) :
  let sid := call_session k in
  let msgs := call_messages k in
  step k db = db
  \/ (table db !! sid = None
      /\ exists r, index r = 0 /\ messages r = msgs
           /\ step k db = {| table := <[sid := r]> (table db) |})
  \/ (exists r, table db !! sid = Some r
        /\ step k db = set_table db (<[sid := with_messages r msgs]> (table db)))
  \/ (exists r s, table db !! sid = Some r
        /\ COMPRESSION_THRESHOLD < len msgs - index r
        /\ step k db =
             set_table db
               (<[sid := compacted r msgs s (len msgs - KEEP_RECENT_MESSAGES)]>
                  (table db))).
Proof.
  intros sid msgs. unfold step. fold sid msgs.
  set (gs := call_summarizer k). set (c := call_conn k).
  destruct (get_fault c) as [e|] eqn:Hg.
  { left. now rewrite (optimize_get_raises gs c sid msgs db e). }
  destruct (save_fault c) as [e|] eqn:Hs.
  { left. now rewrite (optimize_save_raises gs c sid msgs db e). }
  destruct (table db !! sid) as [r|] eqn:Hr.
  2:{ right; left. split; [reflexivity|].
      rewrite (optimize_new_session gs c sid msgs db) by assumption.
      eexists; split; [|split]; [| |reflexivity]; reflexivity. }
  destruct (Z.le_gt_cases (len msgs - index r) COMPRESSION_THRESHOLD) as [Hle|Hgt].
  { right; right; left. exists r. split; [reflexivity|].
    now rewrite (optimize_below_threshold gs c sid msgs db r). }
  destruct (gs (slice msgs (index r) (len msgs - KEEP_RECENT_MESSAGES)) (summary r))
    as [s|e] eqn:Hsum.
  2:{ right; right; left. exists r. split; [reflexivity|].
      now rewrite (optimize_summarizer_raises gs c sid msgs db r e). }
  destruct (update_fault c) as [e|] eqn:Hu.
  { right; right; left. exists r. split; [reflexivity|].
    now rewrite (optimize_update_raises gs c sid msgs db r s e). }
  right; right; right. exists r, s. split; [reflexivity|]. split; [exact Hgt|].
  now rewrite (optimize_compacts gs c sid msgs db r s).
Qed.

Lemma step_index_monotone (k : Call) (db : DB) (sid : string) (r : SessionMessage) :
  table db !! sid = Some r ->
  exists r', table (step k db) !! sid = Some r' /\ index r <= index r'.
Proof.
  intros Hr.
  destruct (step_cases k db)
    as [-> | [[Hn [r0 [_ [_ ->]]]] | [[r0 [Hr0 ->]] | [r0 [s [Hr0 [Hgt ->]]]]]]];
    cbn [table set_table].
  - exists r. split; [exact Hr | lia].
  - destruct (decide (call_session k = sid)) as [<-|Hne]; [congruence|].
    exists r. rewrite lookup_insert_ne by exact Hne. split; [exact Hr | lia].
  - destruct (decide (call_session k = sid)) as [<-|Hne].
    + rewrite lookup_insert_eq. eexists; split; [reflexivity|].
      assert (r0 = r) by congruence. subst. simpl. lia.
    + exists r. rewrite lookup_insert_ne by exact Hne. split; [exact Hr | lia].
  - destruct (decide (call_session k = sid)) as [<-|Hne].
    + rewrite lookup_insert_eq. eexists; split; [reflexivity|].
      assert (r0 = r) by congruence. subst. simpl.
      unfold COMPRESSION_THRESHOLD, KEEP_RECENT_MESSAGES in *. lia.
    + exists r. rewrite lookup_insert_ne by exact Hne. split; [exact Hr | lia].
Qed.

Lemma step_index_in_range (k : Call) (db : DB) :
  index_in_range db -> call_covers_index db k -> index_in_range (step k db).
Proof.
  intros Hinv Hcov.
  destruct (step_cases k db)
    as [-> | [[Hn [r0 [Hi0 [Hm0 ->]]]] | [[r0 [Hr0 ->]] | [r0 [s [Hr0 [Hgt ->]]]]]]];
    [exact Hinv | | |];
    intros sid r; cbn [table set_table];
    (destruct (decide (call_session k = sid)) as [<-|Hne];
     [rewrite lookup_insert_eq; intros [= <-]
     |rewrite lookup_insert_ne by exact Hne; apply Hinv]).
  - rewrite Hi0, Hm0. pose proof (len_nonneg (call_messages k)). lia.
  - simpl. specialize (Hinv _ _ Hr0). specialize (Hcov _ Hr0). lia.
  - simpl. specialize (Hinv _ _ Hr0).
    unfold COMPRESSION_THRESHOLD, KEEP_RECENT_MESSAGES in *. lia.
Qed.

Lemma run_index_monotone (calls : list Call) :
  forall (db : DB) (sid : string) (r : SessionMessage),
    table db !! sid = Some r ->
    exists r', table (run calls db) !! sid = Some r' /\ index r <= index r'.
Proof.
  induction calls as [|k calls IH]; intros db sid r Hr; simpl.
  - exists r. split; [exact Hr | lia].
  - destruct (step_index_monotone k db sid r Hr) as [r1 [Hr1 Hle1]].
    destruct (IH _ _ _ Hr1) as [r2 [Hr2 Hle2]].
    exists r2. split; [exact Hr2 | lia].
Qed.

Lemma run_index_in_range (calls : list Call) :
  forall db : DB,
    index_in_range db -> calls_cover_index calls db -> index_in_range (run calls db).
Proof.
  induction calls as [|k calls IH]; intros db Hinv Hcov; simpl.
  - exact Hinv.
  - destruct Hcov as [Hk Hrest].
    apply IH; [now apply step_index_in_range | exact Hrest].
Qed.

Lemma build_with_blank_summary (s : string) (msgs : list Message) (i : Z) :
  strip s = "" -> _build_optimized_messages (Some s) msgs i = slice_from msgs i.
Proof.
  intros Hs. unfold _build_optimized_messages. rewrite Hs.
  cbn [String.length Z.of_nat]. change (0 <? 0) with false.
  now rewrite andb_false_r.
Qed.

(** C1, as stated, fails: there is no context message when the summary is
    blank.  The LLM answers the empty text, so the program's
    [generate_summary] returns it; the call with 9 messages on a stored
    session with index 0 and no summary stores index 5 and returns the 4
    messages [messages[5:9]] alone. *)
Lemma blank_summary_gives_no_context_message :
  let env := Samples.imports_with (Samples.client_answering (Some "")) in
  let db := snd (optimize env (healthy 0) "chat" (Samples.conversation 2) empty_db) in
  index <$> table db !! "chat" = Some 0
  /\ summary <$> table db !! "chat" = Some None
  /\ fst (optimize env (healthy 1) "chat" (Samples.conversation 9) db)
     = Ok (slice (Samples.conversation 9) 5 9)
  /\ len (slice (Samples.conversation 9) 5 9) = 4
  /\ index <$> table (snd (optimize env (healthy 1) "chat"
                             (Samples.conversation 9) db)) !! "chat"
     = Some 5.
Proof. vm_compute. repeat split. Qed.

(** C1 (amended): a stored session with index 0 and no summary.  With 8
    messages nothing is compacted: the whole list is returned and the
    stored index stays 0.  With 9 messages the summarizer is called on
    [messages[0:5]] (and no previous summary).  When it returns an ASCII
    text [s], the stored index becomes 5 and the stored summary [s], and
    the view is the 4 messages [messages[5:9]], preceded by the context
    message
    [{"role": "user", "content": "[Context from previous conversation]: s"}]
    unless [s] is blank.  When it raises, the whole list is returned and
    the stored index stays 0. *)
Theorem threshold_behavior
    (gs : list Message -> option string -> Result string) (now : Z)
    (sid : string) (db : DB) (r : SessionMessage)
    (msgs8 msgs9 : list Message) :
  table db !! sid = Some r -> index r = 0 -> summary r = None ->
  len msgs8 = 8 -> len msgs9 = 9 ->
  (exists db8,
      message_memory_optimize gs (healthy now) sid msgs8 db = (Ok msgs8, db8)
      /\ index <$> table db8 !! sid = Some 0
      /\ summary <$> table db8 !! sid = Some None)
  /\ match gs (slice msgs9 0 5) None with
     | Ok s =>
         is_ascii s = true ->
         exists db9,
           message_memory_optimize gs (healthy now) sid msgs9 db
             = (Ok ((if String.eqb (strip s) "" then []
                     else [ <["role" := VStr "user"]>
                              (<["content" :=
                                   VStr ("[Context from previous conversation]: "
                                           ++ s)%string]> (∅ : Message)) ])
                      ++ slice msgs9 5 9), db9)
           /\ index <$> table db9 !! sid = Some 5
           /\ summary <$> table db9 !! sid = Some (Some s)
           /\ len (slice msgs9 5 9) = 4
     | Raise _ =>
         exists db9,
           message_memory_optimize gs (healthy now) sid msgs9 db = (Ok msgs9, db9)
           /\ index <$> table db9 !! sid = Some 0
           /\ summary <$> table db9 !! sid = Some None
     end.
Proof.
  intros Hr Hi Hsum H8 H9. split.
  - eexists. split; [|split].
    + rewrite (optimize_below_threshold gs _ sid msgs8 db r); try reflexivity; try assumption.
      * rewrite Hsum, Hi, build_without_summary, slice_from_0. reflexivity.
      * unfold COMPRESSION_THRESHOLD. lia.
    + cbn [table set_table]. rewrite lookup_insert_eq. simpl. now rewrite Hi.
    + cbn [table set_table]. rewrite lookup_insert_eq. simpl. now rewrite Hsum.
  - assert (Hslice : slice_from msgs9 5 = slice msgs9 5 9).
    { rewrite slice_from_inside, slice_inside by lia.
      rewrite take_ge; [reflexivity|].
      rewrite length_drop. unfold len in H9. lia. }
    destruct (gs (slice msgs9 0 5) None) as [s|e] eqn:Hgs.
    + intros _. eexists. split; [|split; [|split]].
      * rewrite (optimize_compacts gs _ sid msgs9 db r s); try reflexivity; try assumption.
        -- rewrite H9. change (9 - KEEP_RECENT_MESSAGES) with 5.
           destruct (String.eqb_spec (strip s) "") as [Hs|Hs].
           ++ rewrite build_with_blank_summary by exact Hs. now rewrite Hslice.
           ++ rewrite build_with_summary by (try assumption; lia).
              now rewrite Hslice.
        -- unfold COMPRESSION_THRESHOLD. lia.
        -- rewrite Hi, Hsum, H9. exact Hgs.
      * cbn [table set_table]. rewrite lookup_insert_eq. reflexivity.
      * cbn [table set_table]. rewrite lookup_insert_eq. reflexivity.
      * rewrite <- Hslice, slice_from_length by lia. lia.
    + eexists. split; [|split].
      * rewrite (optimize_summarizer_raises gs _ sid msgs9 db r e);
          try reflexivity; try assumption.
        -- unfold COMPRESSION_THRESHOLD. lia.
        -- rewrite Hi, Hsum, H9. exact Hgs.
      * cbn [table set_table]. rewrite lookup_insert_eq. simpl. now rewrite Hi.
      * cbn [table set_table]. rewrite lookup_insert_eq. simpl. now rewrite Hsum.
Qed.

Lemma threshold_behavior_witness :
  let gs := SummaryAgent.generate_summary Samples.recap_imports in
  let db := snd (message_memory_optimize gs (healthy 0) "chat"
                   (Samples.conversation 2) empty_db) in
  fst (message_memory_optimize gs (healthy 1) "chat" (Samples.conversation 8) db)
    = Ok (Samples.conversation 8)
  /\ fst (message_memory_optimize gs (healthy 1) "chat" (Samples.conversation 9) db)
    = Ok ((<["role" := VStr "user"]>
             (<["content" := VStr "[Context from previous conversation]: recap"]>
                (∅ : Message)))
            :: slice (Samples.conversation 9) 5 9).
Proof.
  intros gs db.
  pose proof (threshold_behavior gs 1 "chat" db
                {| id_ := 1; session_id := "chat";
                   messages := Samples.conversation 2; index := 0;
                   summary := None; attributes := None; created_at := 0 |}
                (Samples.conversation 8) (Samples.conversation 9)) as H.
  destruct H as [[db8 [H8 _]] H9].
  - vm_compute. reflexivity.
  - reflexivity.
  - reflexivity.
  - reflexivity.
  - reflexivity.
  - replace (gs (slice (Samples.conversation 9) 0 5) None) with (Ok "recap" : Result string)
      in H9 by (vm_compute; reflexivity).
    destruct (H9 eq_refl) as [db9 [H9' _]].
    rewrite H8, H9'. split; reflexivity.
Defined.

(** C2, as stated, fails: a call may pass a list shorter than the stored
    index.  A new session gets 9 messages, the same 9 again (compaction,
    index 5), then 2 messages: the stored index 5 exceeds the 2 stored
    messages. *)
Lemma index_may_exceed_stored_messages :
  ~ index_in_range
      (run [Samples.chat_call 9; Samples.chat_call 9; Samples.chat_call 2] empty_db).
Proof.
  intros H.
  destruct (table (run [Samples.chat_call 9; Samples.chat_call 9; Samples.chat_call 2]
                     empty_db) !! "chat") as [r|] eqn:E.
  - specialize (H _ _ E). vm_compute in E. injection E as <-.
    vm_compute in H. destruct H as [_ H]. now apply H.
  - vm_compute in E. discriminate.
Qed.

(** C2 (amended): over any sequence of calls, whatever fails in them, the
    stored index of a session never decreases; and it stays within
    [0 <= index <= len(stored messages)] as long as every call passes a
    message list at least as long as the index stored at that moment. *)
Theorem compacted_index_invariant (calls : list Call) (db : DB) :
  (forall sid r,
      table db !! sid = Some r ->
      exists r', table (run calls db) !! sid = Some r' /\ index r <= index r')
  /\ (index_in_range db -> calls_cover_index calls db ->
      index_in_range (run calls db)).
Proof.
  split.
  - apply run_index_monotone.
  - apply run_index_in_range.
Qed.

Lemma compacted_index_invariant_witness :
  index_in_range
    (run [Samples.chat_call 9; Samples.chat_call 9; Samples.chat_call 11] empty_db).
Proof.
  apply (compacted_index_invariant
           [Samples.chat_call 9; Samples.chat_call 9; Samples.chat_call 11] empty_db).
  - intros sid r Hr. vm_compute in Hr. discriminate.
  - simpl. repeat split; intros r Hr; vm_compute in Hr;
      try discriminate; injection Hr as <-; vm_compute; discriminate.
Defined.

(** Two calls in a row with the same list, the database healthy and the
    first summarizer returning: the second call gives the same view and
    leaves the database as the first call left it, provided the session
    was stored before or the list is within the threshold. *)
Lemma twice_in_a_row
    (gs1 gs2 : list Message -> option string -> Result string)
    (now1 now2 : Z) (sid : string) (msgs : list Message) (db : DB) :
  (forall ms ps, exists s, gs1 ms ps = Ok s) ->
  is_Some (table db !! sid) \/ len msgs <= COMPRESSION_THRESHOLD ->
  message_memory_optimize gs2 (healthy now2) sid msgs
    (snd (message_memory_optimize gs1 (healthy now1) sid msgs db))
  = message_memory_optimize gs1 (healthy now1) sid msgs db.
Proof.
  intros Hgs Hpre.
  destruct (table db !! sid) as [r|] eqn:Hr.
  - destruct (Z.le_gt_cases (len msgs - index r) COMPRESSION_THRESHOLD) as [Hle|Hgt].
    + rewrite (optimize_below_threshold gs1 _ sid msgs db r) by (reflexivity || assumption).
      cbn [snd].
      rewrite (optimize_below_threshold gs2 _ sid msgs _ (with_messages r msgs));
        try reflexivity; try assumption.
      * cbn [table set_table]. now rewrite insert_insert_eq.
      * cbn [table set_table]. now rewrite lookup_insert_eq.
    + destruct (Hgs (slice msgs (index r) (len msgs - KEEP_RECENT_MESSAGES)) (summary r))
        as [s Hs].
      rewrite (optimize_compacts gs1 _ sid msgs db r s) by (reflexivity || assumption).
      cbn [snd].
      rewrite (optimize_below_threshold gs2 _ sid msgs _
                 (compacted r msgs s (len msgs - KEEP_RECENT_MESSAGES)));
        try reflexivity.
      * cbn [table set_table]. now rewrite insert_insert_eq.
      * cbn [table set_table]. now rewrite lookup_insert_eq.
      * simpl. unfold COMPRESSION_THRESHOLD, KEEP_RECENT_MESSAGES. lia.
  - destruct Hpre as [[r Hr'] | Hle]; [discriminate|].
    rewrite (optimize_new_session gs1 _ sid msgs db) by (reflexivity || assumption).
    cbn [snd].
    rewrite (optimize_below_threshold gs2 _ sid msgs _
               {| id_ := new_key (table db); session_id := sid; messages := msgs;
                  index := 0; summary := None; attributes := None;
                  created_at := now1 |}); try reflexivity.
    + cbn [summary index]. rewrite build_without_summary, slice_from_0.
      cbn [table set_table]. now rewrite insert_insert_eq.
    + cbn [table]. now rewrite lookup_insert_eq.
    + cbn [index]. lia.
Qed.

(** C3, as stated, fails on a new session with more than 8 messages: the
    first call stores the list and returns it whole, the second call
    compacts it. *)
Lemma second_call_compacts_new_session :
  let first := optimize Samples.recap_imports (healthy 0) "chat"
                 (Samples.conversation 9) empty_db in
  let second := optimize Samples.recap_imports (healthy 0) "chat"
                  (Samples.conversation 9) (snd first) in
  ~ (fst second = fst first
     /\ index <$> table (snd second) !! "chat" = index <$> table (snd first) !! "chat").
Proof.
  intros first second [_ H]. vm_compute in H. discriminate.
Qed.

(** C3 (amended): when the session already has a stored record, or the list
    has at most 8 messages, and no database step fails, two calls in a row
    with the same list return the same view, and the second call leaves the
    stored record (its index included) as the first call left it; whatever
    the LLM answers in either call. *)
Theorem repeated_call_is_stable
    (env1 env2 : SummaryAgent.Imports) (now1 now2 : Z)
    (sid : string) (msgs : list Message) (db : DB) :
  is_Some (table db !! sid) \/ len msgs <= COMPRESSION_THRESHOLD ->
  let first := optimize env1 (healthy now1) sid msgs db in
  let second := optimize env2 (healthy now2) sid msgs (snd first) in
  fst second = fst first /\ snd second = snd first.
Proof.
  intros Hpre first second. subst first second. unfold optimize.
  rewrite twice_in_a_row; [split; reflexivity | | exact Hpre].
  intros ms ps. apply SummaryAgentFacts.generate_summary_returns.
Qed.

Lemma repeated_call_is_stable_witness :
  let first := optimize Samples.recap_imports (healthy 0) "chat"
                 (Samples.conversation 8) empty_db in
  let second := optimize (Samples.imports_with (Samples.client_answering None))
                  (healthy 5) "chat" (Samples.conversation 8) (snd first) in
  fst second = fst first /\ snd second = snd first.
Proof.
  apply (repeated_call_is_stable Samples.recap_imports
           (Samples.imports_with (Samples.client_answering None)) 0 5
           "chat" (Samples.conversation 8) empty_db).
  right. vm_compute. discriminate.
Defined.

(** C9: whatever raises inside [message_memory_optimize] (loading the
    record, saving it, summarizing, or storing the summary), the call
    returns the input list and raises nothing; when the summarizer (or the
    write of the summary) raises, the stored record keeps the index and the
    summary it had. *)
Theorem failures_fall_back_to_input
    (gs : list Message -> option string -> Result string) (c : Conn)
    (sid : string) (msgs : list Message) (db : DB) :
  (exists view db', message_memory_optimize gs c sid msgs db = (Ok view, db'))
  /\ (forall e, get_fault c = Some e ->
        message_memory_optimize gs c sid msgs db = (Ok msgs, db))
  /\ (forall e, get_fault c = None -> save_fault c = Some e ->
        message_memory_optimize gs c sid msgs db = (Ok msgs, db))
  /\ (forall r,
        get_fault c = None -> save_fault c = None ->
        table db !! sid = Some r ->
        COMPRESSION_THRESHOLD < len msgs - index r ->
        (exists e, gs (slice msgs (index r) (len msgs - KEEP_RECENT_MESSAGES))
                      (summary r) = Raise e)
        \/ (exists e, update_fault c = Some e) ->
        exists db',
          message_memory_optimize gs c sid msgs db = (Ok msgs, db')
          /\ index <$> table db' !! sid = Some (index r)
          /\ summary <$> table db' !! sid = Some (summary r)).
Proof.
  split; [|split; [|split]].
  - unfold message_memory_optimize, try_except.
    match goal with |- context [bind ?m ?k db] => destruct (bind m k db) as [[v|e] db'] end;
      eauto.
  - intros e. apply optimize_get_raises.
  - intros e. apply optimize_save_raises.
  - intros r Hg Hs Hr Hgt Hfail.
    exists (set_table db (<[sid := with_messages r msgs]> (table db))).
    split; [|split; cbn [table set_table]; rewrite lookup_insert_eq; reflexivity].
    destruct (gs (slice msgs (index r) (len msgs - KEEP_RECENT_MESSAGES)) (summary r))
      as [s|e] eqn:Hsum.
    + destruct Hfail as [[e He] | [e He]]; [discriminate|].
      now apply (optimize_update_raises gs c sid msgs db r s e).
    + now apply (optimize_summarizer_raises gs c sid msgs db r e).
Qed.

Lemma failures_fall_back_to_input_witness :
  let db := snd (optimize Samples.recap_imports (healthy 0) "chat"
                   (Samples.conversation 2) empty_db) in
  exists db',
    message_memory_optimize Samples.failing_summarizer (healthy 1) "chat"
      (Samples.conversation 9) db = (Ok (Samples.conversation 9), db')
    /\ index <$> table db' !! "chat" = Some 0
    /\ summary <$> table db' !! "chat" = Some None.
Proof.
  intros db.
  destruct (failures_fall_back_to_input Samples.failing_summarizer (healthy 1)
              "chat" (Samples.conversation 9) db) as [_ [_ [_ H]]].
  apply (H {| id_ := 1; session_id := "chat"; messages := Samples.conversation 2;
              index := 0; summary := None; attributes := None; created_at := 0 |}).
  - reflexivity.
  - reflexivity.
  - vm_compute. reflexivity.
  - vm_compute. reflexivity.
  - left. eexists. reflexivity.
Defined.

End MessageMemoryProps.

(** ** Sorting and dicts *)

Module SortFacts.

Section Descending.
Context {A : Type} (key : A -> Z).

Local Abbreviation insert := (insert_desc Z.ltb key).
Local Abbreviation sort_desc := (sort Z.ltb key true).
Local Abbreviation desc := (descending key).

Lemma insert_desc_perm (x : A) (l : list A) : Permutation (insert x l) (x :: l).
Proof.
  induction l as [|y l IH]; simpl.
  - reflexivity.
  - destruct (key x <? key y).
    + rewrite IH. apply perm_swap.
    + reflexivity.
Qed.

Lemma sort_desc_perm (l : list A) : Permutation (sort_desc l) l.
Proof.
  induction l as [|x l IH]; simpl.
  - reflexivity.
  - unfold sort in *. simpl. rewrite insert_desc_perm. now constructor.
Qed.

Lemma insert_desc_sorted (x : A) (l : list A) :
  StronglySorted desc l -> StronglySorted desc (insert x l).
Proof.
  induction 1 as [|y l Hl IH Hy]; simpl.
  - repeat constructor.
  - destruct (Z.ltb_spec (key x) (key y)) as [Hlt|Hge].
    + constructor; [exact IH|].
      rewrite Forall_forall in *. intros z Hz.
      rewrite insert_desc_perm in Hz.
      apply elem_of_cons in Hz as [->|Hz]; [unfold descending; lia | now apply Hy].
    + constructor; [now constructor|].
      constructor; [exact Hge|].
      rewrite Forall_forall in *. intros z Hz.
      specialize (Hy z Hz). unfold descending in *. lia.
Qed.

Lemma sort_desc_sorted (l : list A) : StronglySorted desc (sort_desc l).
Proof.
  induction l as [|x l IH]; unfold sort in *; simpl.
  - constructor.
  - now apply insert_desc_sorted.
Qed.

(** Stability: the elements of any one key keep their order. *)
Lemma insert_desc_same_key (k : Z) (x : A) (l : list A) :
  List.filter (fun a => key a =? k) (insert x l)
  = List.filter (fun a => key a =? k) (x :: l).
Proof.
  induction l as [|y l IH].
  - reflexivity.
  - cbn [insert_desc].
    destruct (Z.ltb_spec (key x) (key y)) as [Hlt|Hge]; [|reflexivity].
    cbn [List.filter] in *. rewrite IH.
    destruct (Z.eqb_spec (key y) k), (Z.eqb_spec (key x) k); try reflexivity; lia.
Qed.

Lemma sort_desc_stable (k : Z) (l : list A) :
  List.filter (fun a => key a =? k) (sort_desc l)
  = List.filter (fun a => key a =? k) l.
Proof.
  induction l as [|x l IH]; unfold sort in *; cbn [foldr].
  - reflexivity.
  - rewrite insert_desc_same_key. cbn [List.filter]. now rewrite IH.
Qed.

End Descending.

Lemma slice_window {A} (l : list A) (i n : Z) :
  0 <= i -> 0 <= n ->
  slice l i (i + n) = take (Z.to_nat n) (drop (Z.to_nat i) l).
Proof.
  intros Hi Hn. unfold slice, slice_bound.
  pose proof (PyFacts.len_nonneg l) as Hl.
  destruct (Z.ltb_spec i 0); [lia|].
  destruct (Z.ltb_spec (i + n) 0); [lia|].
  destruct (Z.le_gt_cases i (len l)) as [Hin|Hout].
  - rewrite (Z.min_l i) by lia.
    destruct (Z.le_gt_cases (i + n) (len l)).
    + rewrite Z.min_l by lia. f_equal. lia.
    + rewrite Z.min_r by lia.
      rewrite !take_ge; [reflexivity | |]; rewrite length_drop; unfold len in *; lia.
  - rewrite !Z.min_r by lia. rewrite Z.sub_diag.
    change (Z.to_nat 0) with 0%nat.
    rewrite take_0, (drop_ge l (Z.to_nat i)), take_nil;
      [reflexivity | unfold len in *; lia].
Qed.

Section DictFacts.
Context {K V : Type} `{EqDecision K}.






End DictFacts.

End SortFacts.

(** ** Model gateway *)

Module ModelGatewayFacts.
Import ModelSourceBase ModelGateway SortFacts.

Lemma rmap_all_ok {A B} (f : A -> Result B) (g : A -> B) (l : list A) :
  (forall x, f x = Ok (g x)) -> rmap f l = Ok (map g l).
Proof.
  intros H. induction l as [|x l IH]; simpl.
  - reflexivity.
  - now rewrite H, IH.
Qed.

Section SearchAll.
Context (self : Gateway) (query : string) (page page_size : Z).
Context (model_type sort_by : option string) (kwargs : Kwargs).

Local Abbreviation answer :=
  (ModelGateway.answer self query page page_size model_type sort_by kwargs).

(** The task of a source never raises. *)
Lemma search_source_ok (st : ModelSourceType) :
  search_source self query page page_size model_type sort_by kwargs st
  = Ok (st, answer st).
Proof.
  unfold ModelGateway.answer, search_source, rtry.
  destruct (dict_get (sources self) st) as [source|]; [|reflexivity].
  destruct (is_available source) as [[|]|e]; simpl; try reflexivity.
  destruct (search source query page page_size model_type sort_by kwargs);
    reflexivity.
Qed.


Lemma search_all_eq (sources : option (list ModelSourceType)) :
  search_all self query page page_size model_type sort_by sources kwargs
  = Ok (dict_of
          (map (fun st => (st, answer st))
               (List.filter (fun s => dict_contains (ModelGateway.sources self) s)
                            (selected_sources self sources)))).
Proof.
  unfold search_all.
  destruct (List.filter _ (selected_sources self sources)) as [|st l] eqn:E.
  - reflexivity.
  - rewrite (rmap_all_ok _ (fun st => (st, answer st))) by apply search_source_ok.
    reflexivity.
Qed.

End SearchAll.




Lemma combine_models_concat (all_results : Dict ModelSourceType SearchResult) :
  combine_models all_results = concat (map (fun kv => models (snd kv)) all_results).
Proof.
  unfold combine_models.
  assert (H : forall acc,
             foldl (fun acc kv => acc ++ models (snd kv)) acc all_results
             = acc ++ concat (map (fun kv => models (snd kv)) all_results)).
  { induction all_results as [|kv l IH]; intros acc; simpl.
    - now rewrite app_nil_r.
    - now rewrite IH, app_assoc. }
  apply (H []).
Qed.

(** C6, as stated, fails: a missing [downloads] is not treated as lowest
    but as 0.  A source returns a model with the count -5 followed by a
    model without a count; sorted by downloads, the model without a count
    comes first. *)
Lemma missing_downloads_rank_as_zero :
  search_unified GatewaySamples.gateway_with_negative_count "xl" 1 10 None
    (Some "downloads") None []
  = Ok {| models := [GatewaySamples.a2; GatewaySamples.refunded];
          total := 2; result_source := LOCAL; page := 1; page_size := 10 |}
  /\ downloads GatewaySamples.a2 = None
  /\ downloads GatewaySamples.refunded = Some (-5).
Proof. split; [vm_compute; reflexivity | split; reflexivity]. Qed.

(** C6 (amended): with [sort_by="downloads"], [search_unified] returns the
    models of all per-source results, concatenated in the order of the
    sources and sorted by descending count, where the count of a model is
    its [downloads] and 0 when that is missing: the result is a
    permutation of the combined list, sorted, and models with equal counts
    keep their input order.  The page is the Python slice
    [sorted[(page-1)*page_size : (page-1)*page_size + page_size]], which
    for [page >= 1] and [page_size >= 0] is entries
    [(page-1)*page_size, page*page_size) of the sorted list. *)
Theorem search_unified_by_downloads
    (self : Gateway) (query : string) (page page_size : Z)
    (model_type : option string)
    (sources : option (list ModelSourceType)) (kwargs : Kwargs) :
  let count (m : ModelInfo) : Z :=
    match downloads m with Some d => d | None => 0 end in
  exists all_results sorted,
    search_all self query 1 (page_size * len (ModelGateway.sources self))
      model_type (Some "downloads") sources kwargs = Ok all_results
    /\ Permutation sorted (concat (map (fun kv => models (snd kv)) all_results))
    /\ StronglySorted (fun m m' => count m' <= count m) sorted
    /\ (forall k,
          List.filter (fun m => count m =? k) sorted
          = List.filter (fun m => count m =? k)
              (concat (map (fun kv => models (snd kv)) all_results)))
    /\ search_unified self query page page_size model_type (Some "downloads")
         sources kwargs
       = Ok {| models := slice sorted ((page - 1) * page_size)
                           ((page - 1) * page_size + page_size);
               total := total_of all_results;
               result_source := LOCAL;
               page := page;
               page_size := page_size |}
    /\ (1 <= page -> 0 <= page_size ->
        slice sorted ((page - 1) * page_size) ((page - 1) * page_size + page_size)
        = take (Z.to_nat page_size)
            (drop (Z.to_nat ((page - 1) * page_size)) sorted)).
Proof.
  intros count.
  eexists. exists (sort Z.ltb downloads_key true
                     (concat (map (fun kv => models (snd kv))
                        (dict_of
                           (map (fun st => (st, answer self query 1
                                   (page_size * len (ModelGateway.sources self))
                                   model_type (Some "downloads") kwargs st))
                              (List.filter
                                 (fun s => dict_contains (ModelGateway.sources self) s)
                                 (selected_sources self sources))))))).
  split; [apply search_all_eq|].
  split; [apply sort_desc_perm|].
  split; [exact (sort_desc_sorted downloads_key _)|].
  split; [intros k; exact (sort_desc_stable downloads_key k _)|].
  split.
  - unfold search_unified. rewrite search_all_eq. cbn [rbind].
    rewrite combine_models_concat. reflexivity.
  - intros Hpage Hsize. apply slice_window; nia.
Qed.

Lemma search_unified_by_downloads_witness :
  exists sorted,
    StronglySorted
      (fun m m' => match downloads m' with Some d => d | None => 0 end
                   <= match downloads m with Some d => d | None => 0 end) sorted
    /\ search_unified GatewaySamples.gateway "xl" 2 2 None (Some "downloads") None []
       = Ok {| models := take 2 (drop 2 sorted);
               total := 5; result_source := LOCAL; page := 2; page_size := 2 |}.
Proof.
  destruct (search_unified_by_downloads GatewaySamples.gateway "xl" 2 2 None None [])
    as [all_results [sorted [Hall [_ [Hsorted [_ [Hres Hwin]]]]]]].
  exists sorted. split; [exact Hsorted|].
  rewrite Hres, Hwin by lia. vm_compute in Hall. injection Hall as <-. reflexivity.
Defined.

(** The example of the specification: one source returns three models, the
    other two; equal counts keep the order of the sources, the missing count
    ranks with 0. *)
Example search_unified_three_and_two :
  search_unified GatewaySamples.gateway "xl" 1 10 None (Some "downloads") None []
  = Ok {| models := [GatewaySamples.a3; GatewaySamples.a1; GatewaySamples.b1;
                     GatewaySamples.a2; GatewaySamples.b2];
          total := 5; result_source := LOCAL; page := 1; page_size := 10 |}.
Proof. vm_compute. reflexivity. Qed.

Lemma try_all_sources_skip (s : ModelSource) (rest : list ModelSource)
    (model_id : string) :
  (forall i, ModelSourceBase.get_model_info s model_id <> Ok (Some i)) ->
  try_all_sources (s :: rest) model_id = try_all_sources rest model_id.
Proof.
  intros H. simpl.
  destruct (ModelSourceBase.get_model_info s model_id) as [[i|]|e];
    [now contradiction (H i) | reflexivity | reflexivity].
Qed.

Lemma try_all_sources_first (srcs : list ModelSource) (model_id : string)
    (info : ModelInfo) :
  try_all_sources srcs model_id = Some info <-> first_non_null srcs model_id info.
Proof.
  split.
  - induction srcs as [|s rest IH]; simpl; [discriminate|].
    destruct (ModelSourceBase.get_model_info s model_id) as [[i|]|e] eqn:E.
    + intros [= ->]. exists [], s, rest. split; [reflexivity|]. split; [exact E|].
      intros s' Hs'. now apply elem_of_nil in Hs'.
    + intros H. destruct (IH H) as [before [source [after [-> [Hsrc Hbefore]]]]].
      exists (s :: before), source, after. split; [reflexivity|]. split; [exact Hsrc|].
      intros s' Hs' i. apply elem_of_cons in Hs' as [->|Hs'];
        [congruence | now apply Hbefore].
    + intros H. destruct (IH H) as [before [source [after [-> [Hsrc Hbefore]]]]].
      exists (s :: before), source, after. split; [reflexivity|]. split; [exact Hsrc|].
      intros s' Hs' i. apply elem_of_cons in Hs' as [->|Hs'];
        [congruence | now apply Hbefore].
  - intros [before [source [after [-> [Hsrc Hbefore]]]]].
    induction before as [|s before IH]; simpl.
    + now rewrite Hsrc.
    + rewrite <- IH.
      * apply (try_all_sources_skip s (before ++ source :: after)).
        apply Hbefore. apply elem_of_cons. now left.
      * intros s' Hs'. apply Hbefore. apply elem_of_cons. now right.
Qed.

Lemma try_all_sources_none (srcs : list ModelSource) (model_id : string) :
  try_all_sources srcs model_id = None <->
  forall s, s ∈ srcs -> forall i, ModelSourceBase.get_model_info s model_id <> Ok (Some i).
Proof.
  induction srcs as [|s rest IH]; simpl.
  - split; [|reflexivity]. intros _ s Hs. now apply elem_of_nil in Hs.
  - destruct (ModelSourceBase.get_model_info s model_id) as [[i|]|e] eqn:E.
    + split; [discriminate|]. intros H. exfalso.
      apply (H s (list_elem_of_here _ _) i). exact E.
    + rewrite IH. split.
      * intros H s' Hs' i. apply elem_of_cons in Hs' as [->|Hs'];
          [congruence | now apply H].
      * intros H s' Hs'. apply H. apply elem_of_cons. now right.
    + rewrite IH. split.
      * intros H s' Hs' i. apply elem_of_cons in Hs' as [->|Hs'];
          [congruence | now apply H].
      * intros H s' Hs'. apply H. apply elem_of_cons. now right.
Qed.

(** C8: without an explicit source, [get_model_info] and [download_model]
    pick the source from the id, in this order: a "local:" prefix goes to the
    Local source; otherwise an id containing "/" goes to HuggingFace;
    otherwise an all-digits id goes to Civitai.  For an ASCII id of none
    of these shapes, [get_model_info] asks every registered source in
    registration order and returns the first answer that is not [None] (a
    source that raises is skipped), or [None] when there is none. *)
Theorem id_inference
    (self : Gateway) (model_id dest_dir : string)
    (progress_callback : option ProgressCallback) (kwargs : Kwargs) :
  (startswith model_id "local:" = true ->
   forall source, dict_get (sources self) LOCAL = Some source ->
     get_model_info self model_id None
       = ModelSourceBase.get_model_info source model_id
     /\ download_model self model_id dest_dir None progress_callback kwargs
        = ModelSourceBase.download_model source model_id dest_dir
            progress_callback kwargs)
  /\ (startswith model_id "local:" = false -> str_in "/" model_id = true ->
      forall source, dict_get (sources self) HUGGINGFACE = Some source ->
        get_model_info self model_id None
          = ModelSourceBase.get_model_info source model_id
        /\ download_model self model_id dest_dir None progress_callback kwargs
           = ModelSourceBase.download_model source model_id dest_dir
               progress_callback kwargs)
  /\ (startswith model_id "local:" = false -> str_in "/" model_id = false ->
      isdigit model_id = true ->
      forall source, dict_get (sources self) CIVITAI = Some source ->
        get_model_info self model_id None
          = ModelSourceBase.get_model_info source model_id
        /\ download_model self model_id dest_dir None progress_callback kwargs
           = ModelSourceBase.download_model source model_id dest_dir
               progress_callback kwargs)
  /\ (startswith model_id "local:" = false -> str_in "/" model_id = false ->
      isdigit model_id = false -> is_ascii model_id = true ->
      (forall info,
          get_model_info self model_id None = Ok (Some info)
          <-> first_non_null (values (sources self)) model_id info)
      /\ (get_model_info self model_id None = Ok None
          <-> forall s, s ∈ values (sources self) ->
                forall i, ModelSourceBase.get_model_info s model_id <> Ok (Some i))
      /\ (exists answer, get_model_info self model_id None = Ok answer)).
Proof.
  unfold get_model_info, download_model.
  split; [|split; [|split]].
  - intros -> source ->. split; reflexivity.
  - intros -> -> source ->. split; reflexivity.
  - intros -> -> -> source ->. split; reflexivity.
  - intros -> -> -> _. split; [|split].
    + intros info. rewrite <- try_all_sources_first.
      split; [now intros [= ->] | now intros ->].
    + rewrite <- try_all_sources_none.
      split; [now intros [= ->] | now intros ->].
    + eauto.
Qed.

Lemma id_inference_witness :
  get_model_info GatewaySamples.gateway "org/a2" None = Ok (Some GatewaySamples.a2)
  /\ download_model GatewaySamples.gateway "102" "models/loras" None None []
     = Ok "models/loras/102"
  /\ get_model_info GatewaySamples.gateway "local:checkpoints/foo.safetensors" None
     = Ok None
  /\ exists answer,
       get_model_info GatewaySamples.gateway "some-model" None = Ok answer.
Proof.
  split; [|split; [|split]].
  - destruct (id_inference GatewaySamples.gateway "org/a2" "" None [])
      as [_ [H _]].
    destruct (H eq_refl eq_refl
                (GatewaySamples.source_returning HUGGINGFACE
                   [GatewaySamples.a1; GatewaySamples.a2; GatewaySamples.a3])
                eq_refl) as [-> _].
    reflexivity.
  - destruct (id_inference GatewaySamples.gateway "102" "models/loras" None [])
      as [_ [_ [H _]]].
    destruct (H eq_refl eq_refl eq_refl
                (GatewaySamples.source_returning CIVITAI
                   [GatewaySamples.b1; GatewaySamples.b2])
                eq_refl) as [_ ->].
    reflexivity.
  - destruct (id_inference GatewaySamples.gateway
                "local:checkpoints/foo.safetensors" "" None [])
      as [H _].
    destruct (H eq_refl (GatewaySamples.source_returning LOCAL []) eq_refl)
      as [-> _].
    reflexivity.
  - destruct (id_inference GatewaySamples.gateway "some-model" "" None [])
      as [_ [_ [_ H]]].
    destruct (H eq_refl eq_refl eq_refl eq_refl) as [_ [_ Hex]].
    exact Hex.
Defined.

(** An id of no recognised shape: the sources are tried in registration
    order, and [download_model] refuses. *)
Example unrecognised_id :
  get_model_info GatewaySamples.gateway "some-model" None = Ok None
  /\ download_model GatewaySamples.gateway "some-model" "models" None None []
     = Raise (Exn ValueError "Could not infer source from model_id: some-model").
Proof. split; reflexivity. Qed.

End ModelGatewayFacts.

(** ** Download progress *)

Module ModelApiFacts.
Import ModelApi.
Local Open Scope Q_scope.







Section Float.
Context (fl : FloatOps).

Local Abbreviation update := (ModelApi.update fl).
Local Abbreviation end_ := (ModelApi.end_ fl).
Local Abbreviation updates := (ModelApi.updates fl).
Local Abbreviation raw_percentage := (ModelApi.raw_percentage fl).



(** What [update] writes into the record of its download. *)
Lemma update_recorded (st : Store) (size : Z) (t : Q) (r : ProgressRecord) :
  recorded st = Some r ->
  exists sp et,
    recorded (snd (update size t st))
    = Some {| id_ := id_ r; filename := filename r; file_size := file_size r;
              progress := (self_progress (self st) + size)%Z;
              percentage :=
                float_round2 fl
                  (raw_percentage (self_progress (self st) + size)
                                  (self_file_size (self st)));
              status := status r; start_time := start_time r;
              estimated_time := et; speed := sp;
              error_message := error_message r; total_time := total_time r |}.
Proof.
  unfold recorded, ModelApi.update. intros Hr.
  match goal with
  | |- context [let '(_, _) := ?c in _] => destruct c as [sp et]
  end.
  cbn [snd self download_progress set_progress download_id self_progress
       self_file_size].
  rewrite Hr, lookup_insert_eq. eauto.
Qed.

Lemma update_self (st : Store) (size : Z) (t : Q) :
  self (snd (update size t st))
  = set_progress (self st) (self_progress (self st) + size).
Proof.
  unfold ModelApi.update.
  match goal with
  | |- context [let '(_, _) := ?c in _] => destruct c as [sp et]
  end.
  reflexivity.
Qed.

Lemma update_returns (st : Store) (size : Z) (t : Q) :
  fst (update size t st) = Ok tt.
Proof.
  unfold ModelApi.update.
  match goal with
  | |- context [let '(_, _) := ?c in _] => destruct c as [sp et]
  end.
  reflexivity.
Qed.



(** What a run of updates keeps: the attributes of the callback other than
    [progress], and in the record the status, the error message and the
    absence or presence of [total_time]. *)
Lemma updates_keep (calls : list (Z * Q)) :
  forall st : Store,
    self_file_size (self (updates calls st)) = self_file_size (self st)
    /\ download_id (self (updates calls st)) = download_id (self st)
    /\ (forall r, recorded st = Some r ->
          exists r', recorded (updates calls st) = Some r'
                     /\ status r' = status r
                     /\ error_message r' = error_message r
                     /\ total_time r' = total_time r).
Proof.
  induction calls as [|[size t] calls IH]; intros st; simpl.
  - split; [reflexivity|]. split; [reflexivity|]. eauto.
  - destruct (IH (snd (update size t st))) as [Hfs [Hid Hrec]].
    rewrite Hfs, Hid, update_self. split; [reflexivity|]. split; [reflexivity|].
    intros r Hr. destruct (update_recorded st size t r Hr) as [sp [et Hr1]].
    destruct (Hrec _ Hr1) as [r' [Hr' [H1 [H2 H3]]]].
    exists r'. split; [exact Hr'|]. simpl in *. auto.
Qed.


Lemma init_recorded (id filename : string) (file_size : Z) (did : string)
    (now : Q) (registry : gmap string ProgressRecord) :
  exists r,
    recorded (init id filename file_size did now registry) = Some r
    /\ status r = downloading /\ total_time r = None /\ error_message r = None
    /\ percentage r = 0.
Proof.
  unfold recorded, init. cbn [self download_progress download_id self_progress
                              self_file_size].
  rewrite lookup_insert_eq. eexists. split; [reflexivity|]. cbn.
  repeat split.
Qed.


End Float.




(** C10: when the accumulated progress differs from [file_size],
    [end(success=True)] raises [AssertionError] after it has set the
    callback's own status to completed, and before it touches the registry:
    the record of the download is as before, its status still
    "downloading". *)
Theorem failed_assert_leaves_record_downloading
    (fl : FloatOps) (id filename : string) (file_size : Z) (did : string) (now : Q)
    (registry : gmap string ProgressRecord)
    (calls : list (Z * Q)) (err : option string) (t : Q) :
  let st := updates fl calls (init id filename file_size did now registry) in
  self_progress (self st) <> file_size ->
  exists msg st',
    end_ fl true err t st = (Raise (Exn AssertionError msg), st')
    /\ self_status (self st') = completed
    /\ download_progress st' = download_progress st
    /\ exists r, recorded st' = Some r
                 /\ status r = downloading /\ total_time r = None.
Proof.
  intros st Hne.
  destruct (init_recorded id filename file_size did now registry)
    as [r0 [Hr0 [Hs0 [Ht0 _]]]].
  destruct (updates_keep fl calls (init id filename file_size did now registry))
    as [Hfs [Hid Hkeep]].
  destruct (Hkeep r0 Hr0) as [r [Hr [Hs [_ Ht]]]]. fold st in Hr, Hfs, Hid.
  unfold end_. cbn [set_status self_progress self_file_size].
  rewrite Hfs. cbn [init self self_file_size].
  destruct (Z.eqb_spec (self_progress (self st)) file_size) as [E|_];
    [contradiction|].
  eexists _, _. split; [reflexivity|].
  split; [reflexivity|]. split; [reflexivity|].
  exists r. split; [exact Hr|]. split; congruence.
Qed.

Lemma failed_assert_leaves_record_downloading_witness :
  exists msg st',
    end_ exact_float true None 3 DownloadSamples.after_updates
      = (Raise (Exn AssertionError msg), st')
    /\ status <$> recorded st' = Some downloading.
Proof.
  destruct (failed_assert_leaves_record_downloading exact_float "7"
              "sdxl.safetensors" 100 "download-1" 0 ∅ DownloadSamples.two_updates
              None 3)
    as [msg [st' [Hend [_ [_ [r [Hr [Hs _]]]]]]]].
  - vm_compute. discriminate.
  - exists msg, st'. split; [exact Hend|]. rewrite Hr. simpl. now rewrite Hs.
Defined.

End ModelApiFacts.


(** ** Session message table *)

Module SessionStoreProps.
Import SessionMessageTable SessionOps.

(** X1: a saved session is read back as saved.  After a successful
    [save_session_message] with an index that fits the 64-bit integer
    column, [get_session_message] returns a row with the given messages,
    index and summary, whose primary key is the value that the save
    returned; a row that existed keeps its primary key and creation time,
    and its attributes unless new non-empty ones are given; a new row is
    created at the time of the save; the rows of other sessions read as
    before. *)
Theorem save_then_get
    (c c' : Conn) (sid : string) (msgs : list Message) (i : Z)
    (s : option string) (a : option (gmap string pyval)) (db : DB) :
  save_fault c = None -> get_fault c' = None -> - 2 ^ 63 <= i < 2 ^ 63 ->
  let db' := snd (save_session_message c sid msgs i s a db) in
  (exists r',
      get_session_message c' sid db' = (Ok (Some r'), db')
      /\ messages r' = msgs /\ index r' = i /\ summary r' = s
      /\ fst (save_session_message c sid msgs i s a db) = Ok (id_ r')
      /\ (forall r, table db !! sid = Some r ->
            id_ r' = id_ r /\ created_at r' = created_at r
            /\ attributes r' = if truthy_attributes a then a else attributes r)
      /\ (table db !! sid = None ->
            created_at r' = utcnow c
            /\ attributes r' = if truthy_attributes a then a else None))
  /\ (forall sid', sid' <> sid ->
        get_session_message c' sid' db' = (Ok (table db !! sid'), db')).
Proof.
  intros Hs Hg _ db'. subst db'.
  unfold save_session_message, get_session_message. rewrite Hs, Hg.
  destruct (table db !! sid) as [r|] eqn:Hr; cbn [snd fst table]; split.
  - eexists. rewrite lookup_insert_eq. split; [reflexivity|].
    cbn. do 4 (split; [reflexivity|]). split.
    + intros r0 [= <-]. auto.
    + discriminate.
  - intros sid' Hne. now rewrite lookup_insert_ne by congruence.
  - eexists. rewrite lookup_insert_eq. split; [reflexivity|].
    cbn. do 4 (split; [reflexivity|]). split.
    + discriminate.
    + auto.
  - intros sid' Hne. now rewrite lookup_insert_ne by congruence.
Qed.

Lemma save_then_get_witness :
  exists r',
    get_session_message (healthy 2) "chat"
      (snd (save_session_message (healthy 1) "chat" (Samples.conversation 3) 0
              (Some "so far") None empty_db))
    = (Ok (Some r'),
       snd (save_session_message (healthy 1) "chat" (Samples.conversation 3) 0
              (Some "so far") None empty_db))
    /\ messages r' = Samples.conversation 3 /\ index r' = 0
    /\ summary r' = Some "so far".
Proof.
  destruct (save_then_get (healthy 1) (healthy 2) "chat" (Samples.conversation 3) 0
              (Some "so far") None empty_db eq_refl eq_refl ltac:(lia))
    as [[r' [Hget [Hm [Hi [Hs _]]]]] _].
  exists r'. auto.
Defined.

(** One DAO call keeps the session id of every row, and the primary key
    and the creation time of every row that it does not delete. *)
Lemma dao_step_keeps_identity (k : DaoCall) (db : DB) (sid : string)
    (r' : SessionMessage) :
  (forall sid0 r0, table db !! sid0 = Some r0 -> session_id r0 = sid0) ->
  table (dao_step k db) !! sid = Some r' ->
  session_id r' = sid
  /\ forall r, table db !! sid = Some r ->
       id_ r' = id_ r /\ created_at r' = created_at r.
Proof.
  intros Hkey.
  assert (Hsame : table db !! sid = Some r' ->
                  session_id r' = sid
                  /\ forall r, table db !! sid = Some r ->
                       id_ r' = id_ r /\ created_at r' = created_at r).
  { intros H. split; [now apply Hkey|]. intros r Hr.
    rewrite H in Hr. injection Hr as <-. now split. }
  destruct k as [c sid0 | c sid0 msgs i s a | c sid0 s i | c sid0];
    cbn [dao_step].
  - unfold get_session_message. now destruct (get_fault c).
  - unfold save_session_message.
    destruct (save_fault c); [exact Hsame|].
    destruct (table db !! sid0) as [r0|] eqn:Hr0; cbn [snd table].
    + destruct (decide (sid0 = sid)) as [->|Hne].
      * rewrite lookup_insert_eq. intros [= <-]. cbn. split; [now apply Hkey|].
        intros r Hr. rewrite Hr0 in Hr. injection Hr as <-. now split.
      * rewrite lookup_insert_ne by exact Hne. exact Hsame.
    + destruct (decide (sid0 = sid)) as [->|Hne].
      * rewrite lookup_insert_eq. intros [= <-]. cbn. split; [reflexivity|].
        intros r Hr. congruence.
      * rewrite lookup_insert_ne by exact Hne. exact Hsame.
  - unfold update_summary.
    destruct (update_fault c); [exact Hsame|].
    destruct (table db !! sid0) as [r0|] eqn:Hr0; cbn [snd table]; [|exact Hsame].
    destruct (decide (sid0 = sid)) as [->|Hne].
    + rewrite lookup_insert_eq. intros [= <-]. cbn. split; [now apply Hkey|].
      intros r Hr. rewrite Hr0 in Hr. injection Hr as <-. now split.
    + rewrite lookup_insert_ne by exact Hne. exact Hsame.
  - unfold delete_session_message.
    destruct (delete_fault c); [exact Hsame|].
    destruct (table db !! sid0) as [r0|] eqn:Hr0; cbn [snd table]; [|exact Hsame].
    intros H. apply lookup_delete_Some in H as [_ H]. now apply Hsame.
Qed.

Lemma dao_step_keeps_rows (k : DaoCall) (db : DB) (sid : string)
    (r : SessionMessage) :
  deletes sid k = false -> table db !! sid = Some r ->
  exists r', table (dao_step k db) !! sid = Some r'.
Proof.
  intros Hk Hr.
  destruct k as [c sid0 | c sid0 msgs i s a | c sid0 s i | c sid0];
    cbn [dao_step deletes] in *.
  - unfold get_session_message. destruct (get_fault c); eauto.
  - unfold save_session_message.
    destruct (save_fault c); [eauto|].
    destruct (table db !! sid0) as [r0|]; cbn [snd table];
      (destruct (decide (sid0 = sid)) as [->|Hne];
       [rewrite lookup_insert_eq | rewrite lookup_insert_ne by exact Hne]; eauto).
  - unfold update_summary.
    destruct (update_fault c); [eauto|].
    destruct (table db !! sid0) as [r0|]; cbn [snd table]; [|eauto].
    destruct (decide (sid0 = sid)) as [->|Hne];
      [rewrite lookup_insert_eq | rewrite lookup_insert_ne by exact Hne]; eauto.
  - unfold delete_session_message.
    destruct (delete_fault c); [eauto|].
    destruct (table db !! sid0) as [r0|]; cbn [snd table]; [|eauto].
    rewrite lookup_delete_ne; [eauto|].
    intros ->. rewrite String.eqb_refl in Hk. discriminate.
Qed.

(** The key of a new row is above every key in use. *)
Lemma new_key_above (t : gmap string SessionMessage) (sid : string)
    (r : SessionMessage) :
  t !! sid = Some r -> id_ r < new_key t.
Proof.
  unfold new_key.
  set (f := fun (_ : string) (r : SessionMessage) (largest : option Z) =>
              Some (match largest with
                    | Some m => Z.max (id_ r) m
                    | None => id_ r
                    end)).
  assert (H : forall sid r, t !! sid = Some r ->
                exists m, map_fold f None t = Some m /\ id_ r <= m).
  { apply (map_fold_weak_ind
             (fun acc (m : gmap string SessionMessage) =>
                forall sid r, m !! sid = Some r ->
                  exists M, acc = Some M /\ id_ r <= M)).
    - intros sid0 r0 H0. rewrite lookup_empty in H0. discriminate.
    - intros i x m acc Hi IH sid0 r0 H0.
      destruct (decide (i = sid0)) as [->|Hne].
      + rewrite lookup_insert_eq in H0. injection H0 as <-.
        unfold f. eexists. split; [reflexivity|]. destruct acc; lia.
      + rewrite lookup_insert_ne in H0 by exact Hne.
        destruct (IH sid0 r0 H0) as [M [-> HM]].
        unfold f. eexists. split; [reflexivity|]. lia. }
  intros Hr. destruct (H sid r Hr) as [m [-> Hm]]. lia.
Qed.

Lemma dao_step_keys_unique (k : DaoCall) (db : DB) :
  keys_unique db -> keys_unique (dao_step k db).
Proof.
  intros Huniq.
  destruct k as [c sid | c sid msgs i s a | c sid s i | c sid]; cbn [dao_step].
  - unfold get_session_message. now destruct (get_fault c).
  - unfold save_session_message.
    destruct (save_fault c); [exact Huniq|].
    destruct (table db !! sid) as [r|] eqn:Hr; cbn [snd];
      intros sid1 sid2 r1 r2; cbn [table];
      (destruct (decide (sid = sid1)) as [<-|Hne1];
       destruct (decide (sid = sid2)) as [<-|Hne2];
       rewrite ?lookup_insert_eq, ?lookup_insert_ne by assumption).
    + reflexivity.
    + intros [= <-] H2 E. apply (Huniq sid sid2 r r2 Hr H2). exact E.
    + intros H1 [= <-] E. apply (Huniq sid1 sid r1 r H1 Hr). exact E.
    + apply Huniq.
    + reflexivity.
    + intros [= <-] H2 E. cbn [id_] in E.
      pose proof (new_key_above (table db) sid2 r2 H2). lia.
    + intros H1 [= <-] E. cbn [id_] in E.
      pose proof (new_key_above (table db) sid1 r1 H1). lia.
    + apply Huniq.
  - unfold update_summary.
    destruct (update_fault c); [exact Huniq|].
    destruct (table db !! sid) as [r|] eqn:Hr; cbn [snd]; [|exact Huniq].
    intros sid1 sid2 r1 r2; cbn [table].
    destruct (decide (sid = sid1)) as [<-|Hne1];
      destruct (decide (sid = sid2)) as [<-|Hne2];
      rewrite ?lookup_insert_eq, ?lookup_insert_ne by assumption.
    + reflexivity.
    + intros [= <-] H2 E. apply (Huniq sid sid2 r r2 Hr H2). exact E.
    + intros H1 [= <-] E. apply (Huniq sid1 sid r1 r H1 Hr). exact E.
    + apply Huniq.
  - unfold delete_session_message.
    destruct (delete_fault c); [exact Huniq|].
    destruct (table db !! sid) as [r|] eqn:Hr; cbn [snd]; [|exact Huniq].
    intros sid1 sid2 r1 r2 H1 H2. cbn [table] in H1, H2.
    apply lookup_delete_Some in H1 as [_ H1].
    apply lookup_delete_Some in H2 as [_ H2]. now apply Huniq.
Qed.

(** X2: the DAO keeps the identity of the rows.  Over any sequence of
    get, save, update and delete calls, whichever of them fail, every row
    stays under its own [session_id]; no two rows come to share a primary
    key (a new row gets one more than the largest key in use); and a
    stored session that no call of the sequence deletes is still stored
    afterwards, with the primary key and the creation time that it had. *)
Theorem session_rows_keep_identity (calls : list DaoCall) (db : DB) :
  (forall sid r, table db !! sid = Some r -> session_id r = sid) ->
  (forall sid r, table (dao_run calls db) !! sid = Some r -> session_id r = sid)
  /\ (keys_unique db -> keys_unique (dao_run calls db))
  /\ (forall sid r,
        table db !! sid = Some r ->
        forallb (fun k => negb (deletes sid k)) calls = true ->
        exists r',
          table (dao_run calls db) !! sid = Some r'
          /\ id_ r' = id_ r /\ created_at r' = created_at r).
Proof.
  revert db. induction calls as [|k calls IH]; intros db Hkey; cbn [dao_run].
  - split; [exact Hkey|]. split; [auto|]. intros sid r Hr _. exists r. auto.
  - assert (Hkey' : forall sid r, table (dao_step k db) !! sid = Some r ->
                                  session_id r = sid).
    { intros sid r Hr. now destruct (dao_step_keeps_identity k db sid r Hkey Hr). }
    destruct (IH (dao_step k db) Hkey') as [H1 [H3 H2]].
    split; [exact H1|]. split.
    { intros Hu. apply H3. now apply dao_step_keys_unique. }
    intros sid r Hr Hall. cbn [forallb] in Hall.
    apply andb_prop in Hall as [Hk Hall]. apply negb_true_iff in Hk.
    destruct (dao_step_keeps_rows k db sid r Hk Hr) as [r1 Hr1].
    destruct (dao_step_keeps_identity k db sid r1 Hkey Hr1) as [_ Hid].
    destruct (Hid r Hr) as [Hid1 Hid2].
    destruct (H2 sid r1 Hr1 Hall) as [r' [Hr' [Hid3 Hid4]]].
    exists r'. split; [exact Hr'|]. split; congruence.
Qed.

Lemma session_rows_keep_identity_witness :
  let db := snd (save_session_message (healthy 1) "a" (Samples.conversation 1) 0
                   None None empty_db) in
  exists r',
    table (dao_run [CallSave (healthy 2) "b" (Samples.conversation 2) 0 None None;
                    CallUpdate (healthy 3) "a" "recap" 1;
                    CallDelete (healthy 4) "b";
                    CallSave (healthy 5) "a" (Samples.conversation 3) 1 None None]
             db) !! "a" = Some r'
    /\ created_at r' = 1.
Proof.
  intros db.
  destruct (session_rows_keep_identity
              [CallSave (healthy 2) "b" (Samples.conversation 2) 0 None None;
               CallUpdate (healthy 3) "a" "recap" 1;
               CallDelete (healthy 4) "b";
               CallSave (healthy 5) "a" (Samples.conversation 3) 1 None None]
              db) as [_ [_ H]].
  - apply (session_rows_keep_identity
             [CallSave (healthy 1) "a" (Samples.conversation 1) 0 None None]
             empty_db).
    intros sid r Hr. unfold empty_db in Hr. cbn [table] in Hr.
    rewrite lookup_empty in Hr. discriminate.
  - destruct (H "a" {| id_ := 1; session_id := "a";
                       messages := Samples.conversation 1; index := 0;
                       summary := None; attributes := None; created_at := 1 |})
      as [r' [Hr' [_ Hc]]].
    + reflexivity.
    + reflexivity.
    + exists r'. split; [exact Hr' | exact Hc].
Defined.

(** X3: [update_summary] never creates a row.  For a session that is not
    stored it returns [False] and leaves the database as it is; for a
    stored session and an index that fits the 64-bit integer column it
    returns [True] and changes the summary and the index only, the stored
    messages, attributes, primary key and creation time staying as they
    were, and the rows of other sessions too. *)
Theorem update_summary_only_touches_summary
    (c : Conn) (sid : string) (s : string) (i : Z) (db : DB) :
  update_fault c = None -> - 2 ^ 63 <= i < 2 ^ 63 ->
  (table db !! sid = None -> update_summary c sid s i db = (Ok false, db))
  /\ (forall r, table db !! sid = Some r ->
        exists db' r',
          update_summary c sid s i db = (Ok true, db')
          /\ table db' !! sid = Some r'
          /\ summary r' = Some s /\ index r' = i
          /\ messages r' = messages r /\ attributes r' = attributes r
          /\ id_ r' = id_ r /\ created_at r' = created_at r
          /\ forall sid', sid' <> sid -> table db' !! sid' = table db !! sid').
Proof.
  intros Hu _. unfold update_summary. rewrite Hu. split.
  - now intros ->.
  - intros r ->. eexists _, _. split; [reflexivity|].
    cbn [table]. rewrite lookup_insert_eq. split; [reflexivity|].
    cbn. do 6 (split; [reflexivity|]).
    intros sid' Hne. now rewrite lookup_insert_ne by congruence.
Qed.

Lemma update_summary_only_touches_summary_witness :
  update_summary (healthy 0) "nobody" "recap" 5 empty_db = (Ok false, empty_db).
Proof.
  destruct (update_summary_only_touches_summary (healthy 0) "nobody" "recap" 5
              empty_db eq_refl ltac:(lia)) as [H _].
  apply H. apply lookup_empty.
Defined.

End SessionStoreProps.

(** ** Message memory: the shape of the view, reading it back, statistics *)

Module MessageMemoryMore.
Import SessionMessageTable MessageMemory MessageMemoryStats.
Import MessageMemoryFacts PyFacts.

Lemma slice_from_is_drop {A} (l : list A) (i : Z) :
  exists k, slice_from l i = drop k l /\ len (drop k l) <= Z.max 0 (len l - i).
Proof.
  exists (Z.to_nat (slice_bound (len l) i)). split; [reflexivity|].
  unfold len. rewrite length_drop. unfold slice_bound.
  destruct (Z.ltb_spec i 0); lia.
Qed.

(** The view built from a summary is a suffix of the messages, preceded by
    the context message exactly when the summary is not blank and the suffix
    is not empty. *)
Lemma build_shape (summary : option string) (msgs : list Message) (i : Z) :
  exists k,
    len (drop k msgs) <= Z.max 0 (len msgs - i)
    /\ (_build_optimized_messages summary msgs i = drop k msgs
        \/ exists s, summary = Some s /\ strip s <> "" /\ (k < length msgs)%nat
                     /\ _build_optimized_messages summary msgs i
                        = summary_context s :: drop k msgs).
Proof.
  destruct (slice_from_is_drop msgs i) as [k [Hk Hlen]].
  exists k. split; [exact Hlen|].
  unfold _build_optimized_messages. rewrite Hk.
  destruct summary as [s|]; [|now left].
  destruct (truthy_str (Some s) && (0 <? Z.of_nat (String.length (strip s)))
            && (0 <? len (drop k msgs))) eqn:E; [|now left].
  right. exists s. apply andb_prop in E as [E E3]. apply andb_prop in E as [_ E2].
  split; [reflexivity|]. split; [|split; [|reflexivity]].
  - intros Hs. rewrite Hs in E2. discriminate.
  - apply Z.ltb_lt in E3. unfold len in E3. rewrite length_drop in E3. lia.
Qed.

(** X4: whatever the database and the summarizer do, the view returned by
    [message_memory_optimize] is a suffix of the input messages, unchanged
    and in order, preceded by at most one context message; and a context
    message never carries a blank summary. *)
Theorem view_is_context_plus_suffix
    (gs : list Message -> option string -> Result string) (c : Conn)
    (sid : string) (msgs : list Message) (db : DB) :
  exists view db' k,
    message_memory_optimize gs c sid msgs db = (Ok view, db')
    /\ (view = drop k msgs
        \/ exists s, strip s <> "" /\ (k < length msgs)%nat
                     /\ view = summary_context s :: drop k msgs).
Proof.
  assert (Hwhole : forall db',
             message_memory_optimize gs c sid msgs db = (Ok msgs, db') ->
             exists view db' k,
               message_memory_optimize gs c sid msgs db = (Ok view, db')
               /\ (view = drop k msgs
                   \/ exists s, strip s <> "" /\ (k < length msgs)%nat
                                /\ view = summary_context s :: drop k msgs)).
  { intros db' H. exists msgs, db', 0%nat. split; [exact H | now left]. }
  assert (Hbuild : forall summary i db',
             message_memory_optimize gs c sid msgs db
               = (Ok (_build_optimized_messages summary msgs i), db') ->
             exists view db' k,
               message_memory_optimize gs c sid msgs db = (Ok view, db')
               /\ (view = drop k msgs
                   \/ exists s, strip s <> "" /\ (k < length msgs)%nat
                                /\ view = summary_context s :: drop k msgs)).
  { intros summary i db' H.
    destruct (build_shape summary msgs i) as [k [_ [Hk | [s [_ [Hs [Hlt Hk]]]]]]];
      rewrite Hk in H; eexists _, db', k; (split; [exact H|]);
      [now left | right; eauto]. }
  destruct (get_fault c) as [e|] eqn:Hg.
  { eapply Hwhole, optimize_get_raises; eassumption. }
  destruct (save_fault c) as [e|] eqn:Hs.
  { eapply Hwhole, optimize_save_raises; eassumption. }
  destruct (table db !! sid) as [r|] eqn:Hr.
  2:{ eapply Hwhole, optimize_new_session; eassumption. }
  destruct (Z.le_gt_cases (len msgs - index r) COMPRESSION_THRESHOLD) as [Hle|Hgt].
  { eapply Hbuild, optimize_below_threshold; eassumption. }
  destruct (gs (slice msgs (index r) (len msgs - KEEP_RECENT_MESSAGES)) (summary r))
    as [s|e] eqn:Hsum.
  2:{ eapply Hwhole, optimize_summarizer_raises; eassumption. }
  destruct (update_fault c) as [e|] eqn:Hu.
  { eapply Hwhole, optimize_update_raises; eassumption. }
  eapply Hbuild, optimize_compacts; eassumption.
Qed.

(** X5: the first call for a session that is not stored returns the input
    list as it is, however long, without calling the summarizer, and stores
    it in a new row with index 0 and no summary, the rows of other
    sessions staying as they were. *)
Theorem new_session_bypass
    (gs : list Message -> option string -> Result string) (c : Conn)
    (sid : string) (msgs : list Message) (db : DB) :
  get_fault c = None -> save_fault c = None -> table db !! sid = None ->
  exists db' r,
    message_memory_optimize gs c sid msgs db = (Ok msgs, db')
    /\ table db' !! sid = Some r
    /\ messages r = msgs /\ index r = 0 /\ summary r = None
    /\ created_at r = utcnow c
    /\ forall sid', sid' <> sid -> table db' !! sid' = table db !! sid'.
Proof.
  intros Hg Hs Hn. eexists _, _.
  split; [now apply optimize_new_session|].
  cbn [table]. rewrite lookup_insert_eq.
  do 5 (split; [reflexivity|]).
  intros sid' Hne. now rewrite lookup_insert_ne by congruence.
Qed.

Lemma new_session_bypass_witness :
  fst (message_memory_optimize Samples.failing_summarizer (healthy 0) "fresh"
         (Samples.conversation 12) empty_db)
  = Ok (Samples.conversation 12).
Proof.
  destruct (new_session_bypass Samples.failing_summarizer (healthy 0) "fresh"
              (Samples.conversation 12) empty_db eq_refl eq_refl)
    as [db' [r [H _]]].
  - apply lookup_empty.
  - now rewrite H.
Defined.

(** X6: reading the optimized messages back.  After a call of the program's
    [message_memory_optimize] during which the database works,
    [get_optimized_messages] returns the view that the call returned, and
    leaves the database as it is. *)
Theorem get_optimized_messages_after_optimize
    (env : SummaryAgent.Imports) (now : Z) (c' : Conn)
    (sid : string) (msgs : list Message) (db : DB) :
  get_fault c' = None ->
  get_optimized_messages c' sid (snd (optimize env (healthy now) sid msgs db))
  = optimize env (healthy now) sid msgs db.
Proof.
  intros Hg. unfold optimize.
  set (gs := SummaryAgent.generate_summary env).
  assert (Hread : forall view (t : gmap string SessionMessage) r,
             t !! sid = Some r ->
             view = _build_optimized_messages (summary r) (messages r) (index r) ->
             get_optimized_messages c' sid {| table := t |}
             = (Ok view, {| table := t |})).
  { intros view t r Hr ->.
    unfold get_optimized_messages, try_except, bind, get_session_message.
    rewrite Hg. cbn [table]. now rewrite Hr. }
  destruct (table db !! sid) as [r|] eqn:Hr.
  - destruct (Z.le_gt_cases (len msgs - index r) COMPRESSION_THRESHOLD) as [Hle|Hgt].
    + rewrite (optimize_below_threshold gs _ sid msgs db r) by (reflexivity || assumption).
      cbn [snd]. apply (Hread _ _ (with_messages r msgs)); [|reflexivity].
      apply lookup_insert_eq.
    + destruct (SummaryAgentFacts.generate_summary_returns env
                  (slice msgs (index r) (len msgs - KEEP_RECENT_MESSAGES)) (summary r))
        as [s Hs].
      rewrite (optimize_compacts gs _ sid msgs db r s) by (reflexivity || assumption).
      cbn [snd].
      apply (Hread _ _ (compacted r msgs s (len msgs - KEEP_RECENT_MESSAGES)));
        [|reflexivity].
      apply lookup_insert_eq.
  - rewrite (optimize_new_session gs _ sid msgs db) by (reflexivity || assumption).
    cbn [snd].
    eapply Hread; [apply lookup_insert_eq|].
    cbn [summary messages index].
    unfold _build_optimized_messages. now rewrite slice_from_0.
Qed.

Lemma get_optimized_messages_after_optimize_witness :
  get_optimized_messages (healthy 9) "chat"
    (MessageMemory.run [Samples.chat_call 9; Samples.chat_call 9] empty_db)
  = optimize Samples.recap_imports (healthy 0) "chat" (Samples.conversation 9)
      (MessageMemory.run [Samples.chat_call 9] empty_db).
Proof.
  apply (get_optimized_messages_after_optimize Samples.recap_imports 0 (healthy 9)
           "chat" (Samples.conversation 9)
           (MessageMemory.run [Samples.chat_call 9] empty_db)).
  reflexivity.
Defined.

Lemma build_length (summary : option string) (msgs : list Message) (i : Z) :
  len (_build_optimized_messages summary msgs i) <= Z.max 0 (len msgs - i) + 1.
Proof.
  destruct (build_shape summary msgs i) as [k [Hlen [-> | [s [_ [_ [_ ->]]]]]]].
  - lia.
  - unfold len in *. simpl. lia.
Qed.

(** X7: the memory handed to the LLM is bounded.  When the session is
    already stored and the database works, the view returned by the
    program's [message_memory_optimize] has at most
    COMPRESSION_THRESHOLD + 1 = 9 messages, and afterwards
    [get_compression_stats] reports the whole input as stored, at most
    8 of its messages uncompressed, and a compressed count that did not go
    down. *)
Theorem view_and_stats_are_bounded
    (env : SummaryAgent.Imports) (now : Z) (c' : Conn)
    (sid : string) (msgs : list Message) (db : DB) (r : SessionMessage) :
  table db !! sid = Some r -> get_fault c' = None ->
  exists view db' st,
    optimize env (healthy now) sid msgs db = (Ok view, db')
    /\ len view <= COMPRESSION_THRESHOLD + 1
    /\ get_compression_stats c' sid db' = (Ok (StatsOk st), db')
    /\ exists_ st = true
    /\ total_messages st = len msgs
    /\ uncompressed_messages st <= COMPRESSION_THRESHOLD
    /\ compressed_messages st + uncompressed_messages st = total_messages st
    /\ index r <= compressed_messages st.
Proof.
  intros Hr Hg. unfold optimize.
  set (gs := SummaryAgent.generate_summary env).
  assert (Hstats : forall (t : gmap string SessionMessage) r',
             t !! sid = Some r' ->
             exists st,
               get_compression_stats c' sid {| table := t |}
               = (Ok (StatsOk st), {| table := t |})
               /\ exists_ st = true
               /\ total_messages st = len (messages r')
               /\ uncompressed_messages st = len (messages r') - index r'
               /\ compressed_messages st = index r').
  { intros t r' Hr'.
    unfold get_compression_stats, try_except, bind, get_session_message.
    rewrite Hg. cbn [table]. rewrite Hr'. eexists. split; [reflexivity|].
    cbn. auto. }
  destruct (Z.le_gt_cases (len msgs - index r) COMPRESSION_THRESHOLD) as [Hle|Hgt].
  - rewrite (optimize_below_threshold gs _ sid msgs db r) by (reflexivity || assumption).
    destruct (Hstats (<[sid := with_messages r msgs]> (table db))
                (with_messages r msgs) (lookup_insert_eq _ _ _))
      as [st [Hst [He [Ht [Hu Hc]]]]].
    eexists _, _, st. split; [reflexivity|].
    split.
    { pose proof (build_length (summary r) msgs (index r)).
      unfold COMPRESSION_THRESHOLD in *. lia. }
    split; [exact Hst|]. cbn [messages index with_messages] in *.
    rewrite He, Ht, Hu, Hc. repeat split; lia.
  - destruct (SummaryAgentFacts.generate_summary_returns env
                (slice msgs (index r) (len msgs - KEEP_RECENT_MESSAGES)) (summary r))
      as [s Hs].
    rewrite (optimize_compacts gs _ sid msgs db r s) by (reflexivity || assumption).
    destruct (Hstats (<[sid := compacted r msgs s (len msgs - KEEP_RECENT_MESSAGES)]>
                        (table db))
                (compacted r msgs s (len msgs - KEEP_RECENT_MESSAGES))
                (lookup_insert_eq _ _ _))
      as [st [Hst [He [Ht [Hu Hc]]]]].
    eexists _, _, st. split; [reflexivity|].
    split.
    { pose proof (build_length (Some s) msgs (len msgs - KEEP_RECENT_MESSAGES)).
      unfold COMPRESSION_THRESHOLD, KEEP_RECENT_MESSAGES in *. lia. }
    split; [exact Hst|]. cbn [messages index compacted] in *.
    rewrite He, Ht, Hu, Hc.
    unfold COMPRESSION_THRESHOLD, KEEP_RECENT_MESSAGES in *. repeat split; lia.
Qed.

Lemma view_and_stats_are_bounded_witness :
  exists view db' st,
    optimize Samples.recap_imports (healthy 0) "chat" (Samples.conversation 20)
      (MessageMemory.run [Samples.chat_call 2] empty_db) = (Ok view, db')
    /\ len view <= COMPRESSION_THRESHOLD + 1
    /\ get_compression_stats (healthy 1) "chat" db' = (Ok (StatsOk st), db')
    /\ uncompressed_messages st <= COMPRESSION_THRESHOLD.
Proof.
  destruct (view_and_stats_are_bounded Samples.recap_imports 0 (healthy 1) "chat"
              (Samples.conversation 20)
              (MessageMemory.run [Samples.chat_call 2] empty_db)
              {| id_ := 1; session_id := "chat"; messages := Samples.conversation 2;
                 index := 0; summary := None; attributes := None; created_at := 0 |})
    as [view [db' [st [H1 [H2 [H3 [_ [_ [H4 _]]]]]]]]].
  - vm_compute. reflexivity.
  - reflexivity.
  - exists view, db', st. auto.
Defined.

End MessageMemoryMore.

(** ** Summary agent: which messages reach the prompt *)

Module SummaryAgentMore.
Import SummaryAgent SummaryAgentText.

Lemma messages_text_lines (messages : list Message) :
  messages_text messages
  = rbind (text_lines messages) (fun ls => Ok (join (nl ++ nl)%string ls)).
Proof.
  unfold messages_text, text_lines.
  now destruct (rmap message_line messages).
Qed.

Lemma text_lines_cons (m : Message) (l : list Message) :
  text_lines (m :: l)
  = rbind (message_line m) (fun line =>
    rbind (text_lines l) (fun ls =>
    Ok (match line with Some x => x :: ls | None => ls end))).
Proof.
  unfold text_lines. simpl.
  destruct (message_line m) as [[x|]|e]; simpl; try reflexivity;
    now destruct (rmap message_line l).
Qed.

Lemma message_line_without_text (m : Message) :
  has_text_content m = false -> message_line m = Ok None.
Proof.
  unfold has_text_content, message_line.
  destruct (m !! "content") as [[| | |]|]; intros H; try reflexivity; discriminate.
Qed.

Lemma text_lines_filter (messages : list Message) :
  text_lines (List.filter has_text_content messages) = text_lines messages.
Proof.
  induction messages as [|m l IH]; [reflexivity|].
  cbn [List.filter]. destruct (has_text_content m) eqn:E.
  - now rewrite !text_lines_cons, IH.
  - rewrite text_lines_cons, (message_line_without_text m E), IH. simpl.
    now destruct (text_lines l).
Qed.

(** X8: messages whose content is not a string never reach the LLM.  The
    prompt text built from a message list is the one built from its
    messages with text content, so the body of [generate_summary] does the
    same on both lists; a message with text content but without a string
    role makes both fail alike. *)
Theorem non_text_messages_are_not_sent
    (env : Imports) (messages : list Message) (previous_summary : option string) :
  messages_text (List.filter has_text_content messages) = messages_text messages
  /\ generate_summary_body env (List.filter has_text_content messages) previous_summary
     = generate_summary_body env messages previous_summary.
Proof.
  assert (H : messages_text (List.filter has_text_content messages)
              = messages_text messages).
  { now rewrite !messages_text_lines, text_lines_filter. }
  split; [exact H|].
  unfold generate_summary_body. now rewrite H.
Qed.

End SummaryAgentMore.

(** ** Model gateway: registration, unified pages, resolution *)

Module ModelGatewayMoreProps.
Import ModelSourceBase ModelGateway ModelGatewayMore SortFacts ModelGatewayFacts.

(** X9: what [__init__] registers.  A source is registered exactly when it
    is enabled and its constructor does not raise; a constructor that raises
    costs only its own source.  The registration order is HuggingFace,
    Civitai, Local, and ModelScope is never registered. *)
Theorem init_registers_enabled_sources
    (enable_huggingface enable_civitai enable_local : bool)
    (HuggingFaceSource CivitaiSource LocalModelScanner : Result ModelSource) :
  let self := init enable_huggingface enable_civitai enable_local
                HuggingFaceSource CivitaiSource LocalModelScanner in
  let registered (enabled : bool) (ctor : Result ModelSource) :=
    if enabled then match ctor with Ok src => Some src | Raise _ => None end
    else None in
  dict_get (sources self) HUGGINGFACE = registered enable_huggingface HuggingFaceSource
  /\ dict_get (sources self) CIVITAI = registered enable_civitai CivitaiSource
  /\ dict_get (sources self) LOCAL = registered enable_local LocalModelScanner
  /\ dict_get (sources self) MODELSCOPE = None
  /\ NoDup (keys (sources self))
  /\ sublist (keys (sources self)) [HUGGINGFACE; CIVITAI; LOCAL].
Proof.
  destruct enable_huggingface, enable_civitai, enable_local,
    HuggingFaceSource as [hf|?], CivitaiSource as [cv|?], LocalModelScanner as [lc|?];
    vm_compute; (do 4 (split; [reflexivity|]));
    (split; [apply (bool_decide_unpack _); reflexivity|]);
    repeat first [apply sublist_nil | apply sublist_skip | apply sublist_cons].
Qed.

Lemma sort_perm {A K} (ltb : K -> K -> bool) (key : A -> K) (reverse : bool)
    (l : list A) :
  Permutation (sort ltb key reverse l) l.
Proof.
  assert (Hasc : forall x l, Permutation (insert_asc ltb key x l) (x :: l)).
  { intros x l0. induction l0 as [|y l0 IH]; simpl; [reflexivity|].
    destruct (ltb (key y) (key x)); [|reflexivity].
    rewrite IH. apply perm_swap. }
  assert (Hdesc : forall x l, Permutation (insert_desc ltb key x l) (x :: l)).
  { intros x l0. induction l0 as [|y l0 IH]; simpl; [reflexivity|].
    destruct (ltb (key x) (key y)); [|reflexivity].
    rewrite IH. apply perm_swap. }
  unfold sort. induction l as [|x l IH]; simpl; [reflexivity|].
  destruct reverse; [rewrite Hdesc | rewrite Hasc]; now constructor.
Qed.

Lemma sort_models_perm (sort_by : option string) (l : list ModelInfo) :
  Permutation (sort_models sort_by l) l.
Proof.
  unfold sort_models.
  repeat match goal with
         | |- context [if ?b then _ else _] => destruct b
         end; try apply sort_perm; reflexivity.
Qed.

Lemma total_of_sum (all_results : Dict ModelSourceType SearchResult) :
  total_of all_results = sum_of_totals all_results.
Proof.
  unfold total_of, sum_of_totals.
  assert (H : forall acc,
             foldl (fun acc kv => acc + total (snd kv)) acc all_results
             = acc + foldr Z.add 0 (map (fun kv => total (snd kv)) all_results)).
  { induction all_results as [|kv l IH]; intros acc; simpl; [lia|].
    rewrite IH. lia. }
  rewrite H. lia.
Qed.

(** X10: a unified page, whatever the sort criterion.  For [page >= 1] and
    [page_size >= 0], [search_unified] returns at most [page_size] models,
    each of them a model of some per-source result; [total] is the sum of
    the per-source totals, the same on every page; the page and page size
    are echoed and the source is the placeholder [LOCAL]. *)
Theorem search_unified_page_bounds
    (self : Gateway) (query : string) (page page_size : Z)
    (model_type sort_by : option string)
    (sources : option (list ModelSourceType)) (kwargs : Kwargs) :
  1 <= page -> 0 <= page_size ->
  exists all_results res,
    search_all self query 1 (page_size * len (ModelGateway.sources self))
      model_type sort_by sources kwargs = Ok all_results
    /\ search_unified self query page page_size model_type sort_by sources kwargs
       = Ok res
    /\ len (models res) <= page_size
    /\ (forall m, m ∈ models res ->
          exists st r, (st, r) ∈ all_results /\ m ∈ models r)
    /\ total res = sum_of_totals all_results
    /\ ModelSourceBase.page res = page /\ ModelSourceBase.page_size res = page_size
    /\ result_source res = LOCAL.
Proof.
  intros Hpage Hsize.
  eexists _, _. split; [apply search_all_eq|].
  unfold search_unified. rewrite search_all_eq. cbn [rbind].
  split; [reflexivity|]. cbn [models total ModelSourceBase.page
                               ModelSourceBase.page_size result_source].
  rewrite slice_window by nia.
  split; [|split; [|split; [apply total_of_sum | auto]]].
  - unfold len. rewrite length_take. lia.
  - intros m Hm.
    apply subseteq_take, subseteq_drop in Hm.
    rewrite sort_models_perm, combine_models_concat in Hm.
    apply list_elem_of_In, in_concat in Hm as [ms [Hms Hm]].
    apply in_map_iff in Hms as [[st r] [<- Hkv]].
    exists st, r. split; now apply list_elem_of_In.
Qed.

Lemma search_unified_page_bounds_witness :
  exists res,
    search_unified GatewaySamples.gateway "xl" 2 3 None (Some "name") None [] = Ok res
    /\ len (models res) <= 3 /\ total res = 5.
Proof.
  destruct (search_unified_page_bounds GatewaySamples.gateway "xl" 2 3 None
              (Some "name") None [])
    as [all_results [res [Hall [Hres [Hlen [_ [Htotal _]]]]]]].
  - lia.
  - lia.
  - exists res. split; [exact Hres|]. split; [exact Hlen|].
    rewrite Htotal. vm_compute in Hall. injection Hall as <-. reflexivity.
Defined.

Lemma dict_get_in_values {K V} `{EqDecision K} (d : Dict K V) (k : K) (v : V) :
  dict_get d k = Some v -> v ∈ values d.
Proof.
  induction d as [|[k0 v0] d IH]; simpl; [discriminate|].
  destruct (decide (k0 = k)).
  - intros [= ->]. apply list_elem_of_here.
  - intros H. apply list_elem_of_further, IH, H.
Qed.

(** X11: [download_model] and [get_model_url] resolve the same source.
    Either a registered source is chosen, and then [download_model] returns
    or raises exactly what that source's [download_model] does, while
    [get_model_url] gives that source's URL; or no source is chosen, and
    then [download_model] raises a [ValueError] of the gateway, without
    calling any source, while [get_model_url] gives [None]. *)
Theorem download_and_url_resolve_alike
    (self : Gateway) (model_id dest_dir : string)
    (source_type : option ModelSourceType)
    (progress_callback : option ProgressCallback) (kwargs : Kwargs) :
  (exists source,
      source ∈ values (sources self)
      /\ download_model self model_id dest_dir source_type progress_callback kwargs
         = ModelSourceBase.download_model source model_id dest_dir
             progress_callback kwargs
      /\ get_model_url self model_id source_type
         = rbind (ModelSourceBase.get_model_url source model_id)
                 (fun u => Ok (Some u)))
  \/ (exists msg,
        download_model self model_id dest_dir source_type progress_callback kwargs
        = Raise (Exn ValueError msg)
        /\ get_model_url self model_id source_type = Ok None).
Proof.
  unfold download_model, get_model_url.
  destruct source_type as [st|].
  - destruct (dict_get (sources self) st) as [source|] eqn:E.
    + left. exists source. split; [eapply dict_get_in_values, E|]. now split.
    + right. eexists. now split.
  - destruct (startswith model_id "local:");
      [|destruct (str_in "/" model_id); [|destruct (isdigit model_id)]];
      cbn [rbind];
      try (right; eexists; split; reflexivity);
      match goal with
      | |- context [dict_get (sources self) ?k] =>
          destruct (dict_get (sources self) k) as [source|] eqn:E
      end;
      try (right; eexists; split; reflexivity);
      left; exists source; (split; [eapply dict_get_in_values, E|]); now split.
Qed.

(** X12: what [get_model_info] returns comes from a registered source.  A
    model it returns is the answer of some registered source for that id
    (of the requested source when one is named), and an exception it
    raises was raised by a registered source for that id. *)
Theorem get_model_info_answers_come_from_sources
    (self : Gateway) (model_id : string) (source_type : option ModelSourceType) :
  (forall info,
      get_model_info self model_id source_type = Ok (Some info) ->
      exists source,
        source ∈ values (sources self)
        /\ ModelSourceBase.get_model_info source model_id = Ok (Some info)
        /\ forall st, source_type = Some st ->
                      dict_get (sources self) st = Some source)
  /\ (forall e,
        get_model_info self model_id source_type = Raise e ->
        exists source,
          source ∈ values (sources self)
          /\ ModelSourceBase.get_model_info source model_id = Raise e).
Proof.
  assert (Hall : forall info,
             try_all_sources (values (sources self)) model_id = Some info ->
             exists source,
               source ∈ values (sources self)
               /\ ModelSourceBase.get_model_info source model_id = Ok (Some info)).
  { intros info H. apply try_all_sources_first in H
      as [before [source [after [Heq [Hsrc _]]]]].
    exists source. split; [|exact Hsrc].
    rewrite Heq. apply elem_of_app. right. apply list_elem_of_here. }
  unfold get_model_info. destruct source_type as [st|].
  - destruct (dict_get (sources self) st) as [source|] eqn:E.
    + split.
      * intros info H. exists source.
        split; [eapply dict_get_in_values, E|]. split; [exact H|].
        now intros st' [= <-].
      * intros e H. exists source. split; [eapply dict_get_in_values, E | exact H].
    + split; intros ? H; discriminate.
  - assert (Hdirect : forall k,
               (forall info,
                   match dict_get (sources self) k with
                   | Some source => ModelSourceBase.get_model_info source model_id
                   | None => Ok (try_all_sources (values (sources self)) model_id)
                   end = Ok (Some info) ->
                   exists source,
                     source ∈ values (sources self)
                     /\ ModelSourceBase.get_model_info source model_id = Ok (Some info)
                     /\ forall st, @None ModelSourceType = Some st ->
                                   dict_get (sources self) st = Some source)
               /\ (forall e,
                     match dict_get (sources self) k with
                     | Some source => ModelSourceBase.get_model_info source model_id
                     | None => Ok (try_all_sources (values (sources self)) model_id)
                     end = Raise e ->
                     exists source,
                       source ∈ values (sources self)
                       /\ ModelSourceBase.get_model_info source model_id = Raise e)).
    { intros k. destruct (dict_get (sources self) k) as [source|] eqn:E.
      - split.
        + intros info H. exists source.
          split; [eapply dict_get_in_values, E|]. split; [exact H | discriminate].
        + intros e H. exists source.
          split; [eapply dict_get_in_values, E | exact H].
      - split.
        + intros info [= H]. destruct (Hall info H) as [source [H1 H2]].
          exists source. split; [exact H1|]. split; [exact H2 | discriminate].
        + discriminate. }
    destruct (startswith model_id "local:"); [apply Hdirect|].
    destruct (str_in "/" model_id); [apply Hdirect|].
    destruct (isdigit model_id); [apply Hdirect|].
    split.
    + intros info [= H]. destruct (Hall info H) as [source [H1 H2]].
      exists source. split; [exact H1|]. split; [exact H2 | discriminate].
    + discriminate.
Qed.

Lemma get_model_info_answers_come_from_sources_witness :
  exists source,
    source ∈ values (sources GatewaySamples.gateway)
    /\ ModelSourceBase.get_model_info source "101" = Ok (Some GatewaySamples.b1).
Proof.
  destruct (get_model_info_answers_come_from_sources GatewaySamples.gateway "101" None)
    as [H _].
  destruct (H GatewaySamples.b1 eq_refl) as [source [H1 [H2 _]]].
  exists source. auto.
Defined.

End ModelGatewayMoreProps.

(** ** Sources: ids and type names *)

Module SourceIdProps.
Import ModelSourceBase ModelGateway PyPath SummaryAgentFacts.

Lemma str_in_slash_cons (c : ascii) (s : string) :
  str_in "/" (String c s) = if Ascii.eqb c slash then true else str_in "/" s.
Proof.
  rewrite str_in_unfold. cbn [String.prefix].
  destruct (ascii_dec "/" c) as [<-|Hne].
  - now destruct s.
  - destruct (Ascii.eqb_spec c slash) as [->|_]; [now contradiction Hne | reflexivity].
Qed.

Lemma digit_is_no_slash (c : ascii) :
  is_ascii_digit c = true -> Ascii.eqb c slash = false.
Proof.
  intros H. destruct (Ascii.eqb_spec c slash) as [->|_]; [|reflexivity].
  vm_compute in H. discriminate.
Qed.

Lemma digits_have_no_slash (s : string) :
  all_chars is_ascii_digit s = true -> str_in "/" s = false.
Proof.
  induction s as [|c s IH]; [reflexivity|].
  cbn [all_chars]. intros H. apply andb_prop in H as [Hc Hs].
  now rewrite str_in_slash_cons, (digit_is_no_slash c Hc), IH.
Qed.

Lemma isdigit_shape (s : string) :
  isdigit s = true ->
  startswith s "local:" = false /\ str_in "/" s = false.
Proof.
  destruct s as [|c s]; [discriminate|].
  unfold isdigit. intros H. split; [|now apply digits_have_no_slash].
  cbn [all_chars] in H. apply andb_prop in H as [Hc _].
  unfold startswith. cbn [String.prefix].
  destruct (ascii_dec "l" c) as [<-|_]; [|reflexivity].
  vm_compute in Hc. discriminate.
Qed.

Lemma split_char_nonempty (sep : ascii) (s : string) : split_char sep s <> [].
Proof.
  destruct s as [|c s]; simpl; [discriminate|].
  destruct (Ascii.eqb c sep); [discriminate|].
  destruct (split_char sep s); discriminate.
Qed.

Lemma split_char_no_sep (s : string) :
  str_in "/" s = false -> split_char slash s = [s].
Proof.
  induction s as [|c s IH]; [reflexivity|].
  rewrite str_in_slash_cons. cbn [split_char].
  destruct (Ascii.eqb c slash); [discriminate|].
  intros H. now rewrite (IH H).
Qed.

Lemma split_char_app (a t : string) :
  str_in "/" a = false ->
  split_char slash (a ++ String slash t) = a :: split_char slash t.
Proof.
  induction a as [|c a IH]; intros H.
  - cbn. reflexivity.
  - rewrite str_in_slash_cons in H.
    destruct (Ascii.eqb c slash) eqn:E; [discriminate|].
    change (String c a ++ String slash t)%string
      with (String c (a ++ String slash t)).
    cbn [split_char]. rewrite E, (IH H). reflexivity.
Qed.

(** Splitting at the slashes loses nothing: joining the parts with slashes
    gives the string back, and no part contains a slash. *)
Lemma split_char_join (s : string) :
  join "/" (split_char slash s) = s
  /\ Forall (fun p => str_in "/" p = false) (split_char slash s).
Proof.
  induction s as [|c s [IHj IHf]]; [split; [reflexivity | repeat constructor]|].
  cbn [split_char]. destruct (Ascii.eqb_spec c slash) as [->|Hne].
  - split.
    + pose proof (split_char_nonempty slash s) as Hn.
      destruct (split_char slash s) as [|p ps]; [congruence|].
      cbn [join] in *. now rewrite IHj.
    + constructor; [reflexivity | exact IHf].
  - pose proof (split_char_nonempty slash s) as Hn.
    destruct (split_char slash s) as [|p ps]; [congruence|].
    apply Forall_cons in IHf as [Hp Hps]. split.
    + destruct ps as [|q ps]; cbn [join] in *; now rewrite <- IHj.
    + constructor; [|exact Hps].
      rewrite str_in_slash_cons.
      destruct (Ascii.eqb_spec c slash); [contradiction | exact Hp].
Qed.

Lemma nonblank_iff (p : string) :
  (0 <? Z.of_nat (String.length (strip p))) = true <-> strip p <> "".
Proof.
  destruct (strip p) as [|c q].
  - split; [discriminate | intros H; now contradiction H].
  - split; [discriminate | reflexivity].
Qed.

(** X13: HuggingFace's [validate_model_id] accepts exactly the ids
    [a/b] with one slash and a non-blank text on both sides of it. *)
Theorem huggingface_ids_are_namespace_and_name (model_id : string) :
  HuggingFaceSource.validate_model_id model_id = true
  <-> exists a b,
        model_id = (a ++ "/" ++ b)%string
        /\ str_in "/" a = false /\ str_in "/" b = false
        /\ strip a <> "" /\ strip b <> "".
Proof.
  unfold HuggingFaceSource.validate_model_id. split.
  - destruct (String.eqb model_id ""); [discriminate|].
    intros H. apply andb_prop in H as [Hlen Hall].
    destruct (split_char_join model_id) as [Hj Hf].
    apply Z.eqb_eq in Hlen.
    destruct (split_char slash model_id) as [|a [|b [|c l]]];
      cbn [length] in Hlen; try lia.
    cbn [forallb] in Hall. apply andb_prop in Hall as [Ha Hb].
    apply andb_prop in Hb as [Hb _].
    apply Forall_cons in Hf as [Hfa Hf]. apply Forall_cons in Hf as [Hfb _].
    exists a, b. cbn [join] in Hj.
    split; [now rewrite <- Hj|]. split; [exact Hfa|]. split; [exact Hfb|].
    split; now apply nonblank_iff.
  - intros [a [b [-> [Ha [Hb [Hsa Hsb]]]]]].
    replace (String.eqb (a ++ "/" ++ b) "") with false
      by (symmetry; apply String.eqb_neq; destruct a; discriminate).
    change (a ++ "/" ++ b)%string with (a ++ String slash b)%string.
    rewrite (split_char_app a b Ha), (split_char_no_sep b Hb).
    cbn [length forallb]. apply nonblank_iff in Hsa, Hsb.
    now rewrite Hsa, Hsb.
Qed.

Lemma huggingface_valid_has_slash (model_id : string) :
  HuggingFaceSource.validate_model_id model_id = true ->
  str_in "/" model_id = true.
Proof.
  unfold HuggingFaceSource.validate_model_id.
  destruct (String.eqb model_id ""); [discriminate|].
  intros H. apply andb_prop in H as [Hlen _].
  destruct (split_char_join model_id) as [Hj _].
  apply Z.eqb_eq in Hlen.
  destruct (split_char slash model_id) as [|a [|b [|c l]]];
    cbn [length] in Hlen; try lia.
  cbn [join] in Hj. rewrite <- Hj.
  apply (str_in_later "/" a ("/" ++ b)), (str_in_here "/" b).
Qed.

(** X14: the ids a source accepts are routed to that source.  For an
    ASCII id and without an explicit source, the gateway sends an id that
    Civitai's [validate_model_id] accepts to the Civitai source, one that
    the local scanner's accepts to the Local source, and one that
    HuggingFace's accepts to the HuggingFace source unless it starts with
    "local:": [get_model_info], [download_model] and [get_model_url] give
    what that source gives. *)
Theorem valid_ids_reach_their_source
    (self : Gateway) (model_id dest_dir : string)
    (progress_callback : option ProgressCallback) (kwargs : Kwargs) :
  is_ascii model_id = true ->
  let routed_to (st : ModelSourceType) :=
    forall source, dict_get (sources self) st = Some source ->
      get_model_info self model_id None
        = ModelSourceBase.get_model_info source model_id
      /\ download_model self model_id dest_dir None progress_callback kwargs
         = ModelSourceBase.download_model source model_id dest_dir
             progress_callback kwargs
      /\ get_model_url self model_id None
         = rbind (ModelSourceBase.get_model_url source model_id)
                 (fun url => Ok (Some url)) in
  (CivitaiSource.validate_model_id model_id = true -> routed_to CIVITAI)
  /\ (LocalModelScanner.validate_model_id model_id = true -> routed_to LOCAL)
  /\ (HuggingFaceSource.validate_model_id model_id = true ->
      startswith model_id "local:" = false -> routed_to HUGGINGFACE).
Proof.
  intros _ routed_to. subst routed_to. cbv beta.
  unfold get_model_info, download_model, get_model_url. split; [|split].
  - unfold CivitaiSource.validate_model_id.
    destruct (String.eqb model_id ""); [discriminate|].
    intros Hd source Hsrc. destruct (isdigit_shape model_id Hd) as [-> ->].
    rewrite Hd, Hsrc. repeat split.
  - unfold LocalModelScanner.validate_model_id.
    destruct (String.eqb model_id ""); [discriminate|].
    intros -> source ->. repeat split.
  - intros Hv Hl source Hsrc. rewrite Hl.
    rewrite (huggingface_valid_has_slash model_id Hv), Hsrc.
    repeat split.
Qed.

Lemma valid_ids_reach_their_source_witness :
  get_model_info GatewaySamples.gateway "102" None = Ok (Some GatewaySamples.b2)
  /\ get_model_url GatewaySamples.gateway "org/a1" None
     = Ok (Some "https://models.example/org/a1").
Proof.
  split.
  - destruct (valid_ids_reach_their_source GatewaySamples.gateway "102" "" None []
                eq_refl) as [H _].
    destruct (H eq_refl
                (GatewaySamples.source_returning CIVITAI
                   [GatewaySamples.b1; GatewaySamples.b2]) eq_refl) as [-> _].
    reflexivity.
  - destruct (valid_ids_reach_their_source GatewaySamples.gateway "org/a1" "" None
                [] eq_refl) as [_ [_ H]].
    destruct (H eq_refl eq_refl
                (GatewaySamples.source_returning HUGGINGFACE
                   [GatewaySamples.a1; GatewaySamples.a2; GatewaySamples.a3])
                eq_refl) as [_ [_ ->]].
    reflexivity.
Defined.

(** An id that HuggingFace accepts and the gateway sends to Local. *)
Example local_prefix_shadows_huggingface :
  HuggingFaceSource.validate_model_id "local:org/name" = true
  /\ get_model_url GatewaySamples.gateway "local:org/name" None
     = Ok (Some "https://models.example/local:org/name").
Proof. split; reflexivity. Qed.

Lemma get_default_cases (d : list (string * string)) (key default : string) :
  (has_key d key = false /\ get_default d key default = default)
  \/ (exists v, In (key, v) d /\ get_default d key default = v).
Proof.
  induction d as [|[k v] d IH]; simpl; [now left|].
  destruct (String.eqb_spec k key) as [->|Hne]; simpl.
  - right. exists v. auto.
  - destruct IH as [[H1 H2]|[v' [H1 H2]]]; [left | right; exists v']; auto.
Qed.

(** X15: Civitai's two type tables agree.  For every standard type name
    that [search] translates through its table (in any letter case), the
    Civitai type name it sends is parsed back by [_parse_model] to that
    standard name. *)
Theorem civitai_type_round_trip (model_type : string) :
  has_key CivitaiSource.reverse_type_map (lower model_type) = true ->
  CivitaiSource.parsed_model_type (CivitaiSource.civitai_type model_type)
  = lower model_type.
Proof.
  intros Hk. unfold CivitaiSource.civitai_type.
  destruct (get_default_cases CivitaiSource.reverse_type_map (lower model_type)
              (capitalize model_type)) as [[Hn _]|[v [Hin ->]]]; [congruence|].
  simpl in Hin.
  repeat (destruct Hin as [[= <- <-]|Hin]; [reflexivity|]).
  contradiction.
Qed.

Lemma civitai_type_round_trip_witness :
  CivitaiSource.parsed_model_type (CivitaiSource.civitai_type "Embedding")
  = "embedding".
Proof.
  apply (civitai_type_round_trip "Embedding"). reflexivity.
Defined.

End SourceIdProps.

(** ** Local model scanner *)

Module LocalModelScannerProps.
Import ModelSourceBase PyPath LocalModelScanner.
Import SortFacts ModelGatewayFacts ModelGatewayMoreProps SummaryAgentFacts.

Lemma get_models_spec (fs : FileSystem) (force : bool) (now now' : Q) (self : Scanner) :
  exists index,
    _get_models fs force now now' self
    = (Ok index,
       if force || _should_refresh_cache now self
       then {| _model_cache := Some (_scan_models fs); _cache_timestamp := Some now' |}
       else self)
    /\ _model_cache (snd (_get_models fs force now now' self)) = Some index.
Proof.
  unfold _get_models.
  destruct (force || _should_refresh_cache now self) eqn:E.
  - eexists. split; reflexivity.
  - apply orb_false_elim in E as [_ E]. unfold _should_refresh_cache in E.
    destruct (_model_cache self) as [l|] eqn:Hc; [|discriminate].
    exists l. cbn [snd]. split; [reflexivity | exact Hc].
Qed.

Lemma sort_local_perm (sort_by : option string) (l : list ModelInfo) :
  Permutation (sort_local sort_by l) l.
Proof.
  unfold sort_local. destruct sort_by as [by_|]; [|reflexivity].
  repeat match goal with
         | |- context [if ?b then _ else _] => destruct b
         end; try apply sort_perm; reflexivity.
Qed.







Lemma scan_file_some (fs : FileSystem) (key base root file : string) (m : ModelInfo) :
  scan_file fs key base root file = Some m ->
  id_ m = ("local:" ++ key ++ "/" ++ relpath fs (path_join root file) base)%string
  /\ name m = file /\ source m = LOCAL
  /\ downloads m = None /\ likes m = None
  /\ In (lower (splitext_ext file)) MODEL_EXTENSIONS
  /\ (exists md, metadata m = Some md
                 /\ md !! "full_path" = Some (VStr (path_join root file))).
Proof.
  unfold scan_file.
  destruct (existsb (String.eqb (lower (splitext_ext file))) MODEL_EXTENSIONS) eqn:E;
    [|discriminate].
  cbn [negb].
  destruct (stat fs (path_join root file)) as [[sz mt]|e]; intros [= <-];
    cbn [id_ name source downloads likes metadata];
    (do 5 (split; [reflexivity|])); (split;
      [apply existsb_exists in E as [x [Hin Hx]];
       apply String.eqb_eq in Hx; now subst
      |eexists; split; [reflexivity|]; apply lookup_insert_eq]).
Qed.

Lemma scanned_from_file (fs : FileSystem) (m : ModelInfo) :
  m ∈ _scan_models fs ->
  exists key base root file, scan_file fs key base root file = Some m.
Proof.
  unfold _scan_models. intros H.
  apply list_elem_of_In, in_concat in H as [l1 [H1 Hm]].
  apply in_map_iff in H1 as [[key paths] [<- _]].
  apply in_concat in Hm as [l2 [H2 Hm]].
  apply in_map_iff in H2 as [base [<- _]].
  destruct (negb (path_exists fs base)); [contradiction|].
  apply in_concat in Hm as [l3 [H3 Hm]].
  apply in_map_iff in H3 as [[root files] [<- _]].
  apply list_elem_of_In, list_elem_of_omap in Hm as [file [_ Hf]].
  eauto.
Qed.

(** X18: what the scan indexes.  Every indexed model is of a file with a
    supported extension (letter case ignored); its source is Local and it
    has no download or like counts; its id starts with "local:", so the
    scanner's [validate_model_id] accepts it and the gateway sends it back
    to the Local source; and its metadata holds the full path as text. *)
Theorem scanned_models_are_local (fs : FileSystem) (m : ModelInfo) :
  m ∈ _scan_models fs ->
  In (lower (splitext_ext (name m))) MODEL_EXTENSIONS
  /\ source m = LOCAL /\ downloads m = None /\ likes m = None
  /\ validate_model_id (id_ m) = true
  /\ (forall (self : ModelGateway.Gateway) src,
         dict_get (ModelGateway.sources self) LOCAL = Some src ->
         ModelGateway.get_model_info self (id_ m) None
         = ModelSourceBase.get_model_info src (id_ m))
  /\ (exists md full_path,
         metadata m = Some md /\ md !! "full_path" = Some (VStr full_path)).
Proof.
  intros H. destruct (scanned_from_file fs m H) as [key [base [root [file Hf]]]].
  destruct (scan_file_some fs key base root file m Hf)
    as [Hid [Hname [Hsrc [Hd [Hl [Hext [md [Hmd Hfull]]]]]]]].
  assert (Hpre : startswith (id_ m) "local:" = true).
  { rewrite Hid. apply prefix_app. }
  rewrite Hname. split; [exact Hext|]. do 3 (split; [assumption|]).
  split.
  { unfold validate_model_id. rewrite Hpre.
    rewrite Hid. reflexivity. }
  split.
  { intros self src Hs. unfold ModelGateway.get_model_info. now rewrite Hpre, Hs. }
  eauto.
Qed.

Lemma scanned_models_are_local_witness :
  Forall (fun m => validate_model_id (id_ m) = true /\ source m = LOCAL)
         (_scan_models LocalSamples.disk).
Proof.
  apply Forall_forall. intros m Hm.
  destruct (scanned_models_are_local LocalSamples.disk m Hm)
    as [_ [H1 [_ [_ [H2 _]]]]].
  auto.
Defined.

(** X19: a local "download" copies nothing.  For an indexed model whose
    file still exists, [download_model] returns the full path recorded in
    the index, whatever the destination directory, and reports completion
    to the callback once (never for a model of size 0); for an id that is
    not indexed it raises [ValueError]. *)
Theorem local_download_returns_indexed_path
    (fs : FileSystem) (now now' : Q) (model_id dest_dir : string)
    (progress_callback : option ProgressCallback) (self : Scanner) :
  let index := fst (_get_models fs false now now' self) in
  let self' := snd (_get_models fs false now now' self) in
  (forall models m md full_path,
      index = Ok models ->
      List.find (fun m => String.eqb (id_ m) model_id) models = Some m ->
      metadata m = Some md -> md !! "full_path" = Some (VStr full_path) ->
      full_path <> "" -> path_exists fs full_path = true ->
      download_model fs now now' model_id dest_dir progress_callback self
      = (Ok (full_path,
             match progress_callback, size m with
             | Some _, Some sz => if sz =? 0 then [] else [(sz, sz)]
             | _, _ => []
             end), self'))
  /\ (forall models,
        index = Ok models ->
        List.find (fun m => String.eqb (id_ m) model_id) models = None ->
        download_model fs now now' model_id dest_dir progress_callback self
        = (Raise (Exn ValueError ("Local model " ++ model_id ++ " not found")),
           self')).
Proof.
  intros index self'. subst index self'.
  destruct (get_models_spec fs false now now' self) as [idx [Hget _]].
  unfold download_model, get_model_info, try_except, bind. rewrite Hget.
  cbn [fst snd ret]. split.
  - intros models m md full [= <-] Hfind Hmd Hfull Hne Hex.
    rewrite Hfind, Hmd.
    destruct (bool_decide (md = ∅)) eqn:E.
    { apply bool_decide_eq_true in E. subst md. rewrite lookup_empty in Hfull.
      discriminate. }
    rewrite Hfull, Hex.
    destruct (String.eqb_spec full ""); [contradiction|]. reflexivity.
  - intros models [= <-] Hfind. now rewrite Hfind.
Qed.

Lemma local_download_returns_indexed_path_witness :
  fst (download_model LocalSamples.disk 0 1
         "local:checkpoints/sdxl/base.safetensors" "/tmp/elsewhere" None new)
  = Ok ("/models/checkpoints/sdxl/base.safetensors", []).
Proof.
  destruct (local_download_returns_indexed_path LocalSamples.disk 0 1
              "local:checkpoints/sdxl/base.safetensors" "/tmp/elsewhere" None new)
    as [H _].
  erewrite H; [reflexivity | reflexivity | vm_compute; reflexivity
              | reflexivity | vm_compute; reflexivity | discriminate
              | vm_compute; reflexivity].
Defined.

End LocalModelScannerProps.

(** ** Download task, per-file trackers and the progress routes *)

Module DownloadTaskProps.
Import ModelApi DownloadTaskDefs ModelApiFacts.

Lemma same_outcome_refl (r : ProgressRecord) : same_outcome r r.
Proof. repeat split. Qed.

Lemma same_outcome_trans (r1 r2 r3 : ProgressRecord) :
  same_outcome r1 r2 -> same_outcome r2 r3 -> same_outcome r1 r3.
Proof.
  unfold same_outcome. intros (?&?&?&?&?&?&?) (?&?&?&?&?&?&?).
  repeat split; congruence.
Qed.

Lemma framed_refl (did : string) (registry : Registry) : framed did registry registry.
Proof.
  split; [reflexivity|]. split; [auto|].
  intros r Hr. exists r. split; [exact Hr | apply same_outcome_refl].
Qed.

Lemma framed_trans (did : string) (r1 r2 r3 : Registry) :
  framed did r1 r2 -> framed did r2 r3 -> framed did r1 r3.
Proof.
  intros [A1 [B1 C1]] [A2 [B2 C2]]. split; [|split].
  - intros k Hk. now rewrite A2, A1.
  - auto.
  - intros r Hr. destruct (C1 r Hr) as [r' [Hr' H1]].
    destruct (C2 r' Hr') as [r'' [Hr'' H2]].
    exists r''. split; [exact Hr''|]. eapply same_outcome_trans; eassumption.
Qed.

Lemma framed_write (did : string) (registry : Registry) (r r' : ProgressRecord) :
  registry !! did = Some r -> same_outcome r r' ->
  framed did registry (<[did := r']> registry).
Proof.
  intros Hr Hsame. split; [|split].
  - intros k Hk. now rewrite lookup_insert_ne by congruence.
  - congruence.
  - intros r0 Hr0. exists r'. rewrite lookup_insert_eq. split; [reflexivity|].
    congruence.
Qed.

Lemma tracker_event_framed (fl : FloatOps) (did : string) (ev : TrackerEvent)
    (trackers : list PerFileProgress) (registry : Registry) :
  framed did registry (snd (tracker_event fl did ev (trackers, registry))).
Proof.
  destruct ev as [fname fsize now | i size now | i]; cbn [tracker_event].
  - unfold per_file_init. cbn [snd].
    destruct (registry !! did) as [dp|] eqn:E; [|apply framed_refl].
    apply (framed_write did registry dp); [exact E | repeat split].
  - destruct (trackers !! i) as [t|]; [|apply framed_refl].
    unfold per_file_update. cbn [snd].
    destruct (registry !! did) as [dp|] eqn:E; [|apply framed_refl].
    apply (framed_write did registry dp); [exact E | repeat split].
  - destruct (trackers !! i) as [t|]; [|apply framed_refl].
    unfold per_file_end. cbn [snd].
    destruct (registry !! did) as [dp|] eqn:E; [|apply framed_refl].
    destruct (0 <? pf_file_size t); [|apply framed_refl].
    apply (framed_write did registry dp); [exact E | repeat split].
Qed.

Lemma tracker_events_framed (fl : FloatOps) (did : string)
    (evs : list TrackerEvent)
    (registry : Registry) :
  framed did registry (tracker_events fl did evs registry).
Proof.
  unfold tracker_events.
  assert (H : forall trackers registry0,
             framed did registry0
               (snd (foldl (fun state ev => tracker_event fl did ev state)
                       (trackers, registry0) evs))).
  { induction evs as [|ev evs IH]; intros trackers registry0; cbn [foldl].
    - apply framed_refl.
    - destruct (tracker_event fl did ev (trackers, registry0))
        as [trackers' registry']
        eqn:E.
      eapply framed_trans; [|apply IH].
      pose proof (tracker_event_framed fl did ev trackers registry0) as H.
      now rewrite E in H. }
  apply H.
Qed.

(** X20: the per-file trackers never finalise a download and never undo a
    final state.  Whatever files are started, fed and ended, the records of
    other downloads are untouched, a record that was deleted is not
    created again, and the record of the download keeps its status, error
    message, total time, id, file name, start time and estimated time. *)
Theorem trackers_keep_the_outcome (fl : FloatOps)
    (did : string) (evs : list TrackerEvent) (registry : Registry) :
  (forall k, k <> did -> tracker_events fl did evs registry !! k = registry !! k)
  /\ (registry !! did = None -> tracker_events fl did evs registry !! did = None)
  /\ (forall r, registry !! did = Some r ->
        exists r',
          tracker_events fl did evs registry !! did = Some r'
          /\ status r' = status r /\ error_message r' = error_message r
          /\ total_time r' = total_time r /\ id_ r' = id_ r
          /\ filename r' = filename r /\ start_time r' = start_time r).
Proof.
  destruct (tracker_events_framed fl did evs registry) as [A [B C]].
  split; [exact A|]. split; [exact B|].
  intros r Hr. destruct (C r Hr) as [r' [Hr' (?&?&?&?&?&?&?)]].
  exists r'. auto 10.
Qed.

Lemma trackers_keep_the_outcome_witness :
  status <$> (tracker_events exact_float "download-1"
                [FileStart "base.safetensors" (Some 100) 1;
                 FileUpdate 0 (Some 60) 2; FileUpdate 0 None 3; FileEnd 0]
                (download_progress DownloadSamples.after_failure)
              !! "download-1")
  = Some failed.
Proof.
  destruct (trackers_keep_the_outcome exact_float "download-1"
              [FileStart "base.safetensors" (Some 100) 1;
               FileUpdate 0 (Some 60) 2; FileUpdate 0 None 3; FileEnd 0]
              (download_progress DownloadSamples.after_failure)) as [_ [_ H]].
  destruct (H {| id_ := "7"; filename := "sdxl.safetensors"; file_size := 100;
                 progress := 60; percentage := (inject_Z 60 / inject_Z 100 * 100)%Q;
                 status := failed; start_time := 0%Q;
                 estimated_time := Some (round2 (inject_Z 40 / (inject_Z 60 / (2 - 0))))%Q;
                 speed := round2 (inject_Z 60 / (2 - 0))%Q;
                 error_message := Some "connection reset";
                 total_time := Some (round2 (3 - 0))%Q |})
    as [r' [Hr' [Hs _]]].
  - vm_compute. reflexivity.
  - rewrite Hr'. simpl. now rewrite Hs.
Defined.


Lemma tracker_events_recorded (fl : FloatOps) (evs : list TrackerEvent)
    (st : Store)
    (r : ProgressRecord) :
  recorded st = Some r ->
  exists r1,
    tracker_events fl (download_id (self st)) evs (download_progress st)
      !! download_id (self st) = Some r1.
Proof.
  intros Hr.
  destruct (tracker_events_framed fl (download_id (self st)) evs
              (download_progress st))
    as [_ [_ C]].
  destruct (C r Hr) as [r1 [Hr1 _]]. now exists r1.
Qed.

(** X21: the download task always leaves a final record.  Whatever the
    trackers did and however [snapshot_download] ended, the task itself
    does not raise, and the record of a download that is still registered
    ends with a total time and a final status: completed exactly when the
    download returned and the callback's byte count equals its file size,
    failed otherwise, with the text of the exception or of the failed
    completeness check as error message. *)
Theorem download_task_always_finalises (fl : FloatOps)
    (evs : list TrackerEvent) (outcome : Result string) (t t' : Q)
    (st : Store) (r : ProgressRecord) :
  recorded st = Some r ->
  exists st' r',
    download_task fl evs outcome t t' st = (Ok tt, st')
    /\ recorded st' = Some r'
    /\ match outcome with
       | Ok _ =>
           if self_progress (self st) =? self_file_size (self st)
           then status r' = completed
                /\ progress r' = self_file_size (self st)
                /\ error_message r' = self_error_message (self st)
                /\ total_time r'
                   = Some (float_round2 fl
                             (float_sub fl t (self_start_time (self st))))
           else status r' = failed
                /\ progress r' = self_progress (self st)
                /\ error_message r'
                   = Some ("Download incomplete: "
                             ++ pretty (self_progress (self st)) ++ "/"
                             ++ pretty (self_file_size (self st)))%string
                /\ total_time r'
                   = Some (float_round2 fl
                             (float_sub fl t' (self_start_time (self st))))
       | Raise e =>
           status r' = failed
           /\ progress r' = self_progress (self st)
           /\ error_message r' = Some (str_exn e)
           /\ total_time r'
              = Some (float_round2 fl
                        (float_sub fl t' (self_start_time (self st))))
       end.
Proof.
  intros Hr. destruct (tracker_events_recorded fl evs st r Hr) as [r1 Hr1].
  unfold download_task, try_except.
  destruct outcome as [dir | e].
  - unfold end_ at 1. cbn [set_status self_progress self_file_size self].
    destruct (self_progress (self st) =? self_file_size (self st)) eqn:E.
    + cbn [set_status download_id download_progress self]. rewrite Hr1.
      eexists _, _. split; [reflexivity|].
      unfold recorded. cbn [self download_progress set_status download_id].
      rewrite lookup_insert_eq. split; [reflexivity|].
      cbn. repeat split.
    + unfold fail, end_.
      cbn [set_status download_id download_progress self self_progress
           self_file_size self_start_time str_exn].
      rewrite Hr1.
      eexists _, _. split; [reflexivity|].
      unfold recorded. cbn [self download_progress set_status download_id].
      rewrite lookup_insert_eq. split; [reflexivity|].
      cbn. repeat split.
  - unfold fail, end_.
    cbn [set_status download_id download_progress self self_progress
         self_file_size self_start_time].
    rewrite Hr1.
    eexists _, _. split; [reflexivity|].
    unfold recorded. cbn [self download_progress set_status download_id].
    rewrite lookup_insert_eq. split; [reflexivity|].
    cbn. repeat split.
Qed.

Lemma download_task_always_finalises_witness :
  exists st' r',
    download_task exact_float
      [FileStart "base.safetensors" (Some 100) 1; FileUpdate 0 (Some 100) 2]
      (Ok "/models/checkpoints/sdxl") 3 4 DownloadSamples.after_updates = (Ok tt, st')
    /\ recorded st' = Some r'
    /\ status r' = failed
    /\ error_message r' = Some "Download incomplete: 60/100".
Proof.
  destruct (tracker_events_recorded exact_float [] DownloadSamples.after_updates
              {| id_ := "7"; filename := "sdxl.safetensors"; file_size := 100;
                 progress := 60; percentage := (inject_Z 60 / inject_Z 100 * 100)%Q;
                 status := downloading; start_time := 0%Q;
                 estimated_time := Some (round2 (inject_Z 40 / (inject_Z 60 / (2 - 0))))%Q;
                 speed := round2 (inject_Z 60 / (2 - 0))%Q;
                 error_message := None; total_time := None |})
    as [r0 Hr0]; [vm_compute; reflexivity|].
  destruct (download_task_always_finalises exact_float
              [FileStart "base.safetensors" (Some 100) 1; FileUpdate 0 (Some 100) 2]
              (Ok "/models/checkpoints/sdxl") 3 4 DownloadSamples.after_updates r0 Hr0)
    as [st' [r' [Hrun [Hrec H]]]].
  exists st', r'. split; [exact Hrun|]. split; [exact Hrec|].
  change (self_progress (self DownloadSamples.after_updates)
          =? self_file_size (self DownloadSamples.after_updates))
    with false in H.
  destruct H as [Hs [_ [He _]]]. split; [exact Hs|]. rewrite He. reflexivity.
Defined.

(** X22: what the route's own callback reports.  The route creates the
    callback with file size 0 and only the per-file trackers count bytes,
    so when the task is over the record shows progress 0 and percentage 0:
    a download that returned is reported as completed with 0 bytes, and one
    that raised as failed with the text of the exception. *)
Theorem route_download_ends_with_zero_progress (fl : FloatOps)
    (id model_id model_type did : string) (now : Q) (registry : Registry)
    (evs : list TrackerEvent) (outcome : Result string) (t t' : Q) :
  exists st' r',
    download_task fl evs outcome t t'
      (route_callback id model_id model_type did now registry) = (Ok tt, st')
    /\ recorded st' = Some r'
    /\ progress r' = 0 /\ percentage r' = 0%Q
    /\ status r' = match outcome with Ok _ => completed | Raise _ => failed end
    /\ error_message r'
       = match outcome with Ok _ => None | Raise e => Some (str_exn e) end
    /\ id_ r' = id /\ filename r' = (model_id ++ "." ++ model_type)%string.
Proof.
  unfold route_callback, init.
  match goal with
  | |- context [<[did := ?r0]> registry] =>
      destruct (tracker_events_framed fl did evs (<[did := r0]> registry))
        as [_ [_ C]];
      destruct (C r0 (lookup_insert_eq registry did r0))
        as [r1 [Hr1 (_&_&_&Hid&Hfn&_&_)]]
  end.
  cbn [id_ filename] in Hid, Hfn.
  unfold download_task, try_except.
  destruct outcome as [dir | e].
  - unfold end_. cbn [set_status download_id download_progress self self_progress
                      self_file_size self_start_time].
    change (0 =? 0) with true. cbv iota.
    cbn [set_status download_id download_progress self self_progress
                      self_file_size self_start_time].
    rewrite Hr1.
    eexists _, _. split; [reflexivity|].
    unfold recorded. cbn [self download_progress set_status download_id].
    rewrite lookup_insert_eq. split; [reflexivity|].
    cbn. repeat split; assumption.
  - unfold fail, end_.
    cbn [set_status download_id download_progress self self_progress
         self_file_size self_start_time].
    rewrite Hr1.
    eexists _, _. split; [reflexivity|].
    unfold recorded. cbn [self download_progress set_status download_id].
    rewrite lookup_insert_eq. split; [reflexivity|].
    cbn. repeat split; assumption.
Qed.

Lemma update_keeps_absent (fl : FloatOps) (size : Z) (now : Q) (st : Store) :
  recorded st = None ->
  recorded (snd (update fl size now st)) = None
  /\ download_id (self (snd (update fl size now st))) = download_id (self st).
Proof.
  intros Hr. rewrite (update_self fl st size now).
  unfold recorded in *. rewrite (update_self fl st size now).
  cbn [set_progress download_id]. split; [|reflexivity].
  unfold update.
  match goal with
  | |- context [let '(_, _) := ?c in _] => destruct c as [sp et]
  end.
  cbn [snd download_progress set_progress download_id]. now rewrite Hr.
Qed.

Lemma end_keeps_absent (fl : FloatOps) (ok : bool) (err : option string)
    (now : Q) (st : Store) :
  recorded st = None ->
  recorded (snd (end_ fl ok err now st)) = None
  /\ download_id (self (snd (end_ fl ok err now st))) = download_id (self st).
Proof.
  unfold recorded, end_. intros Hr.
  destruct ok.
  - cbn [set_status self_progress self_file_size].
    destruct (self_progress (self st) =? self_file_size (self st)).
    + cbn [set_status download_id snd self download_progress]. rewrite Hr.
      cbn [download_progress]. now rewrite Hr.
    + cbn [set_status download_id snd self download_progress]. now rewrite Hr.
  - cbn [set_status download_id snd self download_progress]. rewrite Hr.
    cbn [download_progress]. now rewrite Hr.
Qed.

Lemma callback_calls_keep_absent (fl : FloatOps) (calls : list CallbackCall)
    (st : Store) :
  recorded st = None ->
  recorded (foldl (fun s k => callback_call fl k s) st calls) = None
  /\ download_id (self (foldl (fun s k => callback_call fl k s) st calls))
     = download_id (self st).
Proof.
  revert st. induction calls as [|k calls IH]; intros st Hr; cbn [foldl].
  - now split.
  - assert (H : recorded (callback_call fl k st) = None
                /\ download_id (self (callback_call fl k st)) = download_id (self st)).
    { destruct k as [size now | ok err now]; cbn [callback_call].
      - now apply (update_keeps_absent fl).
      - now apply (end_keeps_absent fl). }
    destruct H as [H1 H2]. destruct (IH _ H1) as [H3 H4].
    split; [exact H3 | congruence].
Qed.

Lemma download_task_keeps_absent (fl : FloatOps) (evs : list TrackerEvent)
    (outcome : Result string)
    (t t' : Q) (st : Store) :
  recorded st = None ->
  exists st',
    download_task fl evs outcome t t' st = (Ok tt, st')
    /\ recorded st' = None
    /\ download_id (self st') = download_id (self st).
Proof.
  intros Hr.
  destruct (tracker_events_framed fl (download_id (self st)) evs
              (download_progress st))
    as [_ [B _]].
  specialize (B Hr).
  unfold download_task, try_except.
  destruct outcome as [dir | e].
  - unfold end_ at 1. cbn [set_status self_progress self_file_size self].
    destruct (self_progress (self st) =? self_file_size (self st)) eqn:E.
    + cbn [set_status download_id download_progress self]. rewrite B.
      eexists. split; [reflexivity|]. unfold recorded. cbn. now split.
    + unfold fail, end_.
      cbn [set_status download_id download_progress self self_progress
           self_file_size self_start_time str_exn].
      rewrite B. eexists. split; [reflexivity|]. unfold recorded. cbn. now split.
  - unfold fail, end_.
    cbn [set_status download_id download_progress self self_progress
         self_file_size self_start_time].
    rewrite B. eexists. split; [reflexivity|]. unfold recorded. cbn. now split.
Qed.

(** X23: a record cleared through the DELETE route stays cleared.  After
    [clear_download_progress] for the id of a running download, no later
    call of the callback's [update], [end] or [fail] and no run of the
    download task with its trackers creates the record again: the task
    still ends without raising and [get_download_progress] answers that the
    id is not found.  Clearing leaves every other download's record as it
    was. *)
Theorem cleared_download_stays_cleared (fl : FloatOps)
    (st : Store) (calls : list CallbackCall) (evs : list TrackerEvent)
    (outcome : Result string) (t t' : Q) :
  download_id (self st) <> "" ->
  let did := download_id (self st) in
  let cleared := snd (clear_download_progress (Some did) (download_progress st)) in
  let running :=
    foldl (fun s k => callback_call fl k s)
      {| self := self st; download_progress := cleared |} calls in
  fst (download_task fl evs outcome t t' running) = Ok tt
  /\ get_download_progress (Some did)
       (download_progress (snd (download_task fl evs outcome t t' running)))
     = {| success := false; message := ("Download ID " ++ did ++ " not found")%string;
          data := None |}
  /\ forall k, k <> did -> cleared !! k = download_progress st !! k.
Proof.
  intros Hne did cleared running.
  assert (Hneb : String.eqb did "" = false) by now apply String.eqb_neq.
  assert (Hcl : cleared !! did = None
                /\ forall k, k <> did -> cleared !! k = download_progress st !! k).
  { unfold cleared, clear_download_progress, truthy_str, or_str.
    rewrite Hneb. cbn [negb].
    destruct (download_progress st !! did) eqn:E; cbn [snd].
    - split; [apply lookup_delete_eq|].
      intros k Hk. now rewrite lookup_delete_ne by congruence.
    - split; [exact E | reflexivity]. }
  destruct Hcl as [Habs Hother].
  assert (H0 : recorded {| self := self st; download_progress := cleared |} = None)
    by exact Habs.
  destruct (callback_calls_keep_absent fl calls _ H0) as [H1 H2].
  fold running in H1, H2. cbn [self] in H2.
  destruct (download_task_keeps_absent fl evs outcome t t' running H1)
    as [st' [Hrun [H4 Hd]]].
  rewrite Hrun. cbn [fst snd].
  split; [reflexivity|]. split; [|exact Hother].
  assert (H5 : download_progress st' !! did = None).
  { unfold recorded in H4. rewrite Hd, H2 in H4. exact H4. }
  unfold get_download_progress, truthy_str, or_str. rewrite Hneb. cbn [negb].
  now rewrite H5.
Qed.

Lemma cleared_download_stays_cleared_witness :
  let cleared :=
    snd (clear_download_progress (Some "download-1")
           (download_progress DownloadSamples.started)) in
  let running :=
    foldl (fun s k => callback_call exact_float k s)
      {| self := self DownloadSamples.started; download_progress := cleared |}
      [CallUpdate 40 1; CallUpdate 60 2] in
  get_download_progress (Some "download-1")
    (download_progress
       (snd (download_task exact_float
               [FileStart "base.safetensors" (Some 100) 1; FileEnd 0]
               (Ok "/models/checkpoints/sdxl") 3 4 running)))
  = {| success := false; message := "Download ID download-1 not found";
       data := None |}.
Proof.
  intros cleared running.
  assert (Hne : download_id (self DownloadSamples.started) <> "") by discriminate.
  exact (proj1 (proj2 (cleared_download_stays_cleared exact_float
                         DownloadSamples.started
                         [CallUpdate 40 1; CallUpdate 60 2]
                         [FileStart "base.safetensors" (Some 100) 1; FileEnd 0]
                         (Ok "/models/checkpoints/sdxl") 3 4 Hne))).
Defined.

End DownloadTaskProps.

(** ** Deleting a session *)

Module SessionDeleteProps.
Import SessionMessageTable.

(** X24: a deleted session is gone.  [delete_session_message] answers
    whether a row existed; after it, [get_session_message] finds no row for
    the session, finds the rows of all other sessions as before, and a
    second delete answers [False] and changes nothing. *)
Theorem delete_then_get (c c' : Conn) (sid : string) (db : DB) :
  delete_fault c = None -> get_fault c' = None ->
  let db' := snd (delete_session_message c sid db) in
  fst (delete_session_message c sid db)
  = Ok (bool_decide (is_Some (table db !! sid)))
  /\ get_session_message c' sid db' = (Ok None, db')
  /\ (forall sid', sid' <> sid ->
        get_session_message c' sid' db' = (Ok (table db !! sid'), db'))
  /\ delete_session_message c sid db' = (Ok false, db').
Proof.
  intros Hd Hg db'. subst db'.
  unfold delete_session_message, get_session_message. rewrite Hd, Hg.
  destruct (table db !! sid) as [r|] eqn:Hr; cbn [fst snd table].
  - rewrite lookup_delete_eq. split; [|split; [|split]].
    + now rewrite bool_decide_eq_true_2.
    + reflexivity.
    + intros sid' Hne. now rewrite lookup_delete_ne by congruence.
    + reflexivity.
  - rewrite Hr. split; [|split; [|split]].
    + rewrite bool_decide_eq_false_2; [reflexivity|]. intros [x Hx]. discriminate.
    + reflexivity.
    + reflexivity.
    + reflexivity.
Qed.

Lemma delete_then_get_witness :
  let saved :=
    snd (save_session_message (healthy 1) "chat" (Samples.conversation 3) 0
           None None empty_db) in
  fst (delete_session_message (healthy 2) "chat" saved) = Ok true
  /\ fst (get_session_message (healthy 3) "chat"
            (snd (delete_session_message (healthy 2) "chat" saved)))
     = Ok None.
Proof.
  intros saved.
  destruct (delete_then_get (healthy 2) (healthy 3) "chat" saved eq_refl eq_refl)
    as [H1 [H2 _]].
  split.
  - rewrite H1. reflexivity.
  - rewrite H2. reflexivity.
Defined.

End SessionDeleteProps.

(** ** Looking up local models by id *)

Module LocalLookupProps.
Import ModelSourceBase PyPath LocalModelScanner.
Import LocalModelScannerProps.

Lemma find_by_id_some (l : list ModelInfo) (m : ModelInfo) :
  m ∈ l ->
  exists m', List.find (fun x => String.eqb (id_ x) (id_ m)) l = Some m'
             /\ id_ m' = id_ m /\ m' ∈ l.
Proof.
  induction l as [|x l IH]; intros Hm; [inversion Hm|].
  cbn [List.find]. destruct (String.eqb (id_ x) (id_ m)) eqn:E.
  - exists x. split; [reflexivity|]. split; [now apply String.eqb_eq | left].
  - apply elem_of_cons in Hm as [-> | Hm].
    + now rewrite String.eqb_refl in E.
    + destruct (IH Hm) as [m' [H1 [H2 H3]]]. exists m'.
      split; [exact H1|]. split; [exact H2 | now right].
Qed.

Lemma find_by_id_none (l : list ModelInfo) (model_id : string) :
  (forall m, m ∈ l -> id_ m <> model_id) ->
  List.find (fun x => String.eqb (id_ x) model_id) l = None.
Proof.
  induction l as [|x l IH]; intros H; [reflexivity|].
  cbn [List.find]. destruct (String.eqb (id_ x) model_id) eqn:E.
  - apply String.eqb_eq in E. exfalso. apply (H x); [left | exact E].
  - apply IH. intros m Hm. apply H. now right.
Qed.

Lemma local_search_facts
    (fs : FileSystem) (now now' : Q) (query : string) (page page_size : Z)
    (model_type sort_by : option string) (force_refresh : bool) (self : Scanner) :
  1 <= page -> 0 <= page_size ->
  exists res self' index,
    search fs now now' query page page_size model_type sort_by force_refresh self
    = (Ok res, self')
    /\ _model_cache self' = Some index
    /\ (forall m, m ∈ models res -> m ∈ index).
Proof.
  intros Hpage Hsize.
  destruct (get_models_spec fs force_refresh now now' self) as [index [Hget Hcache]].
  unfold search, try_except, bind. rewrite Hget in *. cbn [snd] in Hcache.
  eexists _, _, index. split; [reflexivity|]. split; [exact Hcache|].
  cbn [models]. intros m Hm. rewrite SortFacts.slice_window in Hm by nia.
  apply subseteq_take, subseteq_drop in Hm.
  rewrite sort_local_perm in Hm.
  apply list_elem_of_In, filter_In in Hm as [Hm _].
  apply filter_In in Hm as [Hm _].
  now apply list_elem_of_In.
Qed.

(** X25: what a local search returns can be looked up by its id.  While
    the cache left by the search is fresh, [get_model_info] called with
    the id of any returned model finds a model of the index with that id
    and leaves the scanner as it is, without looking at the file system;
    an id that no indexed model has gives [None]. *)
Theorem local_results_resolve_by_id
    (fs fs' : FileSystem) (now now' t t' : Q) (query : string) (page page_size : Z)
    (model_type sort_by : option string) (force_refresh : bool)
    (self self' : Scanner) (res : SearchResult) :
  1 <= page -> 0 <= page_size ->
  search fs now now' query page page_size model_type sort_by force_refresh self
  = (Ok res, self') ->
  _should_refresh_cache t self' = false ->
  exists index,
    _model_cache self' = Some index
    /\ (forall m, m ∈ models res ->
          exists m',
            get_model_info fs' t t' (id_ m) self' = (Ok (Some m'), self')
            /\ id_ m' = id_ m /\ m' ∈ index)
    /\ (forall model_id, (forall m, m ∈ index -> id_ m <> model_id) ->
          get_model_info fs' t t' model_id self' = (Ok None, self')).
Proof.
  intros Hpage Hsize Hsearch Hfresh.
  destruct (local_search_facts fs now now' query page page_size model_type sort_by
              force_refresh self Hpage Hsize)
    as [res0 [self0 [index [Hs [Hcache Hin]]]]].
  rewrite Hs in Hsearch. injection Hsearch as <- <-.
  exists index. split; [exact Hcache|].
  assert (Hget : _get_models fs' false t t' self0 = (Ok index, self0)).
  { unfold _get_models. rewrite Hfresh. cbn [orb]. now rewrite Hcache. }
  split.
  - intros m Hm. apply Hin in Hm.
    destruct (find_by_id_some index m Hm) as [m' [H1 [H2 H3]]].
    exists m'. unfold get_model_info, try_except, bind, ret. rewrite Hget, H1.
    auto.
  - intros model_id Hno.
    unfold get_model_info, try_except, bind, ret. rewrite Hget.
    now rewrite (find_by_id_none index model_id Hno).
Qed.

Lemma local_results_resolve_by_id_witness :
  exists index,
    _model_cache (snd (search LocalSamples.disk 10 11 "" 1 30 None (Some "name")
                         false new)) = Some index
    /\ get_model_info LocalSamples.empty_disk 20 21 "local:missing"
         (snd (search LocalSamples.disk 10 11 "" 1 30 None (Some "name") false new))
       = (Ok None,
          snd (search LocalSamples.disk 10 11 "" 1 30 None (Some "name") false new)).
Proof.
  destruct (search LocalSamples.disk 10 11 "" 1 30 None (Some "name") false new)
    as [[res|e] self'] eqn:E; [|vm_compute in E; discriminate].
  assert (Hfresh : _should_refresh_cache 20 self' = false).
  { replace self' with
      (snd (search LocalSamples.disk 10 11 "" 1 30 None (Some "name") false new))
      by now rewrite E.
    vm_compute. reflexivity. }
  destruct (local_results_resolve_by_id LocalSamples.disk LocalSamples.empty_disk
              10 11 20 21 "" 1 30 None (Some "name") false new self' res
              ltac:(lia) ltac:(lia) E Hfresh) as [index [Hc [_ Hnone]]].
  exists index. cbn [snd]. split; [exact Hc|].
  apply Hnone. intros m Hm.
  assert (Hidx : index = _scan_models LocalSamples.disk).
  { replace self' with
      (snd (search LocalSamples.disk 10 11 "" 1 30 None (Some "name") false new))
      in Hc by now rewrite E.
    vm_compute in Hc. injection Hc as <-. vm_compute. reflexivity. }
  subst index.
  let l := eval vm_compute in (_scan_models LocalSamples.disk) in
  change (_scan_models LocalSamples.disk) with l in Hm.
  repeat match goal with
         | H : _ ∈ _ :: _ |- _ => apply elem_of_cons in H as [-> | H]
         | H : _ ∈ [] |- _ => inversion H
         end; vm_compute; discriminate.
Defined.

End LocalLookupProps.
